(** * ddg-web-search: rate limiter, content fetcher, scraper, MCP tool, searcher

    A shallow embedding of the TypeScript sources
      src/utils/RateLimiter.ts, src/fetcher/WebContentFetcher.ts,
      src/fetcher/fetchAndScrape.ts, src/mcp.ts, src/searcher/WebSearcher.ts
    and the properties their specification states about them.

    Conventions.
    - A JavaScript string is the list of its UTF-16 code units.
    - Counters and millisecond time stamps are integers ([Z]).
    - Everything outside the repository (the clock, timers, axios, puppeteer,
      the DOM a page shows, cheerio, turndown, the URL parser) is an
      environment: the impure parts answer through the oracle of a [World],
      the pure parts are the fields of an interface record.
    - Console output is not modelled. *)

From Stdlib Require Import List ZArith NArith Lia Bool String Ascii.
Import ListNotations.

Set Implicit Arguments.

(* ===================================================================== *)
(** * JavaScript values and strings                                       *)
(* ===================================================================== *)

Module JS.

Definition jsstring := list N.

(** The code units of an ASCII literal. *)
Definition lit (s : string) : jsstring :=
  map N_of_ascii (list_ascii_of_string s).

(** U+000A, the line feed. *)
Definition LF : N := 10%N.

Fixpoint eqb (a b : jsstring) : bool :=
  match a, b with
  | [], [] => true
  | x :: a', y :: b' => (x =? y)%N && eqb a' b'
  | _, _ => false
  end.

(** [s.startsWith(p)] *)
Fixpoint startsWith (s p : jsstring) {struct p} : bool :=
  match p, s with
  | [], _ => true
  | x :: p', y :: s' => (x =? y)%N && startsWith s' p'
  | _ :: _, [] => false
  end.

(** [s.includes(p)] *)
Fixpoint includes (s p : jsstring) : bool :=
  startsWith s p ||
  match s with
  | [] => false
  | _ :: s' => includes s' p
  end.

(** [s.replace(pat, rep)] for a string pattern and a replacement without
    [$] patterns: the first occurrence only. *)
Fixpoint replace (s pat rep : jsstring) : jsstring :=
  if startsWith s pat then rep ++ skipn (List.length pat) s
  else match s with
       | [] => []
       | c :: s' => c :: replace s' pat rep
       end.

(** [s.length] *)
Definition len (s : jsstring) : Z := Z.of_nat (List.length s).

(** [s.substring(a, b)] for integer arguments: they are swapped when
    [a > b], and the range is clipped to the string. *)
Definition substring (s : jsstring) (a b : Z) : jsstring :=
  let lo := Z.to_nat (Z.min a b) in
  let hi := Z.to_nat (Z.max a b) in
  firstn (hi - lo) (skipn lo s).

(** ECMAScript WhiteSpace and LineTerminator code points, the ones
    [String.prototype.trim] strips. *)
Definition isWhiteSpace (c : N) : bool :=
  existsb (N.eqb c)
    [9; 10; 11; 12; 13; 32; 160; 5760; 8232; 8233; 8239; 8287; 12288; 65279]%N
  || ((8192 <=? c) && (c <=? 8202))%N.

Fixpoint trimStart (s : jsstring) : jsstring :=
  match s with
  | [] => []
  | c :: s' => if isWhiteSpace c then trimStart s' else s
  end.

Definition trimEnd (s : jsstring) : jsstring := rev (trimStart (rev s)).

Definition trim (s : jsstring) : jsstring := trimEnd (trimStart s).

(** [s.split("\n")]: never the empty array; the empty string gives [[""]]. *)
Fixpoint split_lines (s : jsstring) : list jsstring :=
  match s with
  | [] => [[]]
  | c :: s' =>
      if (c =? LF)%N then [] :: split_lines s'
      else match split_lines s' with
           | l :: ls => (c :: l) :: ls
           | [] => [[c]]
           end
  end.

(** [parts.join(sep)] *)
Fixpoint join (sep : jsstring) (parts : list jsstring) : jsstring :=
  match parts with
  | [] => []
  | [p] => p
  | p :: ps => p ++ sep ++ join sep ps
  end.

(** What a maximal run of [k] line feeds becomes under
    [replace(/\n{3,}/g, "\n\n")]. *)
Definition emit_run (k : nat) : jsstring :=
  if (3 <=? k)%nat then [LF; LF] else repeat LF k.

(** [s.replace(/\n{3,}/g, "\n\n")]: the scan carries the length of the run
    of line feeds read so far. *)
Fixpoint collapse_from (run : nat) (s : jsstring) : jsstring :=
  match s with
  | [] => emit_run run
  | c :: s' =>
      if (c =? LF)%N then collapse_from (S run) s'
      else emit_run run ++ c :: collapse_from 0 s'
  end.

Definition collapse_newlines (s : jsstring) : jsstring := collapse_from 0 s.

(** A number: a finite double is [m * 2^e]; only its truthiness is used. *)
Inductive JSNumber :=
| NaN
| Infinity (negative : bool)
| Finite (m e : Z).

(** The values an HTTP response body, a thrown value or a tool argument can
    be.  An object is opaque: it is truthy and its [typeof] is "object". *)
Inductive JSValue :=
| JSUndefined
| JSNull
| JSBoolean (b : bool)
| JSNum (x : JSNumber)
| JSString (s : jsstring)
| JSObject (ref : nat).

(** ToBoolean *)
Definition truthy (v : JSValue) : bool :=
  match v with
  | JSUndefined | JSNull => false
  | JSBoolean b => b
  | JSNum NaN => false
  | JSNum (Infinity _) => true
  | JSNum (Finite m _) => negb (m =? 0)%Z
  | JSString s => negb (eqb s [])
  | JSObject _ => true
  end.

(** [typeof v === "string"] *)
Definition is_string (v : JSValue) : bool :=
  match v with
  | JSString _ => true
  | _ => false
  end.

(** A string-or-undefined property: [a || b]. *)
Definition or_else (a b : option jsstring) : option jsstring :=
  match a with
  | Some (_ :: _) => a
  | _ => b
  end.

(** [a || ""], and what a string that is known to be there is. *)
Definition or_empty (a : option jsstring) : jsstring :=
  match a with
  | Some s => s
  | None => []
  end.

(** Truthiness of a string-or-undefined value. *)
Definition present (a : option jsstring) : bool :=
  match a with
  | Some (_ :: _) => true
  | _ => false
  end.

(** What a [throw] carries: an [Error] with its message, or any value. *)
Inductive Thrown :=
| ErrorObject (message : jsstring)
| ThrownValue (v : JSValue).

End JS.
Import JS.

(* ===================================================================== *)
(** * The DOM a search page shows to the in-page extraction               *)
(* ===================================================================== *)

Module Dom.

(** What the extraction reads of an element found by [querySelector]:
    [textContent] (null on some node kinds), the [href] property (undefined
    unless the element is an anchor) and [getAttribute("href")]. *)
Record Node := mkNode {
  textContent : option jsstring;
  href : option jsstring;
  getAttribute_href : option jsstring
}.

(** A result container: [element.querySelector(sel)]. *)
Record Element := mkElement {
  querySelector : jsstring -> option Node
}.

(** [document.querySelectorAll(sel)] *)
Record Document := mkDocument {
  querySelectorAll : jsstring -> list Element
}.

End Dom.

(* ===================================================================== *)
(** * The world outside the process                                       *)
(* ===================================================================== *)

Module Runtime.

Definition Browser := nat.
Definition Page := nat.

(** The function handed to [page.waitForFunction]. *)
Inductive PageFunction :=
| ConstTrue.   (* () => true *)

(** The asynchronous calls that leave the process, indexed by the type of
    what they resolve to. *)
Inductive Call : Type -> Type :=
| AxiosGet (url : jsstring) (timeout : Z) : Call JSValue
| PuppeteerLaunch (headless : bool) (args : list jsstring)
    : Call (option Browser)
| BrowserClose (b : Browser) : Call unit
| NewPage (b : Browser) : Call Page
| SetUserAgent (p : Page) (ua : jsstring) : Call unit
| SetViewport (p : Page) (width height : Z) : Call unit
| PageGoto (p : Page) (url waitUntil : jsstring) (timeout : Z) : Call unit
| PageQuery (p : Page) (selector : jsstring) : Call bool
| WaitForFunction (p : Page) (f : PageFunction) (timeout : Z) : Call unit
| WaitForSelector (p : Page) (selector : jsstring) (hidden : bool)
    (timeout : Z) : Call unit
| PageType (p : Page) (selector text : jsstring) : Call unit
| PageClick (p : Page) (selector : jsstring) : Call unit
| WaitForNavigation (p : Page) (waitUntil : jsstring) (timeout : Z)
    : Call unit
| PageEvaluate (p : Page) : Call Dom.Document
| PageClose (p : Page) : Call unit.

Inductive AnyCall :=
| Called (R : Type) (c : Call R).

(** How an awaited call ends. *)
Inductive Outcome (R : Type) :=
| Resolved (r : R)
| Rejected (e : Thrown).
Arguments Rejected {R} e.

(** The environment answers a call knowing the calls made before it. *)
Definition Oracle := forall R : Type, list AnyCall -> Call R -> Outcome R.

(** The clock moves while the process awaits: by what the environment
    takes for a call, and by the delay of a timer and what the timer is
    late. *)
Record World := mkWorld {
  clock : Z;                (* what Date.now() reads *)
  lateness : list Z;        (* the time the coming awaits take, beyond the
                               delay of a timer *)
  timers : list Z;          (* delays handed to setTimeout, newest first *)
  calls : list AnyCall;     (* calls made, newest first *)
  respond : Oracle
}.

(** The time the next await takes. *)
Definition next_late (w : World) : Z :=
  match lateness w with
  | [] => 0%Z
  | l :: _ => Z.max 0 l
  end.

Definition Date_now (w : World) : Z := clock w.

(** Node's timers: a delay below 1 or above 2^31-1 is set to 1. *)
Definition timer_delay (ms : Z) : Z :=
  if ((ms <? 1) || (2147483647 <? ms))%Z then 1%Z else ms.

(** [await new Promise((resolve) => setTimeout(resolve, ms))] *)
Definition sleep (ms : Z) (w : World) : World :=
  mkWorld (clock w + timer_delay ms + next_late w) (tl (lateness w))
          (ms :: timers w) (calls w) (respond w).

(** [await c] for a call that leaves the process. *)
Definition perform (R : Type) (c : Call R) (w : World) : Outcome R * World :=
  (respond w (calls w) c,
   mkWorld (clock w + next_late w) (tl (lateness w)) (timers w)
           (Called c :: calls w) (respond w)).

End Runtime.
Import Runtime.

(* ===================================================================== *)
(** * src/utils/RateLimiter.ts                                            *)
(* ===================================================================== *)

Module RateLimiter.

Local Open Scope Z_scope.

Record t := mk {
  requests : Z;
  limit : Z;
  interval : Z;
  lastRequestTime : Z
}.

Definition set_requests (n : Z) (self : t) : t :=
  mk n (limit self) (interval self) (lastRequestTime self).

Definition set_lastRequestTime (ts : Z) (self : t) : t :=
  mk (requests self) (limit self) (interval self) ts.

(** [new RateLimiter(limit, interval)] *)
Definition new (limit interval : Z) (w : World) : Outcome t :=
  if limit <=? 0 then
    Rejected (ErrorObject (lit "Rate limit must be greater than 0"))
  else if interval <=? 0 then
    Rejected (ErrorObject (lit "Rate limit interval must be greater than 0"))
  else Resolved (mk 0 limit interval (Date_now w)).

(** [acquire()] *)
Definition acquire (self : t) (w : World) : t * World :=
  let now := Date_now w in
  let timeSinceLastRequest := now - lastRequestTime self in
  (* Reset counter if interval has passed *)
  let self :=
    if interval self <=? timeSinceLastRequest
    then set_lastRequestTime now (set_requests 0 self)
    else self in
  (* If we're under the limit, allow the request *)
  if requests self <? limit self then
    let self := set_requests (requests self + 1) self in
    let self :=
      if requests self =? 1 then set_lastRequestTime now self else self in
    (self, w)
  else
    (* wait for the remainder of the interval *)
    let waitTime := interval self - timeSinceLastRequest in
    let w := sleep waitTime w in
    (* Reset and allow the request *)
    (set_lastRequestTime (Date_now w) (set_requests 1 self), w).

(** [getStatus()] *)
Definition getStatus (self : t) : Z * Z * Z :=
  (requests self, limit self, interval self).

End RateLimiter.

(* ===================================================================== *)
(** * src/types/index.ts                                                  *)
(* ===================================================================== *)

Module Types.

Record Selectors := mkSelectors {
  remove : option (list jsstring);
  focus : option jsstring
}.

(** Every field is optional; [None] is [undefined]. *)
Record ScraperOptions := mkScraperOptions {
  includeMetadata : option bool;
  includeLinks : option bool;
  cleanWhitespace : option bool;
  selectors : option Selectors
}.

Record Metadata := mkMetadata {
  title : option jsstring;
  description : option jsstring;
  url : option jsstring;
  author : option jsstring;
  publishDate : option jsstring
}.

Record WebContent := mkWebContent {
  content : jsstring;
  metadata : option Metadata
}.

Record FetchResult := mkFetchResult {
  success : bool;
  data : option WebContent;
  error : option jsstring
}.

Record SearchResult := mkSearchResult {
  sr_title : jsstring;
  sr_url : jsstring;
  sr_snippet : jsstring;
  sr_icon : option jsstring
}.

End Types.
Import Types.

(* ===================================================================== *)
(** * The libraries the fetch path calls                                  *)
(* ===================================================================== *)

Module Libs.

(** cheerio.  A document is mutated in place by the scraper, so every
    operation takes the current document.  A selection, [$(selector)], is
    the list of the elements that match, in document order: references
    into the document, read against the document as it is when they are
    used. *)
Record Cheerio := mkCheerio {
  Doc : Type;
  Elem : Type;
  load : jsstring -> Doc;                    (* cheerio.load(html) *)
  select : jsstring -> Doc -> list Elem;     (* $(selector) *)
  remove_elems : list Elem -> Doc -> Doc;    (* $(...).remove() *)
  unlink : list Elem -> Doc -> Doc;
    (* $(...).find("a").each((_, el) => $(el).replaceWith($(el).text())) *)
  elem_text : Elem -> Doc -> jsstring;       (* the text of one element *)
  elem_attr : Elem -> jsstring -> Doc -> option jsstring;
                                             (* one of its attributes *)
  elem_html : Elem -> Doc -> jsstring        (* its inner HTML *)
}.

Section Selections.

Variable C : Cheerio.

(** [.length] *)
Definition sel_length (sel : list (Elem C)) : nat := List.length sel.

(** [.remove()] *)
Definition sel_remove (sel : list (Elem C)) (d : Doc C) : Doc C :=
  remove_elems C sel d.

(** [.text()]: the texts of all the elements, put together. *)
Definition sel_text (sel : list (Elem C)) (d : Doc C) : jsstring :=
  List.concat (map (fun e => elem_text C e d) sel).

(** [.attr(name)]: the attribute of the first element; undefined when the
    selection is empty or the element has no such attribute. *)
Definition sel_attr (sel : list (Elem C)) (name : jsstring) (d : Doc C)
  : option jsstring :=
  match sel with
  | [] => None
  | e :: _ => elem_attr C e name d
  end.

(** [.html()]: the inner HTML of the first element; null when the
    selection is empty. *)
Definition sel_html (sel : list (Elem C)) (d : Doc C) : option jsstring :=
  match sel with
  | [] => None
  | e :: _ => Some (elem_html C e d)
  end.

End Selections.

Record t := mk {
  cheerio : Cheerio;
  (** [new TurndownService({headingStyle: "atx", codeBlockStyle: "fenced"})
      .turndown(html)] *)
  turndown : jsstring -> jsstring;
  (** whether [new URL(url)] returns rather than throws *)
  URL_parses : jsstring -> bool
}.

End Libs.

(* ===================================================================== *)
(** * src/fetcher/fetchAndScrape.ts                                       *)
(* ===================================================================== *)

Module Scraper.

Import Libs.

(** The double quote, for selectors that hold one. *)
Definition DQ : N := 34%N.

(** [tag[name="value"]] *)
Definition attr_selector (tag name value : string) : jsstring :=
  lit tag ++ lit "[" ++ lit name ++ lit "=" ++ [DQ] ++ lit value ++ [DQ]
  ++ lit "]".

Definition defaultRemove : list jsstring :=
  [ lit "script"; lit "style"; lit "noscript"; lit "iframe"; lit "svg";
    lit "nav"; lit "footer";
    attr_selector "header" "role" "banner";
    attr_selector "" "role" "navigation";
    attr_selector "" "role" "complementary";
    lit ".advertisement"; lit ".ad"; lit ".sidebar"; lit ".cookie-banner";
    lit "#cookie-notice" ].

Definition mainSelectors : list jsstring :=
  [ lit "main"; lit "article"; attr_selector "" "role" "main";
    lit "#content"; lit ".content" ].

Definition default_true (o : option bool) : bool :=
  match o with
  | Some b => b
  | None => true
  end.

(** [selectors = {}] when the option is undefined. *)
Definition selectors_of (options : ScraperOptions) : Selectors :=
  match selectors options with
  | Some s => s
  | None => mkSelectors None None
  end.

Section WithCheerio.

Variable C : Cheerio.
Variable turndown : jsstring -> jsstring.

(** [elementsToRemove.forEach((selector) => { $(selector).remove(); })] *)
Definition remove_elements (elementsToRemove : list jsstring) (d : Doc C)
  : Doc C :=
  fold_left (fun d selector => sel_remove C (select C selector d) d)
            elementsToRemove d.

(** [$(selector).attr("content")] *)
Definition meta_content (selector : jsstring) (d : Doc C) : option jsstring :=
  sel_attr C (select C selector d) (lit "content") d.

(** The metadata object literal. *)
Definition extract_metadata (url : option jsstring) (d : Doc C) : Metadata :=
  mkMetadata
    (or_else (Some (sel_text C (select C (lit "title") d) d))
             (meta_content (attr_selector "meta" "property" "og:title") d))
    (or_else (meta_content (attr_selector "meta" "name" "description") d)
             (meta_content (attr_selector "meta" "property" "og:description")
                           d))
    (or_else url
             (meta_content (attr_selector "meta" "property" "og:url") d))
    (or_else (meta_content (attr_selector "meta" "name" "author") d)
             (meta_content (attr_selector "meta" "property" "article:author")
                           d))
    (or_else (meta_content
                (attr_selector "meta" "property" "article:published_time") d)
             (sel_attr C (select C (lit "time[datetime]") d) (lit "datetime")
                       d)).

(** The [for (const sel of mainSelectors)] loop: the first selector that
    matches an element replaces the content root. *)
Fixpoint find_main (sels : list jsstring) (d : Doc C)
  (current : list (Elem C)) : list (Elem C) :=
  match sels with
  | [] => current
  | sel :: rest =>
      let main := select C sel d in
      if (0 <? sel_length C main)%nat then main else find_main rest d current
  end.

(** The content root. *)
Definition content_root (sels : Selectors) (d : Doc C) : list (Elem C) :=
  let content :=
    if present (focus sels)
    then select C (match focus sels with Some f => f | None => [] end) d
    else select C (lit "body") d in
  if negb (present (focus sels)) then find_main mainSelectors d content
  else content.

(** The whitespace clean-up of the Markdown. *)
Definition clean_whitespace (markdown : jsstring) : jsstring :=
  collapse_newlines
    (join [LF; LF]
       (filter (fun line => (0 <? len line)%Z)
          (map trim (split_lines markdown)))).

(** One [if (metadata.x) finalText += ...] step. *)
Definition add_if (field : option jsstring) (before after : jsstring)
  (finalText : jsstring) : jsstring :=
  match field with
  | Some (c :: v) => finalText ++ before ++ (c :: v) ++ after
  | _ => finalText
  end.

(** The header built from the metadata. *)
Definition header (m : Metadata) : jsstring :=
  add_if (description m) [] ([LF; LF] ++ lit "---" ++ [LF; LF])
    (add_if (publishDate m) (lit "Published: ") [LF; LF]
       (add_if (author m) (lit "Author: ") [LF; LF]
          (add_if (url m) (lit "Source: ") [LF; LF]
             (add_if (title m) (lit "# ") [LF; LF] [])))).

(** [scrapeWebPage(html, url, options)] *)
Definition scrapeWebPage (html : jsstring) (url : option jsstring)
  (options : ScraperOptions) : WebContent :=
  let includeMetadata := default_true (includeMetadata options) in
  let includeLinks := default_true (includeLinks options) in
  let cleanWhitespace := default_true (cleanWhitespace options) in
  let selectors := selectors_of options in
  let d := load C html in
  (* Remove unwanted elements *)
  let elementsToRemove :=
    defaultRemove ++ match remove selectors with
                     | Some l => l
                     | None => []
                     end in
  let d := remove_elements elementsToRemove d in
  (* Extract metadata *)
  let metadata :=
    if includeMetadata then Some (extract_metadata url d) else None in
  (* Focus on main content *)
  let content := content_root selectors d in
  (* Handle links *)
  let d := if negb includeLinks then unlink C content d else d in
  (* Convert HTML to Markdown *)
  let markdown :=
    turndown (match sel_html C content d with
              | Some (c :: h) => c :: h
              | _ => []
              end) in
  (* Clean up whitespace *)
  let markdown :=
    if cleanWhitespace then clean_whitespace markdown else markdown in
  (* Build final text output *)
  let finalText :=
    match metadata with
    | Some m => header m
    | None => []
    end in
  mkWebContent (finalText ++ markdown) metadata.

End WithCheerio.

End Scraper.

(* ===================================================================== *)
(** * src/utils/HttpClient.ts                                             *)
(* ===================================================================== *)

Module HttpClient.

Definition DEFAULT_TIMEOUT_MS : Z := 10000.

(** [get<T>(url)]: the response data, or the error of axios thrown again
    after it was logged. *)
Definition get (url : jsstring) (w : World) : Outcome JSValue * World :=
  perform (AxiosGet url DEFAULT_TIMEOUT_MS) w.

End HttpClient.

(* ===================================================================== *)
(** * src/fetcher/WebContentFetcher.ts                                    *)
(* ===================================================================== *)

Module WebContentFetcher.

Record t := mk {
  rateLimiter : RateLimiter.t
}.

(** [new WebContentFetcher(rateLimit = 1, rateLimitInterval = 1000)] *)
Definition new (rateLimit rateLimitInterval : option Z) (w : World)
  : Outcome t :=
  match RateLimiter.new
          (match rateLimit with Some n => n | None => 1%Z end)
          (match rateLimitInterval with Some n => n | None => 1000%Z end) w
  with
  | Resolved rl => Resolved (mk rl)
  | Rejected e => Rejected e
  end.

Definition parse_options : ScraperOptions :=
  mkScraperOptions (Some true) (Some true) (Some true)
                   (Some (mkSelectors (Some []) (Some []))).

Section WithLibs.

Variable L : Libs.t.

(** [parseContent(data)] *)
Definition parseContent (data : JSValue) : Outcome WebContent :=
  if negb (truthy data) || negb (is_string data) then
    Rejected (ErrorObject (lit "No content received"))
  else
    match data with
    | JSString html =>
        Resolved (Scraper.scrapeWebPage (Libs.cheerio L) (Libs.turndown L)
                    html (Some []) parse_options)
    | _ => Rejected (ErrorObject (lit "No content received"))
    end.

(** [error instanceof Error ? error.message : "Unknown error"] *)
Definition errorMessage (e : Thrown) : jsstring :=
  match e with
  | ErrorObject message => message
  | ThrownValue _ => lit "Unknown error"
  end.

Definition failure (message : jsstring) : FetchResult :=
  mkFetchResult false None (Some message).

(** [fetch(url)] *)
Definition fetch (self : t) (url : jsstring) (w : World)
  : FetchResult * t * World :=
  if negb (truthy (JSString url)) || (len (trim url) =? 0)%Z then
    (failure (lit "URL cannot be empty"), self, w)
  else if negb (Libs.URL_parses L url) then
    (failure (lit "Invalid URL format"), self, w)
  else
    let '(rl, w) := RateLimiter.acquire (rateLimiter self) w in
    let self := mk rl in
    let '(response, w) := HttpClient.get url w in
    let outcome :=
      match response with
      | Resolved v => parseContent v
      | Rejected e => Rejected e
      end in
    match outcome with
    | Resolved content => (mkFetchResult true (Some content) None, self, w)
    | Rejected e =>
        (failure (lit "Failed to fetch content: " ++ errorMessage e), self, w)
    end.

End WithLibs.

End WebContentFetcher.

(* ===================================================================== *)
(** * src/mcp.ts: the fetch_web_content tool                              *)
(* ===================================================================== *)

Module Mcp.

(** [{ content: [{ type: "text", text }] }] *)
Record ToolResponse := mkToolResponse {
  text : jsstring
}.

Definition maxLength : Z := 10000.

(** "Truncate very long content" (lines 229-234); [${maxLength}] prints
    as 10000. *)
Definition truncate (content : jsstring) : jsstring :=
  if (maxLength <? len content)%Z
  then substring content 0 maxLength ++ lit "..." ++ [LF; LF]
       ++ lit "[Content truncated - showing first " ++ lit "10000"
       ++ lit " characters]"
  else content.

(** [result.data?.content], undefined without data. *)
Definition content_of (result : FetchResult) : option jsstring :=
  match data result with
  | Some wc => Some (content wc)
  | None => None
  end.

Section WithLibs.

Variable L : Libs.t.

(** The [try] block of [handleFetchTool]. *)
Definition fetch_and_format (fetcher : WebContentFetcher.t) (url : jsstring)
  (w : World) : Outcome ToolResponse * WebContentFetcher.t * World :=
  let '(result, fetcher, w) := WebContentFetcher.fetch L fetcher url w in
  if negb (success result) then
    (Rejected (ErrorObject
                 (match error result with
                  | Some (c :: e) => c :: e
                  | _ => lit "Failed to fetch content"
                  end)), fetcher, w)
  else if negb (present (content_of result)) then
    (Resolved (mkToolResponse
                 (lit "Successfully fetched content from " ++ url
                  ++ lit ", but no text content was extracted.")),
     fetcher, w)
  else
    (Resolved (mkToolResponse
                 (lit "Content from " ++ url ++ lit ":" ++ [LF; LF]
                  ++ truncate (or_empty (content_of result)))), fetcher, w).

(** [handleFetchTool(args)], [args.url] being any value or missing. *)
Definition handleFetchTool (fetcher : WebContentFetcher.t)
  (args_url : option JSValue) (w : World)
  : Outcome ToolResponse * WebContentFetcher.t * World :=
  match args_url with
  | Some (JSString (c :: u)) =>
      let url := trim (c :: u) in
      if (len url =? 0)%Z then
        (Rejected (ErrorObject (lit "URL cannot be empty")), fetcher, w)
      else if negb (Libs.URL_parses L url) then
        (Rejected (ErrorObject (lit "Invalid URL format")), fetcher, w)
      else
        match fetch_and_format fetcher url w with
        | (Resolved r, fetcher, w) => (Resolved r, fetcher, w)
        | (Rejected e, fetcher, w) =>
            (Rejected
               (ErrorObject
                  (lit "Web content fetch failed: "
                   ++ match e with
                      | ErrorObject message => message
                      | ThrownValue _ => lit "Fetch failed"
                      end)), fetcher, w)
        end
  | _ =>
      (Rejected (ErrorObject (lit "Missing or invalid URL parameter")),
       fetcher, w)
  end.

End WithLibs.

End Mcp.

(* ===================================================================== *)
(** * src/searcher/WebSearcher.ts                                         *)
(* ===================================================================== *)

Module WebSearcher.

Record t := mk {
  rateLimiter : RateLimiter.t;
  baseUrl : jsstring;
  browser : option Browser;
  headless : bool
}.

Definition set_rateLimiter (rl : RateLimiter.t) (self : t) : t :=
  mk rl (baseUrl self) (browser self) (headless self).

Definition set_browser (b : option Browser) (self : t) : t :=
  mk (rateLimiter self) (baseUrl self) b (headless self).

(** [new WebSearcher(headless = true)]: 1 request per 2 seconds. *)
Definition new (headless : option bool) (w : World) : Outcome t :=
  match RateLimiter.new 1 2000 w with
  | Resolved rl =>
      Resolved (mk rl (lit "https://html.duckduckgo.com") None
                   (match headless with Some b => b | None => true end))
  | Rejected e => Rejected e
  end.

(** ** The extraction that [page.evaluate] runs inside the page *)

Definition resultSelectors : list jsstring :=
  [ lit ".result"; lit ".web-result"; lit "[data-result]";
    lit ".result__body"; lit ".results_links"; lit ".result-link";
    lit ".results .result";
    lit "article"; Scraper.attr_selector "" "data-testid*" "result";
    lit ".snippet" ].

Definition titleSelectors : list jsstring :=
  [ lit ".result__title a"; lit ".result__a"; lit "h2 a"; lit "h3 a";
    lit ".result-title a";
    Scraper.attr_selector "a" "data-testid" "result-title-a";
    lit "a[href]"; lit ".titlelink"; lit ".result-header a" ].

Definition snippetSelectors : list jsstring :=
  [ lit ".result__snippet"; lit ".result-snippet"; lit ".snippet";
    lit ".description"; Scraper.attr_selector "" "data-result" "snippet";
    lit ".result__body"; lit ".summary" ].

(** [node.textContent?.trim()], undefined when there is no text. *)
Definition trimmed_text (n : Dom.Node) : option jsstring :=
  match Dom.textContent n with
  | Some t => Some (trim t)
  | None => None
  end.

(** The [for (const sel of sels)] loops over the title and the snippet
    selectors: the variable is assigned at every turn and the loop breaks
    at the first element found whose trimmed text is not empty, so after a
    loop that never breaks it holds what the last selector found. *)
Fixpoint find_element (sels : list jsstring) (element : Dom.Element)
  (current : option Dom.Node) : option Dom.Node :=
  match sels with
  | [] => current
  | sel :: rest =>
      let found := Dom.querySelector element sel in
      match found with
      | Some n =>
          if present (trimmed_text n) then found
          else find_element rest element found
      | None => find_element rest element found
      end
  end.

(** "Handle relative URLs" *)
Definition normalize_url (url : jsstring) : jsstring :=
  if startsWith url (lit "//") then lit "https:" ++ url
  else if startsWith url (lit "/") then lit "https://duckduckgo.com" ++ url
  else if startsWith url (lit "http://")
       then replace url (lit "http://") (lit "https://")
  else url.

(** The test that guards [searchResults.push]. *)
Definition keeps (title url : jsstring) : bool :=
  truthy (JSString title) && truthy (JSString url)
  && negb (includes url (lit "duckduckgo.com/y.js"))
  && negb (includes url (lit "duckduckgo.com/l/?uddg="))
  && negb (includes url (lit "javascript:"))
  && startsWith url (lit "http").

(** The body of [resultElements.forEach]: the results one element adds. *)
Definition extract_element (element : Dom.Element) : list SearchResult :=
  let titleElement := find_element titleSelectors element None in
  let snippetElement := find_element snippetSelectors element None in
  match titleElement with
  | Some te =>
      let title := or_empty (trimmed_text te) in
      let url := or_empty (or_else (Dom.href te) (Dom.getAttribute_href te)) in
      let snippet :=
        or_empty (match snippetElement with
                  | Some se => trimmed_text se
                  | None => None
                  end) in
      let url := normalize_url url in
      if keeps title url
      then [mkSearchResult title url snippet (Some [])]
      else []
  | None => []
  end.

(** The [for (const selector of resultSelectors)] loop; [searchResults] is
    the array filled so far. *)
Fixpoint extract_from (sels : list jsstring) (document : Dom.Document)
  (searchResults : list SearchResult) : list SearchResult :=
  match sels with
  | [] => searchResults
  | selector :: rest =>
      let resultElements := Dom.querySelectorAll document selector in
      if (0 <? List.length resultElements)%nat then
        let searchResults :=
          searchResults ++ flat_map extract_element resultElements in
        if (0 <? List.length searchResults)%nat then searchResults
        else extract_from rest document searchResults
      else extract_from rest document searchResults
  end.

Definition extract (document : Dom.Document) : list SearchResult :=
  extract_from resultSelectors document [].

(** ** The browser session *)

(** What an [async] body works on: the instance, the local [page] and the
    world. *)
Record Frame := mkFrame {
  this : t;
  page : option Page;
  world : World
}.

Definition M (A : Type) : Type := Frame -> Outcome A * Frame.

Definition ret (A : Type) (a : A) : M A := fun fr => (Resolved a, fr).

Definition bind (A B : Type) (m : M A) (k : A -> M B) : M B :=
  fun fr =>
    match m fr with
    | (Resolved a, fr') => k a fr'
    | (Rejected e, fr') => (Rejected e, fr')
    end.

Definition throw (A : Type) (e : Thrown) : M A := fun fr => (Rejected e, fr).

(** [await c] *)
Definition await (R : Type) (c : Call R) : M R :=
  fun fr =>
    let '(r, w) := perform c (world fr) in
    (r, mkFrame (this fr) (page fr) w).

(** [try { await c; ... } catch { ... }] around one call: whether it
    resolved. *)
Definition attempt (R : Type) (c : Call R) : M bool :=
  fun fr =>
    match await c fr with
    | (Resolved _, fr') => (Resolved true, fr')
    | (Rejected _, fr') => (Resolved false, fr')
    end.

Declare Scope searcher_scope.
Delimit Scope searcher_scope with searcher.
Notation "x <- m ;; k" := (bind m (fun x => k))
  (at level 100, m at next level, right associativity) : searcher_scope.
Notation "m ;;; k" := (bind m (fun _ => k))
  (at level 100, right associativity) : searcher_scope.
Local Open Scope searcher_scope.

Definition launch_args : list jsstring :=
  [ lit "--no-sandbox"; lit "--disable-setuid-sandbox";
    lit "--disable-blink-features=AutomationControlled";
    lit "--disable-features=VizDisplayCompositor" ].

(** [initBrowser()] (lines 24-36): launch unless a browser is held. *)
Definition initBrowser : M unit :=
  fun fr =>
    match browser (this fr) with
    | Some _ => (Resolved tt, fr)
    | None =>
        match await (PuppeteerLaunch (headless (this fr)) launch_args) fr with
        | (Resolved b, fr') =>
            (Resolved tt,
             mkFrame (set_browser b (this fr')) (page fr') (world fr'))
        | (Rejected e, fr') => (Rejected e, fr')
        end
    end.

Definition userAgent : jsstring :=
  lit "Mozilla/5.0 (Macintosh; Intel Mac OS X 10_15_7) AppleWebKit/537.36 (KHTML, like Gecko) Chrome/121.0.0.0 Safari/537.36".

Definition captchaSelector : jsstring :=
  lit ".captcha, " ++ Scraper.attr_selector "" "id*" "captcha" ++ lit ", "
  ++ Scraper.attr_selector "" "class*" "captcha".

Definition searchBoxSelector : jsstring :=
  Scraper.attr_selector "input" "name" "q"
  ++ lit ", #search_form_input, .search__input".

Definition submitButton : jsstring :=
  Scraper.attr_selector "button" "type" "submit" ++ lit ", .search__button, "
  ++ Scraper.attr_selector "input" "type" "submit".

Definition possibleSelectors : list jsstring :=
  [ lit ".result"; lit ".web-result"; lit "[data-result]";
    lit ".result__body"; lit ".results_links"; lit ".result-link";
    lit ".results .result" ].

(** The probe for a result container: stop at the first selector whose
    wait resolves, go on when it rejects. *)
Fixpoint probe (p : Page) (sels : list jsstring) : M bool :=
  match sels with
  | [] => ret false
  | selector :: rest =>
      found <- attempt (WaitForSelector p selector false 5000);;
      if found then ret true else probe p rest
  end.

(** Lines 103-265: from the search box to the extracted results. *)
Definition submit_and_extract (p : Page) (query : jsstring)
  : M (list SearchResult) :=
  await (WaitForSelector p searchBoxSelector false 5000);;;
  await (PageType p searchBoxSelector query);;;
  await (PageClick p submitButton);;;
  await (WaitForNavigation p (lit "networkidle0") 30000);;;
  probe p possibleSelectors;;;
  document <- await (PageEvaluate p);;
  ret (extract document).

(** Lines 69-87: the check that a browser is held, a new page, its user
    agent and viewport, the home page. *)
Definition open_page : M Page :=
  fun fr =>
    match browser (this fr) with
    | None =>
        throw Page (ErrorObject (lit "Failed to initialize browser")) fr
    | Some b =>
        (p <- await (NewPage b);;
         (fun fr => (Resolved tt, mkFrame (this fr) (Some p) (world fr)));;;
         await (SetUserAgent p userAgent);;;
         await (SetViewport p 1366 768);;;
         await (PageGoto p (lit "https://duckduckgo.com") (lit "networkidle0")
                  30000);;;
         ret p) fr
    end.

(** The [try] block of [search], given the browser initialisation and what
    is done about a captcha found in a browser that is not headless. *)
Definition try_block (init : M unit) (on_captcha : Page -> M unit)
  (query : jsstring) : M (list SearchResult) :=
  init;;;
  p <- open_page;;
  captchaElement <- await (PageQuery p captchaSelector);;
  fun fr =>
    if captchaElement && headless (this fr) then ret [] fr
    else ((if captchaElement then on_captcha p else ret tt);;;
          submit_and_extract p query) fr.

(** The [finally] block: close the page if one was opened; an error of the
    close is logged and dropped. *)
Definition finally_block (fr : Frame) : Frame :=
  match page fr with
  | Some p => snd (attempt (PageClose p) fr)
  | None => fr
  end.

(** [search(query)] around a [try] block: the early return on an empty
    query, the rate limit, the [catch] (every error becomes []), the
    [finally]. *)
Definition search_with (body : jsstring -> M (list SearchResult))
  (self : t) (query : jsstring) (w : World)
  : list SearchResult * t * World :=
  if negb (truthy (JSString query)) || (len (trim query) =? 0)%Z then
    ([], self, w)
  else
    let '(rl, w) := RateLimiter.acquire (rateLimiter self) w in
    let fr := mkFrame (set_rateLimiter rl self) None w in
    let '(r, fr) := body query fr in
    let results :=
      match r with
      | Resolved results => results
      | Rejected _ => []
      end in
    let fr := finally_block fr in
    (results, this fr, world fr).

(** Lines 99-100: "Wait a bit for manual solving if not headless". *)
Definition on_captcha (p : Page) : M unit :=
  await (WaitForFunction p ConstTrue 10000).

(** [search(query)] *)
Definition search : t -> jsstring -> World -> list SearchResult * t * World :=
  search_with (try_block initBrowser on_captcha).

(** [close()] *)
Definition close (self : t) (w : World) : t * World :=
  match browser self with
  | Some b =>
      let '(_, w) := perform (BrowserClose b) w in
      (set_browser None self, w)
  | None => (self, w)
  end.

End WebSearcher.

(* ===================================================================== *)
(** * The second copy of WebSearcher.ts                                   *)
(* ===================================================================== *)

(** The repository holds a second, later text of WebSearcher.ts (it follows
    the fetcher tests in tests/fetcher/WebContentFetcher.test.ts).  It
    differs from src/searcher/WebSearcher.ts in the browser initialisation,
    in the captcha wait and in named constants, and it is the text that
    README.md describes ("built-in initialization mutex",
    "CAPTCHA_MANUAL_SOLVE_TIMEOUT_MS: 60000ms"). *)
Module WebSearcherRevised.

Import WebSearcher.
Local Open Scope searcher_scope.

Definition CAPTCHA_MANUAL_SOLVE_TIMEOUT_MS : Z := 60000.

(** Lines 129-141 of the copy: wait for the captcha to be hidden; a
    rejected wait is caught and the search goes on. *)
Definition on_captcha (p : Page) : M unit :=
  attempt (WaitForSelector p captchaSelector true
             CAPTCHA_MANUAL_SOLVE_TIMEOUT_MS);;;
  ret tt.

(** [initBrowser()] of the copy, run to its end by one caller alone: no
    initialisation is in flight when it starts, so it launches unless a
    browser is held. *)
Definition initBrowser : M unit := WebSearcher.initBrowser.

Definition search : t -> jsstring -> World -> list SearchResult * t * World :=
  search_with (try_block initBrowser on_captcha).

End WebSearcherRevised.

(* ===================================================================== *)
(** * Concurrent [search] calls on one instance                           *)
(* ===================================================================== *)

(** JavaScript runs one synchronous segment at a time; a call is suspended
    only at an [await].  The segments of [search] up to the return of
    [initBrowser] are modelled, for several calls on one instance: the
    segment of [acquire] before its timer, the one after it, the segment of
    [initBrowser] up to [await puppeteer.launch(...)] and its resumption. *)
Module EventLoop.

Local Open Scope Z_scope.

(** [acquire()] up to its [await]: the limiter, and the delay handed to
    [setTimeout] when the call has to wait. *)
Definition acquire_enter (self : RateLimiter.t) (now : Z)
  : RateLimiter.t * option Z :=
  let timeSinceLastRequest := now - RateLimiter.lastRequestTime self in
  let self :=
    if RateLimiter.interval self <=? timeSinceLastRequest
    then RateLimiter.set_lastRequestTime now (RateLimiter.set_requests 0 self)
    else self in
  if RateLimiter.requests self <? RateLimiter.limit self then
    let self :=
      RateLimiter.set_requests (RateLimiter.requests self + 1) self in
    let self :=
      if RateLimiter.requests self =? 1
      then RateLimiter.set_lastRequestTime now self else self in
    (self, None)
  else (self, Some (RateLimiter.interval self - timeSinceLastRequest)).

(** [acquire()] after its timer has fired. *)
Definition acquire_wake (self : RateLimiter.t) (now : Z) : RateLimiter.t :=
  RateLimiter.set_lastRequestTime now (RateLimiter.set_requests 1 self).

(** Where a [search] call stands. *)
Inductive Pc :=
| AtSearch              (* search(query) is called next, query not empty *)
| InTimer (due : Z)     (* suspended in acquire() until the timer fires *)
| AtInit                (* acquire() has resolved, initBrowser() is next *)
| InLaunch (k : nat)    (* suspended at await puppeteer.launch, launch k *)
| InInitPromise         (* suspended at await this.browserInitPromise *)
| PastInit              (* initBrowser() has returned *)
| InitThrew.            (* initBrowser() has thrown *)

(** Which text of [initBrowser] runs. *)
Inductive Text :=
| Named      (* src/searcher/WebSearcher.ts, lines 24-36 *)
| Revised.   (* the second copy, lines 36-66 *)

Record State := mkState {
  now : Z;
  limiter : RateLimiter.t;
  browser : option Browser;
  initInFlight : bool;       (* this.browserInitPromise is not null *)
  launched : nat;            (* calls of puppeteer.launch so far *)
  tasks : list Pc
}.

(** What the scheduler or the environment does next. *)
Inductive Event :=
| Tick (dt : Z)                       (* time passes *)
| Step (i : nat)                      (* call i runs its next segment *)
| LaunchResolves (k : nat) (b : option Browser)
| LaunchRejects (k : nat).

Fixpoint set_task (i : nat) (pc : Pc) (ts : list Pc) {struct ts}
  : list Pc :=
  match ts, i with
  | [], _ => []
  | _ :: ts', O => pc :: ts'
  | t :: ts', S i' => t :: set_task i' pc ts'
  end.

Definition is_launch (k : nat) (pc : Pc) : bool :=
  match pc with
  | InLaunch k' => (k =? k')%nat
  | _ => false
  end.

(** Resume the caller that awaits launch [k], and with it, in the second
    copy, every caller that awaits the shared promise. *)
Definition resume (text : Text) (k : nat) (to : Pc) (pc : Pc) : Pc :=
  match pc with
  | InLaunch k' => if (k =? k')%nat then to else pc
  | InInitPromise =>
      match text with
      | Revised => to
      | Named => pc
      end
  | _ => pc
  end.

(** The segment of [initBrowser] that call [i] runs first. *)
Definition init_segment (text : Text) (i : nat) (st : State) : State :=
  match browser st with
  | Some _ => (* a browser is held: return *)
      mkState (now st) (limiter st) (browser st) (initInFlight st)
              (launched st) (set_task i PastInit (tasks st))
  | None =>
      match text with
      | Named =>
          (* this.browser = await puppeteer.launch(...) *)
          mkState (now st) (limiter st) None (initInFlight st)
                  (S (launched st))
                  (set_task i (InLaunch (launched st)) (tasks st))
      | Revised =>
          if initInFlight st then
            (* await this.browserInitPromise *)
            mkState (now st) (limiter st) None true (launched st)
                    (set_task i InInitPromise (tasks st))
          else
            (* this.browserInitPromise = (async () => { ... })() *)
            mkState (now st) (limiter st) None true (S (launched st))
                    (set_task i (InLaunch (launched st)) (tasks st))
      end
  end.

(** One event; [None] when it cannot happen in this state. *)
Definition step (text : Text) (ev : Event) (st : State) : option State :=
  match ev with
  | Tick dt =>
      if 0 <=? dt
      then Some (mkState (now st + dt) (limiter st) (browser st)
                         (initInFlight st) (launched st) (tasks st))
      else None
  | Step i =>
      match nth_error (tasks st) i with
      | Some AtSearch =>
          match acquire_enter (limiter st) (now st) with
          | (rl, None) =>
              Some (mkState (now st) rl (browser st) (initInFlight st)
                            (launched st) (set_task i AtInit (tasks st)))
          | (rl, Some waitTime) =>
              Some (mkState (now st) rl (browser st) (initInFlight st)
                            (launched st)
                            (set_task i
                               (InTimer (now st + timer_delay waitTime))
                               (tasks st)))
          end
      | Some (InTimer due) =>
          if due <=? now st
          then Some (mkState (now st) (acquire_wake (limiter st) (now st))
                             (browser st) (initInFlight st) (launched st)
                             (set_task i AtInit (tasks st)))
          else None
      | Some AtInit => Some (init_segment text i st)
      | _ => None
      end
  | LaunchResolves k b =>
      if existsb (is_launch k) (tasks st)
      then Some (mkState (now st) (limiter st) b
                         (match text with
                          | Revised => false
                          | Named => initInFlight st
                          end)
                         (launched st)
                         (map (resume text k PastInit) (tasks st)))
      else None
  | LaunchRejects k =>
      if existsb (is_launch k) (tasks st)
      then Some (mkState (now st) (limiter st) (browser st)
                         (match text with
                          | Revised => false
                          | Named => initInFlight st
                          end)
                         (launched st)
                         (map (resume text k InitThrew) (tasks st)))
      else None
  end.

Fixpoint run (text : Text) (evs : list Event) (st : State) : option State :=
  match evs with
  | [] => Some st
  | ev :: rest =>
      match step text ev st with
      | Some st' => run text rest st'
      | None => None
      end
  end.

(** [n] calls of [search] on an instance made at time [t0] by
    [new WebSearcher()]. *)
Definition fresh (n : nat) (t0 : Z) : State :=
  mkState t0 (RateLimiter.mk 0 1 2000 t0) None false 0 (repeat AtSearch n).

(** Every launch of the schedule ends with a browser. *)
Definition launches_succeed (ev : Event) : bool :=
  match ev with
  | LaunchResolves _ (Some _) => true
  | LaunchResolves _ None => false
  | LaunchRejects _ => false
  | _ => true
  end.

Definition past_init (pc : Pc) : bool :=
  match pc with
  | PastInit => true
  | _ => false
  end.

(** The call has entered [initBrowser]. *)
Definition begun (pc : Pc) : bool :=
  match pc with
  | InLaunch _ | InInitPromise | PastInit | InitThrew => true
  | _ => false
  end.

(** What the second copy keeps true while launches succeed: no launch
    without need, and none before a call has entered [initBrowser]. *)
Definition single_launch (st : State) : Prop :=
  (launched st <= 1)%nat /\
  (launched st = 1%nat -> initInFlight st = true \/ browser st <> None) /\
  (launched st = 0%nat ->
     initInFlight st = false /\ browser st = None /\
     existsb begun (tasks st) = false).

End EventLoop.

(* ===================================================================== *)
(** * The vocabulary of the properties                                    *)
(* ===================================================================== *)

Module Properties.


(** Empty or made of white space only. *)
Definition blank (s : jsstring) : bool := forallb isWhiteSpace s.

(** A response the fetcher takes for no content: falsy, or not a string. *)
Definition no_content (v : JSValue) : Prop :=
  truthy v = false \/ is_string v = false.

(** [value] is [primary] when that is present (a string that is not empty),
    and [fallback] otherwise. *)
Definition prefers (primary fallback value : option jsstring) : Prop :=
  (present primary = true -> value = primary) /\
  (present primary = false -> value = fallback).

(** The URL begins with the scheme http or https. *)
Definition has_http_scheme (url : jsstring) : bool :=
  startsWith url (lit "http:") || startsWith url (lit "https:").

(** What the extraction guarantees of a result's URL. *)
Definition passes_filter (r : SearchResult) : Prop :=
  sr_url r <> [] /\
  startsWith (sr_url r) (lit "http") = true /\
  includes (sr_url r) (lit "duckduckgo.com/y.js") = false /\
  includes (sr_url r) (lit "duckduckgo.com/l/?uddg=") = false /\
  includes (sr_url r) (lit "javascript:") = false.

(** A URL the extraction is to discard. *)
Definition unwanted (url : jsstring) : Prop :=
  includes url (lit "duckduckgo.com/y.js") = true \/
  includes url (lit "duckduckgo.com/l/?uddg=") = true \/
  includes url (lit "javascript:") = true \/
  startsWith url (lit "http") = false.

(** The text of the fetch tool for a page with content. *)
Definition content_text (url content : jsstring) : jsstring :=
  lit "Content from " ++ url ++ lit ":" ++ [LF; LF] ++ content.

(** The text of the fetch tool for a page without content. *)
Definition no_content_text (url : jsstring) : jsstring :=
  lit "Successfully fetched content from " ++ url
  ++ lit ", but no text content was extracted.".

Definition truncation_notice : jsstring :=
  lit "..." ++ [LF; LF]
  ++ lit "[Content truncated - showing first 10000 characters]".

(** The first 10,000 characters and the notice, or the content as it is. *)
Definition truncated (content : jsstring) : jsstring :=
  if (10000 <? len content)%Z
  then firstn (Z.to_nat 10000) content ++ truncation_notice
  else content.

(** No line feed right before the end. *)
Definition ends_clean (a : jsstring) : Prop :=
  a = [] \/ exists a' c, a = a' ++ [c] /\ c <> LF.

(** No line feed right at the start. *)
Definition starts_clean (b : jsstring) : Prop :=
  match b with
  | [] => True
  | c :: _ => c <> LF
  end.

(** The document the scraper reads its metadata from: the loaded page
    after the removal pass. *)
Definition pruned (C : Libs.Cheerio) (html : jsstring)
  (options : ScraperOptions) : Libs.Doc C :=
  Scraper.remove_elements C
    (Scraper.defaultRemove
     ++ match remove (Scraper.selectors_of options) with
        | Some l => l
        | None => []
        end)
    (Libs.load C html).

(** The Markdown the scraper gets from turndown, before any clean-up: the
    conversion of the inner HTML of the content root, read after the links
    are unwrapped when [includeLinks] is false. *)
Definition converted (C : Libs.Cheerio) (turndown : jsstring -> jsstring)
  (html : jsstring) (options : ScraperOptions) : jsstring :=
  let d := pruned C html options in
  let root := Scraper.content_root C (Scraper.selectors_of options) d in
  let d :=
    if negb (Scraper.default_true (includeLinks options))
    then Libs.unlink C root d else d in
  turndown (match Libs.sel_html C root d with
            | Some (c :: h) => c :: h
            | _ => []
            end).

(** The text a scraped content puts before its Markdown: the header built
    from the metadata, nothing without metadata. *)
Definition front (wc : WebContent) : jsstring :=
  match metadata wc with
  | Some m => Scraper.header m
  | None => []
  end.

(** An outcome of the body of [search] that is a list of results passing
    the filter, or an error. *)
Definition yields (P : list SearchResult -> Prop)
  (m : WebSearcher.M (list SearchResult)) : Prop :=
  forall fr,
    match fst (m fr) with
    | Resolved results => P results
    | Rejected _ => True
    end.

(** The world shows a captcha whenever a page is asked for one. *)
Definition captcha_shown (o : Oracle) : Prop :=
  forall hist p selector, o bool hist (PageQuery p selector) = Resolved true.

(** A step of the body that leaves the mode of the instance and the
    oracle of the world as they are. *)
Definition keeps_mode (A : Type) (m : WebSearcher.M A) : Prop :=
  forall fr,
    WebSearcher.headless (WebSearcher.this (snd (m fr)))
      = WebSearcher.headless (WebSearcher.this fr) /\
    respond (WebSearcher.world (snd (m fr)))
      = respond (WebSearcher.world fr).

End Properties.

(* ===================================================================== *)
(** * Concrete environments                                               *)
(* ===================================================================== *)

(** Small environments on which the definitions above run: a table-driven
    stand-in for cheerio, pages, and scripted worlds. *)
Module Scenario.

Local Open Scope Z_scope.

(** ** A table-driven cheerio *)

(** An element of a parsed page: the selectors that match it, its text, its
    attributes and its inner HTML. *)
Record Elt := mkElt {
  elt_id : nat;
  elt_matches : list jsstring;
  elt_text : jsstring;
  elt_attrs : list (jsstring * jsstring);
  elt_html : jsstring
}.

Fixpoint lookup (name : jsstring) (attrs : list (jsstring * jsstring))
  : option jsstring :=
  match attrs with
  | [] => None
  | (n, v) :: rest => if JS.eqb n name then Some v else lookup name rest
  end.

(** A document is the list of its elements; removal drops them by their
    identifier; the table knows no anchors, so unlinking changes nothing. *)
Definition table_cheerio (parse : jsstring -> list Elt) : Libs.Cheerio :=
  Libs.mkCheerio
    parse
    (fun selector d =>
       filter (fun e => existsb (JS.eqb selector) (elt_matches e)) d)
    (fun sel d =>
       filter (fun e =>
                 negb (existsb (fun r => (elt_id r =? elt_id e)%nat) sel)) d)
    (fun _ d => d)
    (fun e _ => elt_text e)
    (fun e name _ => lookup name (elt_attrs e))
    (fun e _ => elt_html e).

Definition example_url : jsstring := lit "https://example.com/".

Definition og_url_selector : jsstring :=
  Scraper.attr_selector "meta" "property" "og:url".

(** [<head><meta property="og:url" content="https://example.com/"></head>
    <body><p>Hello</p></body>] *)
Definition og_html : jsstring :=
  lit "<head><meta property=" ++ [Scraper.DQ] ++ lit "og:url"
  ++ [Scraper.DQ] ++ lit " content=" ++ [Scraper.DQ] ++ example_url
  ++ [Scraper.DQ] ++ lit "></head><body><p>Hello</p></body>".

Definition og_page : list Elt :=
  [ mkElt 0 [og_url_selector] [] [(lit "content", example_url)] [];
    mkElt 1 [lit "body"] (lit "Hello") [] (lit "<p>Hello</p>") ].

(** A page with a title, a description, an author and a publication date,
    each given twice: by its first source and by its fallback. *)
Definition article_html : jsstring := lit "<html>article</html>".

Definition article_page : list Elt :=
  [ mkElt 0 [lit "title"] (lit "Plain title") [] (lit "Plain title");
    mkElt 1 [Scraper.attr_selector "meta" "property" "og:title"] []
          [(lit "content", lit "OG title")] [];
    mkElt 2 [Scraper.attr_selector "meta" "name" "description"] []
          [(lit "content", lit "Plain description")] [];
    mkElt 3 [Scraper.attr_selector "meta" "property" "og:description"] []
          [(lit "content", lit "OG description")] [];
    mkElt 4 [Scraper.attr_selector "meta" "name" "author"] []
          [(lit "content", lit "Ann")] [];
    mkElt 5 [Scraper.attr_selector "meta" "property" "article:published_time"]
          [] [(lit "content", lit "2024-01-02")] [];
    mkElt 6 [lit "time[datetime]"] [] [(lit "datetime", lit "2023-12-31")] [];
    mkElt 7 [lit "body"] (lit "Text") [] (lit "<p>Text</p>") ].

(** The page cheerio builds from a body without markup: an empty body. *)
Definition blank_page : list Elt :=
  [ mkElt 0 [lit "body"] [] [] [] ].

Definition parse (html : jsstring) : list Elt :=
  if JS.eqb html og_html then og_page
  else if JS.eqb html article_html then article_page
  else blank_page.

(** A turndown that knows one element: a paragraph becomes its text. *)
Definition strip_p (html : jsstring) : jsstring :=
  if startsWith html (lit "<p>")
  then firstn (List.length html - 7) (skipn 3 html)
  else html.

(** Stand-ins for turndown and for the URL parser, which here accepts what
    holds "://". *)
Definition libs : Libs.t :=
  Libs.mk (table_cheerio parse) strip_p
          (fun url => includes url (lit "://")).

(** ** Scripted worlds *)

(** What the environment answers: the HTTP body, the launch, whether the
    home page shows a captcha, how the wait on it ends, the DOM of the
    result page. *)
Record Script := mkScript {
  http_body : Outcome JSValue;
  launch : Outcome (option Browser);
  captcha : bool;
  captcha_wait : Outcome unit;
  document : Dom.Document
}.

Definition scripted (s : Script) : Oracle :=
  fun R _ c =>
    match c in Call R return Outcome R with
    | AxiosGet _ _ => http_body s
    | PuppeteerLaunch _ _ => launch s
    | BrowserClose _ => Resolved tt
    | NewPage _ => Resolved 1%nat
    | SetUserAgent _ _ => Resolved tt
    | SetViewport _ _ _ => Resolved tt
    | PageGoto _ _ _ _ => Resolved tt
    | PageQuery _ _ => Resolved (captcha s)
    | WaitForFunction _ _ _ => captcha_wait s
    | WaitForSelector _ _ hidden _ =>
        if hidden then captcha_wait s else Resolved tt
    | PageType _ _ _ => Resolved tt
    | PageClick _ _ => Resolved tt
    | WaitForNavigation _ _ _ => Resolved tt
    | PageEvaluate _ => Resolved (document s)
    | PageClose _ => Resolved tt
    end.

Definition world_of (s : Script) (t0 : Z) : World :=
  mkWorld t0 [] [] [] (scripted s).

Definition no_document : Dom.Document := Dom.mkDocument (fun _ => []).

(** A result page with one result whose title link has the given [href]
    property. *)
Definition one_result (title href : jsstring) : Dom.Document :=
  Dom.mkDocument
    (fun selector =>
       if JS.eqb selector (lit ".result")
       then [Dom.mkElement
               (fun sel =>
                  if JS.eqb sel (lit ".result__a")
                  then Some (Dom.mkNode (Some title) (Some href) (Some href))
                  else None)]
       else []).

Definition timeout_error : Thrown :=
  ErrorObject (lit "Waiting failed: 10000ms exceeded").

(** An HTTP world answering [body]. *)
Definition http_world (body : JSValue) : World :=
  world_of (mkScript (Resolved body) (Resolved (Some 1%nat)) false
                     (Resolved tt) no_document) 5000.

(** A browser world. *)
Definition browser_world (captcha : bool) (wait : Outcome unit)
  (document : Dom.Document) : World :=
  world_of (mkScript (Resolved JSNull) (Resolved (Some 1%nat)) captcha wait
                     document) 5000.

Definition fetcher : WebContentFetcher.t :=
  WebContentFetcher.mk (RateLimiter.mk 0 1 1000 0).

Definition searcher (headless : bool) : WebSearcher.t :=
  WebSearcher.mk (RateLimiter.mk 0 1 2000 0)
                 (lit "https://html.duckduckgo.com") None headless.

(** Classifiers of the calls a search made. *)
Definition is_wait_for_function (timeout : Z) (c : AnyCall) : bool :=
  match c with
  | Called (WaitForFunction _ ConstTrue t) => t =? timeout
  | _ => false
  end.

Definition is_wait_hidden (c : AnyCall) : bool :=
  match c with
  | Called (WaitForSelector _ _ hidden _) => hidden
  | _ => false
  end.

Definition is_wait_captcha_hidden (timeout : Z) (c : AnyCall) : bool :=
  match c with
  | Called (WaitForSelector _ selector hidden t) =>
      hidden && JS.eqb selector WebSearcher.captchaSelector && (t =? timeout)
  | _ => false
  end.

Definition is_type (c : AnyCall) : bool :=
  match c with
  | Called (PageType _ _ _) => true
  | _ => false
  end.

Definition is_launch_call (c : AnyCall) : bool :=
  match c with
  | Called (PuppeteerLaunch _ _) => true
  | _ => false
  end.

Definition is_http_call (c : AnyCall) : bool :=
  match c with
  | Called (AxiosGet _ _) => true
  | _ => false
  end.

(** Two [search] calls made together on a new instance, the launch taking
    longer than the two seconds the second call waits at the rate limiter. *)
Definition slow_launch : list EventLoop.Event :=
  [ EventLoop.Step 0;                 (* call 0: acquire() grants at once *)
    EventLoop.Step 1;                 (* call 1: acquire() sets its timer *)
    EventLoop.Step 0;                 (* call 0: initBrowser() launches *)
    EventLoop.Tick 2000;
    EventLoop.Step 1;                 (* call 1: the timer has fired *)
    EventLoop.Step 1;                 (* call 1: initBrowser() *)
    EventLoop.Tick 1000;
    EventLoop.LaunchResolves 0 (Some 1%nat) ].

End Scenario.

(* ===================================================================== *)
(** * Numbers in template literals                                        *)
(* ===================================================================== *)

Module Num.

(** The decimal digits, most significant first. *)
Fixpoint digits (d : Decimal.uint) : jsstring :=
  match d with
  | Decimal.Nil => []
  | Decimal.D0 d' => 48%N :: digits d'
  | Decimal.D1 d' => 49%N :: digits d'
  | Decimal.D2 d' => 50%N :: digits d'
  | Decimal.D3 d' => 51%N :: digits d'
  | Decimal.D4 d' => 52%N :: digits d'
  | Decimal.D5 d' => 53%N :: digits d'
  | Decimal.D6 d' => 54%N :: digits d'
  | Decimal.D7 d' => 55%N :: digits d'
  | Decimal.D8 d' => 56%N :: digits d'
  | Decimal.D9 d' => 57%N :: digits d'
  end.

(** What [`${n}`] prints for an array index, a length or an HTTP status. *)
Definition of_nat (n : nat) : jsstring := digits (Nat.to_uint n).

End Num.

(* ===================================================================== *)
(** * src/fetcher/fetchAndScrape.ts: fetchAndScrape                       *)
(* ===================================================================== *)

Module FetchAndScrape.

(** What the function reads of the [Response] of the global [fetch]. *)
Record Response := mkResponse {
  ok : bool;
  status : nat;
  statusText : jsstring;
  text : Outcome jsstring            (* await response.text() *)
}.

(** The global [fetch]: the answer to a URL, or the error it rejects
    with. *)
Definition GlobalFetch := jsstring -> Outcome Response.

Section WithCheerio.

Variable C : Libs.Cheerio.
Variable turndown : jsstring -> jsstring.
Variable global_fetch : GlobalFetch.

(** [fetchAndScrape(url, options = {})] *)
Definition fetchAndScrape (url : jsstring) (options : option ScraperOptions)
  : Outcome WebContent :=
  let options :=
    match options with
    | Some o => o
    | None => mkScraperOptions None None None None
    end in
  match global_fetch url with
  | Rejected e => Rejected e
  | Resolved response =>
      if negb (ok response) then
        Rejected (ErrorObject
                    (lit "Failed to fetch " ++ url ++ lit ": "
                     ++ Num.of_nat (status response) ++ lit " "
                     ++ statusText response))
      else
        match text response with
        | Rejected e => Rejected e
        | Resolved html =>
            Resolved (Scraper.scrapeWebPage C turndown html (Some url) options)
        end
  end.

End WithCheerio.

End FetchAndScrape.

(* ===================================================================== *)
(** * src/mcp.ts: the search tool and the tool call handler               *)
(* ===================================================================== *)

Module McpServer.

Import Mcp.

(** The [arguments] of a tool call, as far as the tools read them. *)
Record ToolArgs := mkToolArgs {
  arg_query : option JSValue;
  arg_url : option JSValue
}.

(** The two services an [MCPServer] holds. *)
Record t := mk {
  searcher : WebSearcher.t;
  fetcher : WebContentFetcher.t
}.

(** What the handler of a tool call returns; [isError] is undefined
    ([false]) on the answers of the tools. *)
Record CallToolResult := mkCallToolResult {
  result_text : jsstring;
  isError : bool
}.

(** One entry of the result list (lines 169-174). *)
Definition format_result (result : SearchResult) (index : nat) : jsstring :=
  Num.of_nat (index + 1) ++ lit ". **" ++ sr_title result ++ lit "**" ++ [LF]
  ++ lit "   URL: " ++ sr_url result ++ [LF]
  ++ lit "   " ++ sr_snippet result ++ [LF].

(** [results.map((result, index) => ...)] from [index] on. *)
Fixpoint map_from (index : nat) (results : list SearchResult)
  : list jsstring :=
  match results with
  | [] => []
  | result :: rest => format_result result index :: map_from (S index) rest
  end.

Definition formattedResults (results : list SearchResult) : jsstring :=
  join [LF] (map_from 0 results).

(** The [try] block of [handleSearchTool]; [search] never rejects, so its
    [catch] has nothing to catch. *)
Definition search_and_format (searcher : WebSearcher.t) (query : jsstring)
  (w : World) : Outcome ToolResponse * WebSearcher.t * World :=
  let '(results, searcher, w) := WebSearcher.search searcher query w in
  if (List.length results =? 0)%nat then
    (Resolved (mkToolResponse
                 (lit "No search results found for query: " ++ [Scraper.DQ]
                  ++ query ++ [Scraper.DQ])), searcher, w)
  else
    (Resolved (mkToolResponse
                 (lit "Found " ++ Num.of_nat (List.length results)
                  ++ lit " search results for " ++ [Scraper.DQ] ++ query
                  ++ [Scraper.DQ] ++ lit ":" ++ [LF; LF]
                  ++ formattedResults results)), searcher, w).

(** [handleSearchTool(args)], [args.query] being any value or missing. *)
Definition handleSearchTool (searcher : WebSearcher.t)
  (args_query : option JSValue) (w : World)
  : Outcome ToolResponse * WebSearcher.t * World :=
  match args_query with
  | Some (JSString (c :: q)) =>
      let query := trim (c :: q) in
      if (len query =? 0)%Z then
        (Rejected (ErrorObject (lit "Query cannot be empty")), searcher, w)
      else
        match search_and_format searcher query w with
        | (Resolved r, searcher, w) => (Resolved r, searcher, w)
        | (Rejected e, searcher, w) =>
            (Rejected
               (ErrorObject
                  (lit "Web search failed: "
                   ++ match e with
                      | ErrorObject message => message
                      | ThrownValue _ => lit "Search failed"
                      end)), searcher, w)
        end
  | _ =>
      (Rejected (ErrorObject (lit "Missing or invalid query parameter")),
       searcher, w)
  end.

Section WithLibs.

Variable L : Libs.t.

(** The [switch (name)] of the tool call handler (lines 85-93). *)
Definition dispatch (self : t) (name : jsstring) (args : option ToolArgs)
  (w : World) : Outcome ToolResponse * t * World :=
  if JS.eqb name (lit "search") then
    let '(r, s, w) :=
      handleSearchTool (searcher self)
        (match args with Some a => arg_query a | None => None end) w in
    (r, mk s (fetcher self), w)
  else if JS.eqb name (lit "fetch_web_content") then
    let '(r, f, w) :=
      handleFetchTool L (fetcher self)
        (match args with Some a => arg_url a | None => None end) w in
    (r, mk (searcher self) f, w)
  else
    (Rejected (ErrorObject (lit "Unknown tool: " ++ name)), self, w).

(** The handler of [CallToolRequestSchema] (lines 81-106): what a tool
    throws is answered as an error text. *)
Definition callTool (self : t) (name : jsstring) (args : option ToolArgs)
  (w : World) : CallToolResult * t * World :=
  let '(r, self, w) := dispatch self name args w in
  match r with
  | Resolved response => (mkCallToolResult (text response) false, self, w)
  | Rejected e =>
      (mkCallToolResult
         (lit "Error: "
          ++ match e with
             | ErrorObject message => message
             | ThrownValue _ => lit "Unknown error occurred"
             end) true, self, w)
  end.

End WithLibs.

End McpServer.

(* ===================================================================== *)
(** * Reading the call log and the clock                                  *)
(* ===================================================================== *)

Module Trace.

Local Open Scope Z_scope.

(** The page a logged call opened: a [browser.newPage()] that resolved,
    answered by the oracle from the calls made before it. *)
Definition opens (o : Oracle) (earlier : list AnyCall) (c : AnyCall)
  : option Page :=
  match c with
  | Called c' =>
      match c' with
      | NewPage b =>
          match o Page earlier (NewPage b) with
          | Resolved p => Some p
          | Rejected _ => None
          end
      | _ => None
      end
  end.

(** The page a logged call asked to close. *)
Definition closes (c : AnyCall) : option Page :=
  match c with
  | Called c' =>
      match c' with
      | PageClose p => Some p
      | _ => None
      end
  end.

(** The pages opened by a log (newest call first), newest first. *)
Fixpoint pages_opened (o : Oracle) (log : list AnyCall) : list Page :=
  match log with
  | [] => []
  | c :: earlier =>
      match opens o earlier c with
      | Some p => p :: pages_opened o earlier
      | None => pages_opened o earlier
      end
  end.

(** The pages a log asked to close, newest first. *)
Fixpoint pages_closed (log : list AnyCall) : list Page :=
  match log with
  | [] => []
  | c :: earlier =>
      match closes c with
      | Some p => p :: pages_closed earlier
      | None => pages_closed earlier
      end
  end.

(** Every page that was opened has been asked to close, in the same
    order. *)
Definition pages_balanced (w : World) : Prop :=
  pages_opened (respond w) (calls w) = pages_closed (calls w).

(** The calls of a search on an open page: neither a launch, nor a page
    opened or closed, nor a browser closed, nor an HTTP request. *)
Definition on_page (c : AnyCall) : bool :=
  match c with
  | Called c' =>
      match c' with
      | AxiosGet _ _ | PuppeteerLaunch _ _ | BrowserClose _ | NewPage _
      | PageClose _ => false
      | _ => true
      end
  end.

Definition launch_call (c : AnyCall) : bool :=
  match c with
  | Called c' =>
      match c' with
      | PuppeteerLaunch _ _ => true
      | _ => false
      end
  end.

Definition http_call (c : AnyCall) : bool :=
  match c with
  | Called c' =>
      match c' with
      | AxiosGet _ _ => true
      | _ => false
      end
  end.

(** The calls of [open_page]. *)
Definition setup_call (c : AnyCall) : bool :=
  match c with
  | Called c' =>
      match c' with
      | NewPage _ | SetUserAgent _ _ | SetViewport _ _ _ | PageGoto _ _ _ _ =>
          true
      | _ => false
      end
  end.

(** The calls that submit the query and read the results. *)
Definition submit_call (c : AnyCall) : bool :=
  match c with
  | Called c' =>
      match c' with
      | PageType _ _ _ | PageClick _ _ | WaitForNavigation _ _ _
      | PageEvaluate _ => true
      | _ => false
      end
  end.

(** The selector finds in the element a node whose trimmed text is not
    empty. *)
Definition has_text (element : Dom.Element) (selector : jsstring) : bool :=
  match Dom.querySelector element selector with
  | Some n => present (WebSearcher.trimmed_text n)
  | None => false
  end.

(** The frame of a headless search in a world with the oracle [o], the
    submitting calls of its log being the given ones. *)
Definition headless_frame (o : Oracle) (submitted : list AnyCall)
  (fr : WebSearcher.Frame) : Prop :=
  WebSearcher.headless (WebSearcher.this fr) = true /\
  respond (WebSearcher.world fr) = o /\
  filter submit_call (calls (WebSearcher.world fr)) = submitted.

(** The frame of a search whose limiter is [rl], the timers set being
    [set] and the clock at [since] or later. *)
Definition limiter_frame (rl : RateLimiter.t) (set : list Z) (since : Z)
  (fr : WebSearcher.Frame) : Prop :=
  WebSearcher.rateLimiter (WebSearcher.this fr) = rl /\
  timers (WebSearcher.world fr) = set /\
  since <= clock (WebSearcher.world fr).

Definition browser_close_call (c : AnyCall) : bool :=
  match c with
  | Called c' =>
      match c' with
      | BrowserClose _ => true
      | _ => false
      end
  end.

(** The world when the clock reads [t]. *)
Definition at_time (t : Z) (w : World) : World :=
  mkWorld t (lateness w) (timers w) (calls w) (respond w).

(** One [acquire()] after another, the clock reading the given time when
    each is called. *)
Fixpoint acquire_at (times : list Z) (self : RateLimiter.t) (w : World)
  : RateLimiter.t * World :=
  match times with
  | [] => (self, w)
  | t :: rest =>
      let '(self, w) := RateLimiter.acquire self (at_time t w) in
      acquire_at rest self w
  end.

(** A step of the body of [search] that takes a frame with [P] to a frame
    with [Q], whether it resolves or rejects. *)
Definition establishes (P Q : WebSearcher.Frame -> Prop) (A : Type)
  (m : WebSearcher.M A) : Prop :=
  forall fr, P fr -> Q (snd (m fr)).

Definition preserves (I : WebSearcher.Frame -> Prop) (A : Type)
  (m : WebSearcher.M A) : Prop :=
  establishes I I m.

(** A call that opens or closes a page. *)
Definition page_call (c : AnyCall) : bool :=
  match c with
  | Called c' =>
      match c' with
      | NewPage _ | PageClose _ => true
      | _ => false
      end
  end.

(** The frame of a search that started from a log with the pages [opened]
    and [closed]: nothing was closed since, and a page was opened since
    exactly when the local [page] holds one. *)
Definition tracks_pages (o : Oracle) (opened closed : list Page)
  (fr : WebSearcher.Frame) : Prop :=
  respond (WebSearcher.world fr) = o /\
  pages_closed (calls (WebSearcher.world fr)) = closed /\
  pages_opened o (calls (WebSearcher.world fr)) =
    match WebSearcher.page fr with
    | Some p => p :: opened
    | None => opened
    end.

(** The calls of a log that [f] selects are the given ones. *)
Definition selects (f : AnyCall -> bool) (selected : list AnyCall)
  (fr : WebSearcher.Frame) : Prop :=
  filter f (calls (WebSearcher.world fr)) = selected.

(** What the search tool shows of a result, after its number. *)
Definition entry_text (r : SearchResult) : jsstring :=
  lit ". **" ++ sr_title r ++ lit "**" ++ [LF]
  ++ lit "   URL: " ++ sr_url r ++ [LF]
  ++ lit "   " ++ sr_snippet r ++ [LF].

(** No white space at the start. *)
Definition starts_with_text (s : jsstring) : Prop :=
  match s with
  | [] => True
  | c :: _ => isWhiteSpace c = false
  end.

(** No white space at either end. *)
Definition trimmed (s : jsstring) : Prop :=
  starts_with_text s /\ starts_with_text (rev s).


End Trace.

(* ===================================================================== *)
(** * More concrete environments                                          *)
(* ===================================================================== *)

Module Cases.

Import Scenario.

Local Open Scope Z_scope.

Definition axios_timeout : Thrown :=
  ErrorObject (lit "timeout of 10000ms exceeded").

(** An HTTP world whose GET throws [e]. *)
Definition failing_http_world (e : Thrown) : World :=
  world_of (mkScript (Rejected e) (Resolved (Some 1%nat)) false
                     (Resolved tt) no_document) 5000.

(** A browser world without captcha whose result page shows one result,
    linked with plain http. *)
Definition cats_world : World :=
  browser_world false (Resolved tt)
    (one_result (lit "  Cats ") (lit "http://cats.example/")).

(** The server of the tool calls. *)
Definition server : McpServer.t :=
  McpServer.mk (searcher true) fetcher.

(** A global [fetch] that answers every URL 404, and one that answers the
    page with an og:url. *)
Definition not_found : FetchAndScrape.GlobalFetch :=
  fun _ =>
    Resolved (FetchAndScrape.mkResponse false 404 (lit "Not Found")
                (Resolved [])).

Definition found : FetchAndScrape.GlobalFetch :=
  fun _ =>
    Resolved (FetchAndScrape.mkResponse true 200 (lit "OK")
                (Resolved og_html)).

(** A turndown that answers every page with the same Markdown: lines with
    white space around them and runs of line feeds between them. *)
Definition messy_markdown : jsstring :=
  [LF; LF] ++ lit " a " ++ [LF; LF; LF; LF] ++ lit "b  " ++ [LF].

Definition messy_turndown (html : jsstring) : jsstring := messy_markdown.

(** Options with the metadata and the clean-up as given, the rest left
    out. *)
Definition scrape_options (includeMetadata cleanWhitespace : option bool)
  : ScraperOptions :=
  mkScraperOptions includeMetadata None cleanWhitespace None.

(** A page with a body and two articles. *)
Definition two_articles : list Elt :=
  [ mkElt 0 [lit "body"] (lit "All") [] (lit "<p>All</p>");
    mkElt 1 [lit "article"] (lit "One") [] (lit "<p>One</p>");
    mkElt 2 [lit "article"] (lit "Two") [] (lit "<p>Two</p>") ].

(** A page with an article and a body. *)
Definition main_page : list Elt :=
  [ mkElt 0 [lit "body"] (lit "All") [] (lit "<p>All</p>");
    mkElt 1 [lit "article"; lit ".post"] (lit "Post") []
          (lit "<p>Post</p>") ].

(** Three [search] calls on one instance: the first has been granted, the
    other two are about to call [acquire()]. *)
Definition two_waiting : EventLoop.State :=
  EventLoop.mkState 0 (RateLimiter.mk 1 1 2000 0) None false 0
    [EventLoop.AtInit; EventLoop.AtSearch; EventLoop.AtSearch].

End Cases.

(* ===================================================================== *)
(** * Theorems                                                            *)
(* ===================================================================== *)

Section RateLimiterFacts.

Local Open Scope Z_scope.
Import RateLimiter.
Import Properties.

Lemma timer_delay_ge (ms : Z) :
  1 <= ms <= 2147483647 -> timer_delay ms = ms.
Proof.
  intros H. unfold timer_delay.
  destruct ((ms <? 1) || (2147483647 <? ms))%bool eqn:E; [|lia].
  apply orb_true_iff in E as [E|E]; apply Z.ltb_lt in E; lia.
Qed.


Lemma sleep_clock (ms : Z) (w : World) :
  1 <= ms <= 2147483647 -> clock w + ms <= clock (sleep ms w).
Proof.
  intros H. unfold sleep, next_late; simpl.
  rewrite (timer_delay_ge H).
  destruct (lateness w); lia.
Qed.


End RateLimiterFacts.

(* ===================================================================== *)
(** ** Strings                                                            *)
(* ===================================================================== *)

Section StringFacts.

Import Properties.

Lemma eqb_eq (a b : jsstring) : JS.eqb a b = true <-> a = b.
Proof.
  revert b; induction a as [|x a IH]; intros [|y b]; simpl;
    try (split; [discriminate | congruence]); try tauto.
  rewrite andb_true_iff, N.eqb_eq, IH. split.
  - intros [-> ->]; reflexivity.
  - intros E; inversion E; auto.
Qed.

Lemma len_zero (s : jsstring) : (len s =? 0)%Z = true <-> s = [].
Proof.
  unfold len. rewrite Z.eqb_eq. destruct s; simpl; split; intros H;
    try reflexivity; try discriminate; lia.
Qed.

Lemma trimStart_nil (s : jsstring) : trimStart s = [] <-> blank s = true.
Proof.
  unfold blank. induction s as [|c s IH]; simpl; [tauto|].
  destruct (isWhiteSpace c); simpl; [exact IH|].
  split; discriminate.
Qed.

Lemma trimStart_head (s t : jsstring) (c : N) :
  trimStart s = c :: t -> isWhiteSpace c = false.
Proof.
  induction s as [|x s IH]; simpl; [discriminate|].
  destruct (isWhiteSpace x) eqn:E; [exact IH|].
  intros H; inversion H; subst; exact E.
Qed.

Lemma blank_rev (s : jsstring) : blank (rev s) = blank s.
Proof.
  unfold blank. induction s as [|c s IH]; simpl; [reflexivity|].
  rewrite forallb_app, IH; simpl. rewrite andb_true_r. apply andb_comm.
Qed.

(** [trim] leaves nothing exactly of the strings made of white space. *)
Lemma trim_nil (s : jsstring) : trim s = [] <-> blank s = true.
Proof.
  unfold trim, trimEnd. split.
  - intros H.
    assert (Hr : trimStart (rev (trimStart s)) = []).
    { destruct (trimStart (rev (trimStart s))) as [|c t]; [reflexivity|].
      apply (f_equal (@List.length N)) in H.
      rewrite length_rev in H. discriminate H. }
    apply trimStart_nil in Hr. rewrite blank_rev in Hr.
    destruct (trimStart s) as [|c t] eqn:E.
    + apply trimStart_nil; exact E.
    + apply trimStart_head in E. unfold blank in Hr; simpl in Hr.
      rewrite E in Hr; discriminate.
  - intros H. apply trimStart_nil in H. rewrite H. reflexivity.
Qed.

(** The test that opens [fetch] and [search]: [!s || s.trim().length === 0]
    holds exactly of the blank strings. *)
Lemma empty_guard (s : jsstring) :
  negb (truthy (JSString s)) || (len (trim s) =? 0)%Z = blank s.
Proof.
  destruct (blank s) eqn:B.
  - apply trim_nil in B. rewrite B. apply orb_true_r.
  - destruct s as [|c s]; [discriminate B|]. simpl negb. simpl orb.
    destruct (len (trim (c :: s)) =? 0)%Z eqn:E; [|reflexivity].
    apply len_zero, trim_nil in E. congruence.
Qed.

Lemma startsWith_app (p s : jsstring) : startsWith (p ++ s) p = true.
Proof.
  induction p as [|x p IH]; simpl; [reflexivity|].
  rewrite N.eqb_refl; exact IH.
Qed.

Lemma startsWith_inv (s p : jsstring) :
  startsWith s p = true -> s = p ++ skipn (List.length p) s.
Proof.
  revert s; induction p as [|x p IH]; intros s; simpl; [reflexivity|].
  destruct s as [|y s]; [discriminate|].
  rewrite andb_true_iff, N.eqb_eq. intros [-> H].
  f_equal. apply IH, H.
Qed.

Lemma startsWith_trans (s p q : jsstring) :
  startsWith s p = true -> startsWith p q = true -> startsWith s q = true.
Proof.
  revert s p; induction q as [|z q IH]; intros s p; simpl; [reflexivity|].
  destruct p as [|y p]; [discriminate|]. destruct s as [|x s]; simpl;
    [discriminate|].
  rewrite !andb_true_iff, !N.eqb_eq. intros [-> H1] [-> H2].
  split; [reflexivity|]. eapply IH; eassumption.
Qed.

End StringFacts.

(* ===================================================================== *)
(** ** The fetch path                                                     *)
(* ===================================================================== *)

Section FetcherFacts.

Import Properties.
Import WebContentFetcher.

Variable L : Libs.t.

(** A blank URL is refused, the fetcher and the world left as they were. *)
Lemma fetch_blank (self : t) (url : jsstring) (w : World) :
  blank url = true ->
  fetch L self url w = (failure (lit "URL cannot be empty"), self, w).
Proof. intros B. unfold fetch. rewrite empty_guard, B. reflexivity. Qed.

(** So is a URL that [new URL] refuses. *)
Lemma fetch_unparsable (self : t) (url : jsstring) (w : World) :
  blank url = false -> Libs.URL_parses L url = false ->
  fetch L self url w = (failure (lit "Invalid URL format"), self, w).
Proof.
  intros B P. unfold fetch. rewrite empty_guard, B, P. reflexivity.
Qed.

(** C3. [fetch] validates its argument before any effect: a blank URL
    (empty, or white space only) gives the failure "URL cannot be empty",
    and a URL that is not blank and that [new URL] refuses gives the
    failure "Invalid URL format".  In both cases the fetcher and the world
    come back as they were: no HTTP call is logged, no timer is set, and
    the rate limiter has counted nothing. *)
Theorem fetch_validates_before_any_effect
  (self : t) (url : jsstring) (w : World) :
  (blank url = true ->
     fetch L self url w = (failure (lit "URL cannot be empty"), self, w)) /\
  (blank url = false -> Libs.URL_parses L url = false ->
     fetch L self url w = (failure (lit "Invalid URL format"), self, w)).
Proof.
  split; [apply fetch_blank|apply fetch_unparsable].
Qed.

(** [fetch] on a URL that passes the validation: the rate limit, then the
    HTTP call, then [parseContent]. *)
Lemma fetch_valid (self : t) (url : jsstring) (w : World) :
  blank url = false -> Libs.URL_parses L url = true ->
  fetch L self url w =
    let '(rl, w1) := RateLimiter.acquire (rateLimiter self) w in
    let '(response, w2) := HttpClient.get url w1 in
    match match response with
          | Resolved v => parseContent L v
          | Rejected e => Rejected e
          end with
    | Resolved content => (mkFetchResult true (Some content) None, mk rl, w2)
    | Rejected e =>
        (failure (lit "Failed to fetch content: " ++ errorMessage e),
         mk rl, w2)
    end.
Proof.
  intros B P. unfold fetch. rewrite empty_guard, B, P. reflexivity.
Qed.

(** The values named by the specification are taken for no content. *)
Lemma no_content_values (x : JSNumber) :
  no_content JSNull /\ no_content JSUndefined /\ no_content (JSNum x) /\
  no_content (JSString []).
Proof. unfold no_content; simpl; auto. Qed.

Lemma parseContent_no_content (v : JSValue) :
  no_content v ->
  parseContent L v = Rejected (ErrorObject (lit "No content received")).
Proof.
  unfold parseContent, no_content. intros [H|H]; rewrite H; simpl.
  - reflexivity.
  - rewrite orb_true_r. reflexivity.
Qed.

Lemma parseContent_string (html : jsstring) :
  html <> [] ->
  parseContent L (JSString html) =
    Resolved (Scraper.scrapeWebPage (Libs.cheerio L) (Libs.turndown L) html
                (Some []) parse_options).
Proof.
  intros H. destruct html; [contradiction|]. reflexivity.
Qed.

(** C4. For a URL that passes the validation, whatever the HTTP client
    resolves to: a response that is falsy or not a string (null,
    undefined, a number, the empty string among them) gives the failure
    "Failed to fetch content: No content received", and a string that is
    not empty, made of white space only or not, gives a success whose data
    is what the scraper makes of it. *)
Theorem fetch_judges_the_response
  (self : t) (url : jsstring) (w : World) (v : JSValue) :
  blank url = false -> Libs.URL_parses L url = true ->
  fst (HttpClient.get url (snd (RateLimiter.acquire (rateLimiter self) w)))
    = Resolved v ->
  (no_content v ->
     fst (fst (fetch L self url w)) =
       failure (lit "Failed to fetch content: No content received")) /\
  (forall html, v = JSString html -> html <> [] ->
     fst (fst (fetch L self url w)) =
       mkFetchResult true
         (Some (Scraper.scrapeWebPage (Libs.cheerio L) (Libs.turndown L) html
                  (Some []) parse_options))
         None).
Proof.
  intros B P R. rewrite (fetch_valid self url w B P).
  destruct (RateLimiter.acquire (rateLimiter self) w) as [rl w1].
  cbn [snd] in R.
  destruct (HttpClient.get url w1) as [response w2].
  cbn [fst] in R. subst response.
  cbv beta iota zeta.
  split.
  - intros H. rewrite (parseContent_no_content H). reflexivity.
  - intros html -> H. rewrite (parseContent_string H). reflexivity.
Qed.

(** A successful [fetch] comes from a string response that is not empty,
    scraped with the empty string as its URL argument. *)
Lemma fetch_success_inv (self : t) (url : jsstring) (w : World) :
  success (fst (fst (fetch L self url w))) = true ->
  exists html,
    html <> [] /\
    fst (fst (fetch L self url w)) =
      mkFetchResult true
        (Some (Scraper.scrapeWebPage (Libs.cheerio L) (Libs.turndown L) html
                 (Some []) parse_options))
        None.
Proof.
  destruct (blank url) eqn:B.
  { rewrite (fetch_blank self url w B). discriminate. }
  destruct (Libs.URL_parses L url) eqn:P.
  2:{ rewrite (fetch_unparsable self url w B P). discriminate. }
  rewrite (fetch_valid self url w B P).
  destruct (RateLimiter.acquire (rateLimiter self) w) as [rl w1].
  destruct (HttpClient.get url w1) as [[v|e] w2]; [|discriminate].
  unfold parseContent.
  destruct (negb (truthy v) || negb (is_string v)) eqn:G; [discriminate|].
  destruct v; try discriminate.
  destruct s as [|c s]; [discriminate|].
  intros _. exists (c :: s). split; [discriminate|reflexivity].
Qed.

End FetcherFacts.

Section MetadataFacts.

Import Properties.
Import Scraper.

Variable C : Libs.Cheerio.
Variable turndown : jsstring -> jsstring.

Lemma or_else_prefers (primary fallback : option jsstring) :
  prefers primary fallback (or_else primary fallback).
Proof.
  unfold prefers. destruct primary as [[|c s]|]; simpl; split;
    intros H; try discriminate; reflexivity.
Qed.

(** With metadata enabled, the metadata of the result is read from the
    page after the removal pass. *)
Lemma scrape_metadata (html : jsstring) (url : option jsstring)
  (options : ScraperOptions) :
  default_true (includeMetadata options) = true ->
  metadata (scrapeWebPage C turndown html url options) =
    Some (extract_metadata C url (pruned C html options)).
Proof.
  intros H. unfold scrapeWebPage. rewrite H. reflexivity.
Qed.

(** C5. With [includeMetadata] enabled, on every HTML input, the metadata
    is read from the page as the removal pass leaves it, each field by a
    fixed precedence: the title is the text of [title] and else the content
    of og:title; the description is the content of [meta[name=description]]
    and else of og:description; the url is the url argument and else the
    content of og:url; the author is the content of [meta[name=author]] and
    else of article:author; the publication date is the content of
    article:published_time and else the [datetime] attribute of the first
    [time[datetime]] element.  "Else" is JavaScript's [||]: the first
    source counts when it is a string that is not empty.  The content of a
    meta selector is the [content] attribute of the first element that
    matches it. *)
Theorem scrape_metadata_precedence (html : jsstring) (url : option jsstring)
  (options : ScraperOptions) :
  default_true (includeMetadata options) = true ->
  let d := pruned C html options in
  let content_of selector := meta_content C selector d in
  exists m,
    metadata (scrapeWebPage C turndown html url options) = Some m /\
    prefers (Some (Libs.sel_text C (Libs.select C (lit "title") d) d))
            (content_of (attr_selector "meta" "property" "og:title"))
            (title m) /\
    prefers (content_of (attr_selector "meta" "name" "description"))
            (content_of (attr_selector "meta" "property" "og:description"))
            (description m) /\
    prefers url
            (content_of (attr_selector "meta" "property" "og:url"))
            (Types.url m) /\
    prefers (content_of (attr_selector "meta" "name" "author"))
            (content_of (attr_selector "meta" "property" "article:author"))
            (author m) /\
    prefers (content_of
               (attr_selector "meta" "property" "article:published_time"))
            (match Libs.select C (lit "time[datetime]") d with
             | [] => None
             | first :: _ => Libs.elem_attr C first (lit "datetime") d
             end)
            (publishDate m).
Proof.
  intros H d content_of.
  exists (extract_metadata C url d). split.
  - apply scrape_metadata, H.
  - unfold extract_metadata; cbn [title description Types.url author
                                   publishDate].
    do 4 (split; [apply or_else_prefers|]). apply or_else_prefers.
Qed.

End MetadataFacts.

Section ScrapedUrlFacts.

Import Properties.
Import WebContentFetcher.

Variable L : Libs.t.

(** C10, as the code has it.  [fetch] hands the scraper the empty string
    as its url argument, whatever URL was requested, so the [url] of the
    metadata of a successful result is never taken from the request: it is
    the content of the page's og:url meta element when there is one (a
    content that may well be the requested URL) and undefined otherwise. *)
Theorem fetch_metadata_url_is_the_og_url
  (self : t) (url : jsstring) (w : World) :
  success (fst (fst (fetch L self url w))) = true ->
  exists html,
    data (fst (fst (fetch L self url w))) =
      Some (Scraper.scrapeWebPage (Libs.cheerio L) (Libs.turndown L) html
              (Some []) parse_options) /\
    option_map Types.url
      (metadata (Scraper.scrapeWebPage (Libs.cheerio L) (Libs.turndown L)
                   html (Some []) parse_options)) =
      Some (Scraper.meta_content (Libs.cheerio L)
              (Scraper.attr_selector "meta" "property" "og:url")
              (pruned (Libs.cheerio L) html parse_options)).
Proof.
  intros H. destruct (fetch_success_inv L self url w H) as (html & _ & E).
  exists html. rewrite E. split; [reflexivity|].
  rewrite scrape_metadata by reflexivity. reflexivity.
Qed.

End ScrapedUrlFacts.

Section McpFacts.

Import Properties.
Import Mcp.

Variable L : Libs.t.

Lemma substring_first (s : jsstring) :
  substring s 0 maxLength = firstn (Z.to_nat 10000) s.
Proof.
  unfold substring, maxLength.
  change (Z.to_nat (Z.min 0 10000)) with 0%nat.
  change (Z.max 0 10000) with 10000%Z.
  rewrite Nat.sub_0_r. reflexivity.
Qed.

Lemma truncate_truncated (content : jsstring) :
  truncate content = truncated content.
Proof.
  unfold truncate, truncated, maxLength.
  destruct (10000 <? len content)%Z; [|reflexivity].
  fold maxLength. rewrite substring_first. reflexivity.
Qed.

(** What is shown of a content: past 10,000 characters its first 10,000
    (exactly so many) and the notice, and otherwise the content itself. *)
Lemma truncated_cases (content : jsstring) :
  ((10000 < len content)%Z ->
     truncated content = firstn (Z.to_nat 10000) content ++ truncation_notice
     /\ len (firstn (Z.to_nat 10000) content) = 10000%Z) /\
  ((len content <= 10000)%Z -> truncated content = content).
Proof.
  unfold truncated. split; intros H.
  - destruct (Z.ltb_spec 10000 (len content)); [|lia].
    split; [reflexivity|].
    unfold len in *. rewrite length_firstn. lia.
  - destruct (Z.ltb_spec 10000 (len content)); [lia|reflexivity].
Qed.

(** C9, as the code has it.  When the fetch behind the fetch_web_content
    tool succeeds, the tool answers the text "Content from <url>:"
    followed by a blank line and the content, cut to its first 10,000
    characters with the truncation notice appended when it is longer and
    unmodified otherwise, provided the content is not empty; for an empty
    content the tool answers a notice that no text was extracted.  The url
    is the trimmed argument. *)
Theorem fetch_tool_text
  (fetcher : WebContentFetcher.t) (u : jsstring) (w : World) :
  success (fst (fst (WebContentFetcher.fetch L fetcher (trim u) w))) = true ->
  exists wc,
    data (fst (fst (WebContentFetcher.fetch L fetcher (trim u) w))) = Some wc
    /\
    fst (fst (handleFetchTool L fetcher (Some (JSString u)) w)) =
      Resolved
        (mkToolResponse
           (if JS.eqb (content wc) [] then no_content_text (trim u)
            else content_text (trim u) (truncated (content wc)))).
Proof.
  intros H.
  destruct (fetch_success_inv L fetcher (trim u) w H) as (html & _ & E).
  eexists; split; [rewrite E; reflexivity|].
  assert (B : blank (trim u) = false).
  { destruct (blank (trim u)) eqn:B; [|reflexivity].
    rewrite (fetch_blank L fetcher (trim u) w B) in H. discriminate. }
  assert (P : Libs.URL_parses L (trim u) = true).
  { destruct (Libs.URL_parses L (trim u)) eqn:P; [reflexivity|].
    rewrite (fetch_unparsable L fetcher (trim u) w B P) in H.
    discriminate. }
  assert (N : (len (trim u) =? 0)%Z = false).
  { destruct (len (trim u) =? 0)%Z eqn:Z; [|reflexivity].
    apply len_zero in Z. rewrite Z in B. discriminate. }
  destruct u as [|c u]; [discriminate B|].
  unfold handleFetchTool. rewrite N, P. cbn [negb].
  unfold fetch_and_format.
  destruct (WebContentFetcher.fetch L fetcher (trim (c :: u)) w)
    as [[r f'] w'].
  cbn [fst snd] in *. subst r. cbn [success negb data].
  unfold content_of. cbn [data].
  destruct (Scraper.scrapeWebPage (Libs.cheerio L) (Libs.turndown L) html
              (Some []) WebContentFetcher.parse_options) as [[|x cs] md];
    cbn [fst content JS.eqb present negb or_empty]; [reflexivity|].
  rewrite truncate_truncated. reflexivity.
Qed.

End McpFacts.

(* ===================================================================== *)
(** ** The whitespace clean-up                                            *)
(* ===================================================================== *)

Section WhitespaceFacts.

Import Properties.
Import Scraper.

Lemma split_lines_not_nil (s : jsstring) : split_lines s <> [].
Proof.
  induction s as [|c s IH]; simpl; [discriminate|].
  destruct (c =? LF)%N; [discriminate|].
  destruct (split_lines s); [contradiction|discriminate].
Qed.

Lemma join_cons (sep p : jsstring) (ps : list jsstring) :
  ps <> [] -> join sep (p :: ps) = p ++ sep ++ join sep ps.
Proof. destruct ps; [contradiction|reflexivity]. Qed.

(** Splitting at line feeds loses nothing: joining the lines with a line
    feed gives the string back. *)
Lemma split_lines_join (s : jsstring) : join [LF] (split_lines s) = s.
Proof.
  induction s as [|c s IH]; [reflexivity|].
  simpl split_lines. destruct (N.eqb_spec c LF) as [->|Hc].
  - rewrite join_cons by apply split_lines_not_nil. simpl. now rewrite IH.
  - pose proof (split_lines_not_nil s) as Hn.
    destruct (split_lines s) as [|l ls]; [contradiction|].
    destruct ls as [|l' ls]; simpl in *; now rewrite IH.
Qed.

Lemma split_lines_no_LF (s : jsstring) :
  Forall (fun l => ~ In LF l) (split_lines s).
Proof.
  induction s as [|c s IH]; simpl.
  - constructor; [intros []|constructor].
  - destruct (N.eqb_spec c LF) as [->|Hc].
    + constructor; [intros []|exact IH].
    + destruct (split_lines s) as [|l ls].
      * constructor; [|constructor]. intros [E|[]]. congruence.
      * inversion IH; subst. constructor; [|assumption].
        intros [E|E]; [congruence|contradiction].
Qed.

Lemma trimStart_incl (s : jsstring) (x : N) : In x (trimStart s) -> In x s.
Proof.
  induction s as [|c s IH]; simpl; [tauto|].
  destruct (isWhiteSpace c); simpl; tauto.
Qed.

Lemma trim_incl (s : jsstring) (x : N) : In x (trim s) -> In x s.
Proof.
  unfold trim, trimEnd. intros H.
  apply in_rev, trimStart_incl, in_rev, trimStart_incl in H. exact H.
Qed.

Lemma nonempty_test (l : jsstring) :
  (0 <? len l)%Z = negb (JS.eqb l []).
Proof. destruct l; [reflexivity|]. unfold len; simpl. reflexivity. Qed.

Lemma emit_run_zero : emit_run 0 = [].
Proof. reflexivity. Qed.

(** A run of line feeds only lengthens the run being read. *)
Lemma collapse_from_run (r k : nat) (s : jsstring) :
  collapse_from r (repeat LF k ++ s) = collapse_from (r + k) s.
Proof.
  revert r; induction k as [|k IH]; intros r; simpl.
  - now rewrite Nat.add_0_r.
  - rewrite IH. f_equal. lia.
Qed.

(** At a character that is no line feed, or at the end, the run read so
    far is emitted. *)
Lemma collapse_from_clean (r : nat) (b : jsstring) :
  starts_clean b -> collapse_from r b = emit_run r ++ collapse_from 0 b.
Proof.
  destruct b as [|c b]; simpl.
  - intros _. now rewrite emit_run_zero, app_nil_r.
  - intros Hc. destruct (N.eqb_spec c LF); [contradiction|reflexivity].
Qed.

(** After a character that is no line feed the scan starts afresh. *)
Lemma collapse_from_app (r : nat) (a : jsstring) (c : N) (s : jsstring) :
  c <> LF ->
  collapse_from r ((a ++ [c]) ++ s) =
    collapse_from r (a ++ [c]) ++ collapse_from 0 s.
Proof.
  intros Hc. revert r. induction a as [|x a IH]; intros r; simpl.
  - destruct (N.eqb_spec c LF); [contradiction|].
    rewrite emit_run_zero. rewrite <- app_assoc. reflexivity.
  - destruct (x =? LF)%N.
    + apply IH.
    + rewrite IH. rewrite <- app_assoc. reflexivity.
Qed.

(** What [replace(/\n{3,}/g, "\n\n")] does to a maximal run of [k] line
    feeds: two line feeds when [k >= 3], the run as it is otherwise;
    the text around the run is rewritten on its own. *)
Lemma collapse_newlines_run (a b : jsstring) (k : nat) :
  ends_clean a -> starts_clean b ->
  collapse_newlines (a ++ repeat LF k ++ b) =
    collapse_newlines a ++ (if (3 <=? k)%nat then [LF; LF] else repeat LF k)
    ++ collapse_newlines b.
Proof.
  unfold collapse_newlines. intros Ha Hb.
  assert (E : collapse_from 0 (repeat LF k ++ b) =
              emit_run k ++ collapse_from 0 b).
  { rewrite collapse_from_run. simpl. apply collapse_from_clean, Hb. }
  destruct Ha as [->|(a' & c & -> & Hc)].
  - simpl app at 1. rewrite E. reflexivity.
  - rewrite collapse_from_app by assumption. rewrite E. reflexivity.
Qed.

Lemma collapse_from_line (l s : jsstring) :
  ~ In LF l -> collapse_from 0 (l ++ s) = l ++ collapse_from 0 s.
Proof.
  induction l as [|c l IH]; intros H; simpl; [reflexivity|].
  destruct (N.eqb_spec c LF) as [->|Hc]; [exfalso; apply H; now left|].
  f_equal. apply IH.
  intros Hin; apply H; now right.
Qed.

(** Lines that are not empty and hold no line feed, joined by two line
    feeds, hold no run of three: nothing is left to collapse. *)
Lemma collapse_join (kept : list jsstring) :
  Forall (fun l => l <> [] /\ ~ In LF l) kept ->
  collapse_newlines (join [LF; LF] kept) = join [LF; LF] kept.
Proof.
  unfold collapse_newlines.
  induction 1 as [|p ps [Hp Hn] Hps IH]; [reflexivity|].
  destruct ps as [|q ps].
  - simpl. rewrite <- (app_nil_r p) at 1.
    rewrite collapse_from_line by assumption. simpl.
    now rewrite app_nil_r.
  - rewrite join_cons by discriminate.
    rewrite collapse_from_line by assumption. f_equal.
    change ([LF; LF] ++ join [LF; LF] (q :: ps))
      with (repeat LF 2 ++ join [LF; LF] (q :: ps)).
    rewrite collapse_from_run. simpl Nat.add.
    rewrite collapse_from_clean.
    + rewrite IH. reflexivity.
    + inversion Hps as [|? ? [Hq Hqn] _]; subst.
      destruct q as [|c q]; [contradiction|].
      destruct ps; simpl; intros ->; apply Hqn; now left.
Qed.

(** What [scrapeWebPage] returns as content: the header, then the
    converted Markdown, cleaned unless [cleanWhitespace] is false. *)
Lemma scrape_content (C : Libs.Cheerio) (turndown : jsstring -> jsstring)
  (html : jsstring) (url : option jsstring) (options : ScraperOptions) :
  content (scrapeWebPage C turndown html url options) =
    front (scrapeWebPage C turndown html url options)
    ++ (if default_true (cleanWhitespace options)
        then clean_whitespace (converted C turndown html options)
        else converted C turndown html options).
Proof.
  unfold front, converted, pruned, scrapeWebPage.
  cbn [content metadata].
  destruct (default_true (includeMetadata options));
    destruct (default_true (cleanWhitespace options)); reflexivity.
Qed.

(** C8. The whitespace clean-up in the scrape pipeline.  Whatever Markdown
    string the conversion of a page yields, with [cleanWhitespace] enabled
    (true or left out) the content [scrapeWebPage] returns is its header
    followed by the Markdown normalised step by step: the string is split
    at its line feeds (joining the lines by a line feed gives it back, and
    no line holds a line feed); every line is trimmed and the empty ones
    are dropped; what is kept is joined by two line feeds; in the outcome
    every run of three or more line feeds is replaced by exactly two.
    After the join no such run is left, so the outcome is the join itself.
    With [cleanWhitespace] false the Markdown is returned as it is. *)
Theorem clean_whitespace_steps (C : Libs.Cheerio)
  (turndown : jsstring -> jsstring) (html : jsstring)
  (url : option jsstring) (options : ScraperOptions) (markdown : jsstring) :
  converted C turndown html options = markdown ->
  let scraped := scrapeWebPage C turndown html url options in
  let lines := split_lines markdown in
  let kept := filter (fun l => negb (JS.eqb l [])) (map trim lines) in
  (default_true (cleanWhitespace options) = true ->
     content scraped = front scraped ++ clean_whitespace markdown /\
     content scraped = front scraped ++ join [LF; LF] kept) /\
  (default_true (cleanWhitespace options) = false ->
     content scraped = front scraped ++ markdown) /\
  join [LF] lines = markdown /\
  Forall (fun l => ~ In LF l) lines /\
  Forall (fun l => l <> [] /\ ~ In LF l) kept /\
  clean_whitespace markdown = collapse_newlines (join [LF; LF] kept) /\
  (forall a b k, ends_clean a -> starts_clean b ->
     collapse_newlines (a ++ repeat LF k ++ b) =
       collapse_newlines a
       ++ (if (3 <=? k)%nat then [LF; LF] else repeat LF k)
       ++ collapse_newlines b) /\
  clean_whitespace markdown = join [LF; LF] kept.
Proof.
  intros Hmd scraped lines kept.
  assert (Hkept : Forall (fun l => l <> [] /\ ~ In LF l) kept).
  { apply Forall_forall. intros l Hl.
    apply filter_In in Hl as [Hl Hne].
    apply in_map_iff in Hl as (l0 & <- & Hl0).
    split.
    - intros E. rewrite E in Hne. discriminate.
    - intros Hin. apply trim_incl in Hin.
      pose proof (split_lines_no_LF markdown) as Hno.
      rewrite Forall_forall in Hno. exact (Hno _ Hl0 Hin). }
  assert (Hdef : clean_whitespace markdown =
                 collapse_newlines (join [LF; LF] kept)).
  { unfold clean_whitespace, kept, lines. do 2 f_equal.
    apply filter_ext. intros l. apply nonempty_test. }
  assert (Hjoin : clean_whitespace markdown = join [LF; LF] kept).
  { rewrite Hdef. apply collapse_join, Hkept. }
  pose proof (scrape_content C turndown html url options) as Hc.
  fold scraped in Hc. rewrite Hmd in Hc.
  split.
  { intros On. rewrite On in Hc. split; [exact Hc|].
    rewrite <- Hjoin. exact Hc. }
  split.
  { intros Off. rewrite Off in Hc. exact Hc. }
  split; [apply split_lines_join|].
  split; [apply split_lines_no_LF|].
  split; [exact Hkept|].
  split; [exact Hdef|].
  split; [intros a b k; apply collapse_newlines_run|].
  exact Hjoin.
Qed.

(** The scraper cleans the Markdown that turndown returns unless the
    option is false. *)
Lemma scrape_cleans_markdown (C : Libs.Cheerio)
  (turndown : jsstring -> jsstring) (html : jsstring)
  (url : option jsstring) (options : ScraperOptions) :
  default_true (cleanWhitespace options) = true ->
  exists header inner,
    content (scrapeWebPage C turndown html url options) =
      header ++ clean_whitespace (turndown inner).
Proof.
  intros H. unfold scrapeWebPage. rewrite H. cbn [content].
  eexists; eexists; reflexivity.
Qed.

End WhitespaceFacts.

(* ===================================================================== *)
(** ** The search results                                                 *)
(* ===================================================================== *)

Section SearcherFacts.

Import Properties.
Import WebSearcher.
Local Open Scope searcher_scope.

Lemma keeps_spec (title url : jsstring) :
  keeps title url = true ->
  title <> [] /\ url <> [] /\
  startsWith url (lit "http") = true /\
  includes url (lit "duckduckgo.com/y.js") = false /\
  includes url (lit "duckduckgo.com/l/?uddg=") = false /\
  includes url (lit "javascript:") = false.
Proof.
  unfold keeps. rewrite !andb_true_iff, !negb_true_iff.
  intros [[[[[Ht Hu] Hy] Hl] Hj] Hh].
  repeat split; try assumption.
  - intros ->; discriminate Ht.
  - intros ->; discriminate Hu.
Qed.

(** A URL that the specification wants discarded fails the test. *)
Lemma unwanted_not_kept (title url : jsstring) :
  unwanted url -> keeps title url = false.
Proof.
  unfold unwanted, keeps. intros [H|[H|[H|H]]]; rewrite H; simpl;
    rewrite ?andb_false_r; reflexivity.
Qed.

(** An element adds no result, or one result that passed the test with
    its normalized URL. *)
Lemma extract_element_cases (element : Dom.Element) :
  extract_element element = [] \/
  exists title url snippet,
    keeps title (normalize_url url) = true /\
    extract_element element =
      [mkSearchResult title (normalize_url url) snippet (Some [])].
Proof.
  unfold extract_element.
  destruct (find_element titleSelectors element None) as [te|]; [|now left].
  match goal with
  | |- context [keeps ?t (normalize_url ?u)] =>
      destruct (keeps t (normalize_url u)) eqn:K
  end; [|now left].
  right. do 3 eexists. split; [exact K|reflexivity].
Qed.

Lemma extract_element_passes (element : Dom.Element) :
  Forall passes_filter (extract_element element).
Proof.
  destruct (extract_element_cases element)
    as [->|(title & url & snippet & K & ->)]; [constructor|].
  constructor; [|constructor].
  apply keeps_spec in K as (_ & Hu & Hh & Hy & Hl & Hj).
  unfold passes_filter; simpl. auto.
Qed.

Lemma extract_from_passes (sels : list jsstring) (document : Dom.Document)
  (searchResults : list SearchResult) :
  Forall passes_filter searchResults ->
  Forall passes_filter (extract_from sels document searchResults).
Proof.
  revert searchResults.
  induction sels as [|selector rest IH]; intros acc Hacc; simpl;
    [exact Hacc|].
  assert (Hnew : Forall passes_filter
                   (acc ++ flat_map extract_element
                             (Dom.querySelectorAll document selector))).
  { apply Forall_app. split; [exact Hacc|].
    apply Forall_forall. intros r Hr.
    apply in_flat_map in Hr as (element & _ & Hr).
    pose proof (extract_element_passes element) as Hp.
    rewrite Forall_forall in Hp. exact (Hp r Hr). }
  destruct (0 <? List.length (Dom.querySelectorAll document selector))%nat;
    [|apply IH, Hacc].
  destruct (0 <? List.length _)%nat; [exact Hnew|apply IH, Hnew].
Qed.

Lemma extract_passes (document : Dom.Document) :
  Forall passes_filter (extract document).
Proof. apply extract_from_passes. constructor. Qed.

(** What a body resolves to, through [ret] and [bind]. *)
Lemma yields_ret (P : list SearchResult -> Prop) (results : list SearchResult) :
  P results -> yields P (ret results).
Proof. intros H fr. exact H. Qed.

Lemma yields_bind (A : Type) (P : list SearchResult -> Prop) (m : M A)
  (k : A -> M (list SearchResult)) :
  (forall a, yields P (k a)) -> yields P (bind m k).
Proof.
  intros H fr. unfold bind. destruct (m fr) as [[a|e] fr']; [|exact I].
  apply H.
Qed.

Lemma submit_and_extract_yields (p : Page) (query : jsstring) :
  yields (Forall passes_filter) (submit_and_extract p query).
Proof.
  unfold submit_and_extract.
  repeat (apply yields_bind; intros ?).
  apply yields_ret, extract_passes.
Qed.

(** Whatever initialises the browser and whatever is done about a captcha,
    the [try] block resolves to results that passed the filter. *)
Lemma try_block_yields (init : M unit) (on_captcha : Page -> M unit)
  (query : jsstring) :
  yields (Forall passes_filter) (try_block init on_captcha query).
Proof.
  unfold try_block.
  apply yields_bind; intros _.
  apply yields_bind; intros p.
  apply yields_bind; intros captchaElement.
  intros fr.
  destruct (captchaElement && headless (this fr)).
  - constructor.
  - apply yields_bind; intros _. apply submit_and_extract_yields.
Qed.

Lemma search_with_results (P : list SearchResult -> Prop)
  (body : jsstring -> M (list SearchResult))
  (self : t) (query : jsstring) (w : World) :
  P [] -> (forall q, yields P (body q)) ->
  P (fst (fst (search_with body self query w))).
Proof.
  intros Hnil Hbody. unfold search_with.
  destruct (negb (truthy (JSString query)) || (len (trim query) =? 0)%Z);
    [exact Hnil|].
  destruct (RateLimiter.acquire (rateLimiter self) w) as [rl w1].
  match goal with
  | |- context [body query ?fr] =>
      pose proof (Hbody query fr) as H; destruct (body query fr) as [r fr']
  end.
  simpl in *. destruct r; [exact H|exact Hnil].
Qed.

(** C2, as the code has it.  Every result that [search] returns, for every
    query and every world, has a URL that is not empty, starts with the
    four characters "http", and holds none of "duckduckgo.com/y.js",
    "duckduckgo.com/l/?uddg=" and "javascript:"; a candidate whose
    normalized URL holds one of these or does not start with "http" fails
    the test that guards the push, and an element adds a result only when
    its title and normalized URL pass that test. *)
Theorem search_results_pass_the_filter
  (self : t) (query : jsstring) (w : World) :
  Forall passes_filter (fst (fst (search self query w))) /\
  (forall title url, unwanted url -> keeps title url = false) /\
  (forall element,
     extract_element element = [] \/
     exists title url snippet,
       keeps title (normalize_url url) = true /\
       extract_element element =
         [mkSearchResult title (normalize_url url) snippet (Some [])]).
Proof.
  split; [|split].
  - unfold search.
    apply (@search_with_results (Forall passes_filter)); [constructor|].
    intros q. apply try_block_yields.
  - apply unwanted_not_kept.
  - apply extract_element_cases.
Qed.

(** The same holds of the second copy, whose [try] block differs only in
    the browser initialisation and the captcha wait. *)
Lemma revised_search_results_pass_the_filter
  (self : t) (query : jsstring) (w : World) :
  Forall passes_filter (fst (fst (WebSearcherRevised.search self query w))).
Proof.
  unfold WebSearcherRevised.search.
  apply (@search_with_results (Forall passes_filter)); [constructor|].
  intros q. apply try_block_yields.
Qed.

(** A blank query returns [] at once: no timer, no call, the instance as
    it was. *)
Lemma search_blank_query (self : t) (query : jsstring) (w : World) :
  blank query = true -> search self query w = ([], self, w).
Proof.
  intros B. unfold search, search_with. rewrite empty_guard, B. reflexivity.
Qed.

(** ** The captcha wait *)

(** src/searcher/WebSearcher.ts waits on a function that is constantly
    true, bounded by 10 seconds, and lets a rejection escape. *)
Lemma on_captcha_named (p : Page) (fr : Frame) :
  fst (on_captcha p fr) =
    respond (world fr) (calls (world fr)) (WaitForFunction p ConstTrue 10000)
  /\
  calls (world (snd (on_captcha p fr))) =
    Called (WaitForFunction p ConstTrue 10000) :: calls (world fr).
Proof. split; reflexivity. Qed.

(** The second copy waits for the captcha element to be hidden, bounded by
    60 seconds, and goes on whether the wait resolves or rejects. *)
Lemma on_captcha_revised (p : Page) (fr : Frame) :
  fst (WebSearcherRevised.on_captcha p fr) = Resolved tt /\
  calls (world (snd (WebSearcherRevised.on_captcha p fr))) =
    Called (WaitForSelector p captchaSelector true 60000) :: calls (world fr).
Proof.
  unfold WebSearcherRevised.on_captcha, bind, attempt, await, perform.
  destruct (respond (world fr) (calls (world fr))
              (WaitForSelector p captchaSelector true
                 WebSearcherRevised.CAPTCHA_MANUAL_SOLVE_TIMEOUT_MS));
    split; reflexivity.
Qed.

(** ** A captcha in a headless browser *)

Lemma keeps_mode_ret (A : Type) (a : A) : keeps_mode (ret a).
Proof. intros fr. split; reflexivity. Qed.

Lemma keeps_mode_await (R : Type) (c : Call R) : keeps_mode (await c).
Proof. intros fr. split; reflexivity. Qed.

Lemma keeps_mode_bind (A B : Type) (m : M A) (k : A -> M B) :
  keeps_mode m -> (forall a, keeps_mode (k a)) -> keeps_mode (bind m k).
Proof.
  intros Hm Hk fr. unfold bind.
  destruct (Hm fr) as [H1 H2].
  destruct (m fr) as [[a|e] fr1]; simpl in *; [|split; assumption].
  destruct (Hk a fr1) as [H3 H4]. split; congruence.
Qed.

Lemma keeps_mode_initBrowser : keeps_mode initBrowser.
Proof.
  intros fr. unfold initBrowser.
  destruct (browser (this fr)); [split; reflexivity|].
  unfold await, perform.
  destruct (respond (world fr) (calls (world fr))
              (PuppeteerLaunch (headless (this fr)) launch_args));
    split; reflexivity.
Qed.

Lemma keeps_mode_open_page : keeps_mode open_page.
Proof.
  intros fr. unfold open_page.
  destruct (browser (this fr)) as [b|]; [|split; reflexivity].
  revert fr.
  change (keeps_mode
            (p <- await (NewPage b);;
             (fun fr => (Resolved tt, mkFrame (this fr) (Some p) (world fr)));;;
             await (SetUserAgent p userAgent);;;
             await (SetViewport p 1366 768);;;
             await (PageGoto p (lit "https://duckduckgo.com")
                      (lit "networkidle0") 30000);;;
             ret p)).
  apply keeps_mode_bind; [apply keeps_mode_await|intros p].
  apply keeps_mode_bind; [intros fr; split; reflexivity|intros _].
  repeat (apply keeps_mode_bind; [apply keeps_mode_await|intros _]).
  apply keeps_mode_ret.
Qed.

(** The [try] block in a headless browser that is shown a captcha resolves
    to no results, whatever the query. *)
Lemma try_block_headless_captcha (init : M unit)
  (on_captcha : Page -> M unit) (query : jsstring) (fr : Frame) :
  keeps_mode init ->
  headless (this fr) = true -> captcha_shown (respond (world fr)) ->
  match fst (try_block init on_captcha query fr) with
  | Resolved results => results = []
  | Rejected _ => True
  end.
Proof.
  intros Hinit Hh Hc. unfold try_block, bind.
  destruct (Hinit fr) as [H1 H2].
  destruct (init fr) as [[[]|e] fr1]; [|exact I]. simpl in H1, H2.
  destruct (keeps_mode_open_page fr1) as [H3 H4].
  destruct (open_page fr1) as [[p|e] fr2]; [|exact I]. simpl in H3, H4.
  unfold await, perform.
  rewrite H4, H2, Hc. cbn [this]. rewrite H3, H1, Hh. reflexivity.
Qed.

Lemma acquire_respond (rl : RateLimiter.t) (w : World) :
  respond (snd (RateLimiter.acquire rl w)) = respond w.
Proof.
  unfold RateLimiter.acquire.
  destruct (RateLimiter.interval rl
            <=? Date_now w - RateLimiter.lastRequestTime rl)%Z;
    match goal with
    | |- context [(RateLimiter.requests ?s <? RateLimiter.limit ?s)%Z] =>
        destruct (RateLimiter.requests s <? RateLimiter.limit s)%Z
    end; reflexivity.
Qed.

(** The first half of C6, in both texts: a headless searcher that is
    shown a captcha returns [], in every world. *)
Lemma headless_captcha_aborts (self : t) (query : jsstring) (w : World) :
  headless self = true -> captcha_shown (respond w) ->
  fst (fst (search self query w)) = [] /\
  fst (fst (WebSearcherRevised.search self query w)) = [].
Proof.
  intros Hh Hc.
  assert (G : forall on_captcha,
             fst (fst (search_with (try_block initBrowser on_captcha)
                         self query w)) = []).
  { intros on_captcha. unfold search_with.
    destruct (negb (truthy (JSString query)) || (len (trim query) =? 0)%Z);
      [reflexivity|].
    pose proof (acquire_respond (rateLimiter self) w) as Hr.
    destruct (RateLimiter.acquire (rateLimiter self) w) as [rl w1].
    simpl in Hr.
    pose proof (@try_block_headless_captcha initBrowser on_captcha query
                  (mkFrame (set_rateLimiter rl self) None w1)
                  keeps_mode_initBrowser Hh) as H.
    simpl in H. rewrite Hr in H. specialize (H Hc).
    destruct (try_block initBrowser on_captcha query
                (mkFrame (set_rateLimiter rl self) None w1)) as [[r|e] fr'];
      simpl in *; [exact H|reflexivity]. }
  split; apply G.
Qed.

End SearcherFacts.

(* ===================================================================== *)
(** ** Concurrent calls                                                   *)
(* ===================================================================== *)

Section EventLoopFacts.

Import EventLoop.

(** The two segments of [acquire] make up [acquire]. *)
Lemma acquire_segments (self : RateLimiter.t) (w : World) :
  RateLimiter.acquire self w =
    match acquire_enter self (Date_now w) with
    | (self', None) => (self', w)
    | (self', Some waitTime) =>
        let w' := sleep waitTime w in
        (acquire_wake self' (Date_now w'), w')
    end.
Proof.
  unfold RateLimiter.acquire, acquire_enter, acquire_wake.
  destruct (RateLimiter.interval self
            <=? Date_now w - RateLimiter.lastRequestTime self)%Z;
    match goal with
    | |- context [(RateLimiter.requests ?s <? RateLimiter.limit ?s)%Z] =>
        destruct (RateLimiter.requests s <? RateLimiter.limit s)%Z
    end; reflexivity.
Qed.

Lemma existsb_set_task (f : Pc -> bool) (i : nat) (pc : Pc) (ts : list Pc) :
  f pc = false -> existsb f ts = false -> existsb f (set_task i pc ts) = false.
Proof.
  intros Hpc. revert i; induction ts as [|t ts IH]; intros i; simpl;
    [reflexivity|].
  rewrite orb_false_iff. intros [Ht Hts].
  destruct i; simpl; rewrite ?Hpc, ?Ht; simpl; auto.
Qed.

Lemma existsb_is_launch_begun (k : nat) (ts : list Pc) :
  existsb (is_launch k) ts = true -> existsb begun ts = true.
Proof.
  induction ts as [|t ts IH]; simpl; [discriminate|].
  rewrite !orb_true_iff. intros [H|H]; [left|right; auto].
  destruct t; simpl in *; try discriminate; reflexivity.
Qed.

Lemma existsb_past_init_begun (ts : list Pc) :
  existsb past_init ts = true -> existsb begun ts = true.
Proof.
  induction ts as [|t ts IH]; simpl; [discriminate|].
  rewrite !orb_true_iff. intros [H|H]; [left|right; auto].
  destruct t; simpl in *; try discriminate; reflexivity.
Qed.

Lemma fresh_single_launch (n : nat) (t0 : Z) : single_launch (fresh n t0).
Proof.
  unfold single_launch, fresh; simpl. repeat split; try lia; try discriminate.
  induction n; simpl; auto.
Qed.

(** One event of the second copy keeps [single_launch], as long as a
    launch that ends, ends with a browser. *)
Lemma step_single_launch (ev : Event) (st st' : State) :
  launches_succeed ev = true ->
  step Revised ev st = Some st' ->
  single_launch st -> single_launch st'.
Proof.
  intros Hev Hstep (Hle & Hone & Hzero).
  assert (Hheld : browser st <> None -> launched st = 1%nat).
  { intros Hb. destruct (launched st) as [|[|n]]; [|reflexivity|lia].
    destruct (Hzero eq_refl) as (_ & Hn & _). contradiction. }
  assert (Hflight : initInFlight st = true -> launched st = 1%nat).
  { intros Hf. destruct (launched st) as [|[|n]]; [|reflexivity|lia].
    destruct (Hzero eq_refl) as (Hn & _ & _). congruence. }
  assert (Hbegun : existsb begun (tasks st) = true -> launched st = 1%nat).
  { intros Hb. destruct (launched st) as [|[|n]]; [|reflexivity|lia].
    destruct (Hzero eq_refl) as (_ & _ & Hn). congruence. }
  destruct ev as [dt|i|k b|k]; simpl in Hstep.
  - (* time passes *)
    destruct (0 <=? dt)%Z; inversion Hstep; subst; clear Hstep.
    exact (conj Hle (conj Hone Hzero)).
  - destruct (nth_error (tasks st) i) as [[| due | | | | |]|];
      try discriminate.
    + (* the first segment of acquire() *)
      destruct (acquire_enter (limiter st) (now st)) as [rl [waitTime|]];
        inversion Hstep; subst; clear Hstep;
        (split; [exact Hle|split; [exact Hone|]]); cbn;
        intros Hz; destruct (Hzero Hz) as (Hf & Hb & Ht);
        (split; [exact Hf|split; [exact Hb|]]);
        apply existsb_set_task; auto.
    + (* the timer of acquire() has fired *)
      destruct (due <=? now st)%Z; inversion Hstep; subst; clear Hstep.
      split; [exact Hle|split; [exact Hone|]]; cbn.
      intros Hz; destruct (Hzero Hz) as (Hf & Hb & Ht).
      split; [exact Hf|split; [exact Hb|]].
      apply existsb_set_task; auto.
    + (* the first segment of initBrowser() *)
      inversion Hstep; subst; clear Hstep. unfold init_segment.
      destruct (browser st) as [b|] eqn:Eb.
      * assert (Hl : launched st = 1%nat) by (apply Hheld; discriminate).
        split; [exact Hle|split]; cbn; intros Hx.
        -- right. discriminate.
        -- congruence.
      * destruct (initInFlight st) eqn:Ef.
        -- assert (Hl : launched st = 1%nat) by (apply Hflight; reflexivity).
           split; [exact Hle|split]; cbn; intros Hx.
           ++ left; reflexivity.
           ++ congruence.
        -- assert (Hl : launched st = 0%nat).
           { destruct (launched st) as [|[|n]]; [reflexivity| |lia].
             destruct (Hone eq_refl) as [Hf|Hb]; [discriminate|].
             contradiction. }
           rewrite Hl.
           split; [cbn; lia|split]; cbn; intros Hx.
           ++ left; reflexivity.
           ++ discriminate.
  - (* a launch resolves *)
    destruct b as [b|]; [|discriminate Hev].
    destruct (existsb (is_launch k) (tasks st)) eqn:Ek; [|discriminate].
    inversion Hstep; subst; clear Hstep.
    apply existsb_is_launch_begun in Ek.
    pose proof (Hbegun Ek) as Hl.
    split; [exact Hle|split]; cbn; intros Hx.
    + right. discriminate.
    + congruence.
  - discriminate Hev.
Qed.

Lemma run_single_launch (evs : list Event) (st st' : State) :
  forallb launches_succeed evs = true ->
  run Revised evs st = Some st' ->
  single_launch st -> single_launch st'.
Proof.
  revert st; induction evs as [|ev evs IH]; intros st Hevs Hrun Hst;
    simpl in *.
  - inversion Hrun; subst; exact Hst.
  - apply andb_true_iff in Hevs as [Hev Hevs].
    destruct (step Revised ev st) as [st1|] eqn:E; [|discriminate].
    eapply IH; eauto. eapply step_single_launch; eauto.
Qed.

(** The second copy of [initBrowser]: however many [search] calls are made
    on a new instance and however they interleave, as long as a launch that
    ends, ends with a browser, [puppeteer.launch] is called at most once,
    and exactly once when some call has returned from [initBrowser]. *)
Lemma revised_launches_once (n : nat) (t0 : Z) (evs : list Event)
  (st : State) :
  forallb launches_succeed evs = true ->
  run Revised evs (fresh n t0) = Some st ->
  (launched st <= 1)%nat /\
  (existsb past_init (tasks st) = true -> launched st = 1%nat).
Proof.
  intros Hevs Hrun.
  destruct (run_single_launch evs Hevs Hrun (fresh_single_launch n t0))
    as (Hle & _ & Hzero).
  split; [exact Hle|].
  intros Hp. apply existsb_past_init_begun in Hp.
  destruct (launched st) as [|[|k]]; [|reflexivity|lia].
  destruct (Hzero eq_refl) as (_ & _ & Ht). congruence.
Qed.

End EventLoopFacts.

(* ===================================================================== *)
(** ** The definitions at work                                            *)
(* ===================================================================== *)

Section Runs.

Import Properties.
Import Scenario.

Local Open Scope Z_scope.



(** The first request of a new limiter is granted at once and moves the
    window start from the construction time to now. *)
Example acquire_first_request :
  RateLimiter.acquire (RateLimiter.mk 0 1 2000 4000) (http_world JSNull)
  = (RateLimiter.mk 1 1 2000 5000, http_world JSNull).
Proof. reflexivity. Qed.

Example fetch_empty_url :
  WebContentFetcher.fetch libs fetcher [] (http_world (JSString og_html))
  = (WebContentFetcher.failure (lit "URL cannot be empty"), fetcher,
     http_world (JSString og_html)).
Proof. reflexivity. Qed.

Example fetch_blank_url :
  fst (fst (WebContentFetcher.fetch libs fetcher (lit "   ")
              (http_world (JSString og_html))))
  = WebContentFetcher.failure (lit "URL cannot be empty").
Proof. reflexivity. Qed.

Example fetch_not_a_url :
  WebContentFetcher.fetch libs fetcher (lit "not-a-url")
    (http_world (JSString og_html))
  = (WebContentFetcher.failure (lit "Invalid URL format"), fetcher,
     http_world (JSString og_html)).
Proof. reflexivity. Qed.

(** A null response fails with "No content received"; a response of three
    spaces succeeds. *)
Lemma fetch_judges_the_response_witness :
  blank example_url = false /\
  Libs.URL_parses libs example_url = true /\
  fst (fst (WebContentFetcher.fetch libs fetcher example_url
              (http_world JSNull)))
  = WebContentFetcher.failure
      (lit "Failed to fetch content: No content received") /\
  fst (fst (WebContentFetcher.fetch libs fetcher example_url
              (http_world (JSString (lit "   ")))))
  = mkFetchResult true
      (Some (Scraper.scrapeWebPage (Libs.cheerio libs) (Libs.turndown libs)
               (lit "   ") (Some []) WebContentFetcher.parse_options))
      None.
Proof.
  assert (B : blank example_url = false) by reflexivity.
  assert (P : Libs.URL_parses libs example_url = true) by reflexivity.
  split; [exact B|split; [exact P|split]].
  - apply (proj1 (fetch_judges_the_response libs fetcher example_url
                    (http_world JSNull) (v := JSNull) B P eq_refl)).
    left; reflexivity.
  - apply (proj2 (fetch_judges_the_response libs fetcher example_url
                    (http_world (JSString (lit "   ")))
                    (v := JSString (lit "   ")) B P eq_refl)
                 (lit "   ") eq_refl).
    discriminate.
Defined.

(** The success on a blank response carries an empty content. *)
Example fetch_blank_response :
  option_map content
    (data (fst (fst (WebContentFetcher.fetch libs fetcher example_url
                       (http_world (JSString (lit "   "))))))) = Some [].
Proof. reflexivity. Qed.

(** A page that gives every field twice: the first source wins. *)
Lemma scrape_metadata_precedence_witness :
  Scraper.default_true (includeMetadata WebContentFetcher.parse_options)
    = true /\
  exists m,
    metadata (Scraper.scrapeWebPage (table_cheerio parse) strip_p
                article_html None WebContentFetcher.parse_options) = Some m /\
    title m = Some (lit "Plain title") /\
    description m = Some (lit "Plain description") /\
    Types.url m = None /\
    author m = Some (lit "Ann") /\
    publishDate m = Some (lit "2024-01-02").
Proof.
  split; [reflexivity|].
  destruct (scrape_metadata_precedence (table_cheerio parse) strip_p
              article_html None WebContentFetcher.parse_options eq_refl)
    as (m & Hm & Ht & Hd & Hu & Ha & Hp).
  exists m. split; [exact Hm|].
  split; [exact (proj1 Ht eq_refl)|].
  split; [exact (proj1 Hd eq_refl)|].
  split; [exact (proj2 Hu eq_refl)|].
  split; [exact (proj1 Ha eq_refl)|].
  exact (proj1 Hp eq_refl).
Defined.

(** Without the first sources the fallbacks are read: og:title and the
    first [time[datetime]]. *)
Example scrape_metadata_fallbacks :
  let page :=
    [ mkElt 1 [Scraper.attr_selector "meta" "property" "og:title"] []
            [(lit "content", lit "OG title")] [];
      mkElt 6 [lit "time[datetime]"] [] [(lit "datetime", lit "2023-12-31")]
            [];
      mkElt 7 [lit "time[datetime]"] [] [(lit "datetime", lit "2024-05-05")]
            [] ] in
  Scraper.extract_metadata (table_cheerio (fun _ => page)) None page
  = mkMetadata (Some (lit "OG title")) None None None
               (Some (lit "2023-12-31")).
Proof. reflexivity. Qed.

Example clean_whitespace_example :
  Scraper.clean_whitespace
    (lit "  a " ++ [LF; LF; LF; LF; 9%N] ++ lit " b c" ++ [LF])
  = lit "a" ++ [LF; LF] ++ lit "b c".
Proof. reflexivity. Qed.

Example collapse_newlines_example :
  collapse_newlines (lit "a" ++ [LF; LF; LF; LF] ++ lit "b" ++ [LF; LF]
                     ++ lit "c" ++ [LF; LF; LF])
  = lit "a" ++ [LF; LF] ++ lit "b" ++ [LF; LF] ++ lit "c" ++ [LF; LF].
Proof. reflexivity. Qed.

(** ** The fetch tool *)

(** A page with content: the header line, then the content. *)
Lemma fetch_tool_text_witness :
  success (fst (fst (WebContentFetcher.fetch libs fetcher
                       (trim (lit " https://example.com/ "))
                       (http_world (JSString og_html))))) = true /\
  fst (fst (Mcp.handleFetchTool libs fetcher
              (Some (JSString (lit " https://example.com/ ")))
              (http_world (JSString og_html))))
  = Resolved
      (Mcp.mkToolResponse
         (content_text example_url
            (lit "Source: https://example.com/" ++ [LF; LF] ++ lit "Hello"))).
Proof.
  split; [reflexivity|].
  destruct (fetch_tool_text libs fetcher (lit " https://example.com/ ")
              (http_world (JSString og_html)) eq_refl) as (wc & Hd & Ht).
  rewrite Ht. vm_compute in Hd. inversion Hd; subst wc. reflexivity.
Defined.

(** C9 as stated fails where the fetch succeeds with an empty content (a
    blank response body): 0 characters are no more than 10,000, yet the
    tool answers neither the content nor the content under its header but
    a notice of its own. *)
Lemma fetch_tool_reports_empty_content :
  success (fst (fst (WebContentFetcher.fetch libs fetcher example_url
                       (http_world (JSString (lit " ")))))) = true /\
  option_map content
    (data (fst (fst (WebContentFetcher.fetch libs fetcher example_url
                       (http_world (JSString (lit " "))))))) = Some [] /\
  fst (fst (Mcp.handleFetchTool libs fetcher (Some (JSString example_url))
              (http_world (JSString (lit " ")))))
  = Resolved (Mcp.mkToolResponse (no_content_text example_url)) /\
  no_content_text example_url <> content_text example_url (truncated []) /\
  no_content_text example_url <> truncated [].
Proof.
  split; [reflexivity|]. split; [reflexivity|]. split; [reflexivity|].
  split; vm_compute; discriminate.
Qed.

(** ** The url of the metadata *)

Lemma fetch_metadata_url_is_the_og_url_witness :
  success (fst (fst (WebContentFetcher.fetch libs fetcher example_url
                       (http_world (JSString og_html))))) = true /\
  exists html,
    data (fst (fst (WebContentFetcher.fetch libs fetcher example_url
                      (http_world (JSString og_html))))) =
      Some (Scraper.scrapeWebPage (Libs.cheerio libs) (Libs.turndown libs)
              html (Some []) WebContentFetcher.parse_options) /\
    option_map Types.url
      (metadata (Scraper.scrapeWebPage (Libs.cheerio libs)
                   (Libs.turndown libs) html (Some [])
                   WebContentFetcher.parse_options)) =
      Some (Scraper.meta_content (Libs.cheerio libs)
              (Scraper.attr_selector "meta" "property" "og:url")
              (pruned (Libs.cheerio libs) html
                      WebContentFetcher.parse_options)).
Proof.
  split; [reflexivity|].
  exact (fetch_metadata_url_is_the_og_url libs fetcher example_url
           (http_world (JSString og_html)) eq_refl).
Defined.

(** C10 as stated fails on a page whose og:url is the URL it was fetched
    from: the [url] of the metadata is then the requested URL. *)
Lemma metadata_url_can_be_the_requested_url :
  success (fst (fst (WebContentFetcher.fetch libs fetcher example_url
                       (http_world (JSString og_html))))) = true /\
  exists wc m,
    data (fst (fst (WebContentFetcher.fetch libs fetcher example_url
                      (http_world (JSString og_html))))) = Some wc /\
    metadata wc = Some m /\
    Types.url m = Some example_url.
Proof.
  split; [reflexivity|].
  eexists; eexists. split; [reflexivity|]. split; reflexivity.
Qed.

(** A page without og:url: the [url] of the metadata is undefined, though
    a URL was requested. *)
Example metadata_url_absent :
  option_map (fun wc => option_map Types.url (metadata wc))
    (data (fst (fst (WebContentFetcher.fetch libs fetcher example_url
                       (http_world (JSString article_html))))))
  = Some (Some None).
Proof. reflexivity. Qed.

End Runs.

Section SearchRuns.

Import Properties.
Import Scenario.
Import WebSearcher.

(** C2 as stated fails on a result page that links to a URL whose scheme
    merely starts with "http": the result is returned, and its URL does
    not begin with the scheme http or https. *)
Lemma result_url_with_another_scheme :
  fst (fst (search (searcher true) (lit "cats")
              (browser_world false (Resolved tt)
                 (one_result (lit "Title") (lit "httpx://a")))))
  = [mkSearchResult (lit "Title") (lit "httpx://a") [] (Some [])] /\
  has_http_scheme (lit "httpx://a") = false.
Proof. split; reflexivity. Qed.

Example normalize_protocol_relative :
  normalize_url (lit "//example.com/a") = lit "https://example.com/a".
Proof. reflexivity. Qed.

Example normalize_root_relative :
  normalize_url (lit "/about") = lit "https://duckduckgo.com/about".
Proof. reflexivity. Qed.

Example normalize_upgrades_http :
  normalize_url (lit "http://example.com/?u=http://x")
  = lit "https://example.com/?u=http://x".
Proof. reflexivity. Qed.

(** A redirect of the search engine, given root-relative, is discarded. *)
Example redirect_is_discarded :
  fst (fst (search (searcher true) (lit "cats")
              (browser_world false (Resolved tt)
                 (one_result (lit "Title")
                    (lit "/l/?uddg=https%3A%2F%2Fexample.com")))))
  = [].
Proof. reflexivity. Qed.

Example javascript_link_is_discarded :
  extract (one_result (lit "Title") (lit "javascript:void(0)")) = [].
Proof. reflexivity. Qed.

(** ** The captcha *)

(** In a headless browser a captcha ends the search with no results: the
    query is never typed and the page is closed. *)
Example headless_captcha_returns_nothing :
  fst (fst (search (searcher true) (lit "cats")
              (browser_world true (Resolved tt)
                 (one_result (lit "Title") (lit "https://example.com/")))))
  = [] /\
  map (fun c => (is_type c, is_launch_call c))
      (calls (snd (search (searcher true) (lit "cats")
                     (browser_world true (Resolved tt)
                        (one_result (lit "Title")
                           (lit "https://example.com/"))))))
  = [ (false, false); (false, false); (false, false); (false, false);
      (false, false); (false, false); (false, true) ] /\
  hd_error (calls (snd (search (searcher true) (lit "cats")
                          (browser_world true (Resolved tt)
                             (one_result (lit "Title")
                                (lit "https://example.com/"))))))
  = Some (Called (PageClose 1)).
Proof. repeat split. Qed.

(** C6 on src/searcher/WebSearcher.ts, in a browser that is not headless,
    on a home page that shows a captcha.  The search issues one wait, on
    the function that is constantly true with a bound of 10 seconds, and
    no wait for any element to be hidden: it goes on at once, whether the
    captcha is still there or not.  And when that wait is rejected the
    search ends with no results, the query never typed, though the result
    page would have given one. *)
Theorem captcha_wait_of_the_named_text :
  existsb (is_wait_for_function 10000)
    (calls (snd (search (searcher false) (lit "cats")
                   (browser_world true (Resolved tt)
                      (one_result (lit "Title")
                         (lit "https://example.com/"))))))
  = true /\
  existsb is_wait_hidden
    (calls (snd (search (searcher false) (lit "cats")
                   (browser_world true (Resolved tt)
                      (one_result (lit "Title")
                         (lit "https://example.com/"))))))
  = false /\
  fst (fst (search (searcher false) (lit "cats")
              (browser_world true (Rejected timeout_error)
                 (one_result (lit "Title") (lit "https://example.com/")))))
  = [] /\
  existsb is_type
    (calls (snd (search (searcher false) (lit "cats")
                   (browser_world true (Rejected timeout_error)
                      (one_result (lit "Title")
                         (lit "https://example.com/"))))))
  = false /\
  extract (one_result (lit "Title") (lit "https://example.com/"))
  = [mkSearchResult (lit "Title") (lit "https://example.com/") [] (Some [])].
Proof. repeat split. Qed.

(** The second copy on the same pages: it waits for the captcha element to
    be hidden, with a bound of 60 seconds, and when that wait is rejected
    the search goes on and returns the result. *)
Example captcha_wait_of_the_second_copy :
  existsb (is_wait_captcha_hidden 60000)
    (calls (snd (WebSearcherRevised.search (searcher false) (lit "cats")
                   (browser_world true (Resolved tt)
                      (one_result (lit "Title")
                         (lit "https://example.com/"))))))
  = true /\
  fst (fst (WebSearcherRevised.search (searcher false) (lit "cats")
              (browser_world true (Rejected timeout_error)
                 (one_result (lit "Title") (lit "https://example.com/")))))
  = [mkSearchResult (lit "Title") (lit "https://example.com/") []
                    (Some [])].
Proof. repeat split. Qed.

(** ** Two calls at once *)

(** C7 on src/searcher/WebSearcher.ts: two [search] calls made together on
    a new instance, the first launch taking three seconds.  The second
    call leaves the rate limiter after two, finds no browser held, and
    launches again: [puppeteer.launch] has been called twice. *)
Theorem two_searches_launch_twice :
  option_map EventLoop.launched
    (EventLoop.run EventLoop.Named slow_launch (EventLoop.fresh 2 0))
  = Some 2%nat /\
  option_map EventLoop.tasks
    (EventLoop.run EventLoop.Named slow_launch (EventLoop.fresh 2 0))
  = Some [EventLoop.PastInit; EventLoop.InLaunch 1].
Proof. split; reflexivity. Qed.

(** The second copy under the same schedule: the second call awaits the
    initialisation in flight, and one launch serves both. *)
Example two_searches_share_a_launch :
  option_map EventLoop.launched
    (EventLoop.run EventLoop.Revised slow_launch (EventLoop.fresh 2 0))
  = Some 1%nat /\
  option_map EventLoop.tasks
    (EventLoop.run EventLoop.Revised slow_launch (EventLoop.fresh 2 0))
  = Some [EventLoop.PastInit; EventLoop.PastInit].
Proof. split; reflexivity. Qed.

End SearchRuns.

(* ===================================================================== *)
(** * More of the rate limiter                                            *)
(* ===================================================================== *)

Section RateLimiterMore.

Local Open Scope Z_scope.
Import RateLimiter.
Import Trace.

Lemma timer_delay_pos (ms : Z) : 1 <= timer_delay ms.
Proof.
  unfold timer_delay.
  destruct (ms <? 1) eqn:A; simpl; [lia|].
  destruct (2147483647 <? ms) eqn:B; lia.
Qed.

Lemma next_late_nonneg (w : World) : 0 <= next_late w.
Proof. unfold next_late. destruct (lateness w); lia. Qed.

(** X1.  [new RateLimiter(limit, interval)] checks the limit first and the
    interval second, throwing the message of the first check that fails;
    with both above zero it returns a limiter that has granted nothing, its
    window starting at the time of the construction.  So
    [new WebSearcher(headless)] never throws: it holds a limiter of one
    request per 2000 ms and no browser, headless unless told otherwise;
    and [new WebContentFetcher()] holds one of one request per 1000 ms,
    while a limit that is not above zero makes its constructor throw. *)
Theorem new_limiter_checks_its_arguments (limit interval : Z) (w : World) :
  (limit <= 0 ->
     new limit interval w =
       Rejected (ErrorObject (lit "Rate limit must be greater than 0"))) /\
  (0 < limit -> interval <= 0 ->
     new limit interval w =
       Rejected
         (ErrorObject (lit "Rate limit interval must be greater than 0"))) /\
  (0 < limit -> 0 < interval ->
     exists self,
       new limit interval w = Resolved self /\
       getStatus self = (0, limit, interval) /\
       lastRequestTime self = Date_now w) /\
  (forall headless,
     exists searcher,
       WebSearcher.new headless w = Resolved searcher /\
       getStatus (WebSearcher.rateLimiter searcher) = (0, 1, 2000) /\
       WebSearcher.browser searcher = None /\
       WebSearcher.headless searcher =
         match headless with Some b => b | None => true end) /\
  (exists fetcher,
     WebContentFetcher.new None None w = Resolved fetcher /\
     getStatus (WebContentFetcher.rateLimiter fetcher) = (0, 1, 1000)) /\
  (limit <= 0 ->
     WebContentFetcher.new (Some limit) (Some interval) w =
       Rejected (ErrorObject (lit "Rate limit must be greater than 0"))).
Proof.
  split; [|split; [|split; [|split; [|split]]]].
  - unfold new. intros H. destruct (limit <=? 0) eqn:A; [reflexivity|lia].
  - unfold new. intros H1 H2. destruct (limit <=? 0) eqn:A; [lia|].
    destruct (interval <=? 0) eqn:B; [reflexivity|lia].
  - unfold new. intros H1 H2. destruct (limit <=? 0) eqn:A; [lia|].
    destruct (interval <=? 0) eqn:B; [lia|].
    eexists. split; [reflexivity|]. split; reflexivity.
  - intros headless. eexists. split; [reflexivity|]. repeat split.
  - eexists. split; reflexivity.
  - intros H. unfold WebContentFetcher.new, new.
    destruct (limit <=? 0) eqn:A; [reflexivity|lia].
Qed.

(** X2.  Whatever the clock reads, [acquire()] leaves the limit and the
    interval as they are, leaves the count of the window between 1 and the
    limit, makes no call that leaves the process, never sets the clock
    back, and keeps the start of the window at or before the clock. *)
Theorem acquire_keeps_the_count_in_range (self : t) (w : World) :
  0 < limit self -> 0 <= requests self ->
  let self' := fst (acquire self w) in
  let w' := snd (acquire self w) in
  limit self' = limit self /\
  interval self' = interval self /\
  1 <= requests self' <= limit self /\
  calls w' = calls w /\ respond w' = respond w /\
  clock w <= clock w' /\
  (lastRequestTime self <= clock w -> lastRequestTime self' <= clock w').
Proof.
  intros HL HR. unfold acquire, Date_now.
  destruct (interval self <=? clock w - lastRequestTime self) eqn:A;
    cbn [requests limit interval lastRequestTime set_requests
         set_lastRequestTime].
  - (* the window has elapsed: the count starts again *)
    destruct (0 <? limit self) eqn:B; [|lia].
    cbn. repeat split; lia.
  - destruct (requests self <? limit self) eqn:B.
    + destruct (requests self + 1 =? 1) eqn:D; cbn; repeat split; lia.
    + cbn. pose proof (timer_delay_pos
                         (interval self - (clock w - lastRequestTime self))).
      pose proof (next_late_nonneg w).
      repeat split; lia.
Qed.

Lemma acquire_keeps_the_count_in_range_witness :
  1 <= requests (fst (acquire (mk 1 1 2000 4000)
                        (Scenario.http_world JSNull))) <= 1 /\
  clock (Scenario.http_world JSNull)
    <= clock (snd (acquire (mk 1 1 2000 4000) (Scenario.http_world JSNull))).
Proof.
  destruct (@acquire_keeps_the_count_in_range (mk 1 1 2000 4000)
              (Scenario.http_world JSNull))
    as (_ & _ & R & _ & _ & Ck & _).
  - cbn. lia.
  - cbn. lia.
  - split; [exact R | exact Ck].
Defined.

(** A call that finds room in the window returns at once. *)
Lemma acquire_grants (self : t) (w : World) :
  0 <= requests self < limit self ->
  snd (acquire self w) = w /\
  limit (fst (acquire self w)) = limit self /\
  1 <= requests (fst (acquire self w)) <= requests self + 1.
Proof.
  intros H. unfold acquire, Date_now.
  destruct (interval self <=? clock w - lastRequestTime self) eqn:A;
    cbn [requests limit interval lastRequestTime set_requests
         set_lastRequestTime].
  - destruct (0 <? limit self) eqn:B; [|lia].
    cbn. repeat split; lia.
  - destruct (requests self <? limit self) eqn:B; [|lia].
    destruct (requests self + 1 =? 1) eqn:D; cbn; repeat split; lia.
Qed.

Lemma acquire_at_grants (times : list Z) (self : t) (w : World) :
  0 <= requests self ->
  requests self + Z.of_nat (List.length times) <= limit self ->
  timers (snd (acquire_at times self w)) = timers w /\
  calls (snd (acquire_at times self w)) = calls w /\
  limit (fst (acquire_at times self w)) = limit self /\
  requests (fst (acquire_at times self w))
    <= requests self + Z.of_nat (List.length times).
Proof.
  revert self w.
  induction times as [|t0 rest IH]; intros self w H0 H.
  - cbn. repeat split; lia.
  - cbn [acquire_at].
    cbn [List.length] in H. rewrite Nat2Z.inj_succ in H.
    destruct (acquire_grants self (at_time t0 w)) as (E & EL & ER); [lia|].
    destruct (acquire self (at_time t0 w)) as [s1 w1] eqn:Q.
    cbn [fst snd] in E, EL, ER. subst w1.
    destruct (IH s1 (at_time t0 w)) as (T & Cs & Lm & Rq); [lia | lia |].
    cbn [List.length]. rewrite Nat2Z.inj_succ.
    repeat split; [exact T | exact Cs | lia | lia].
Qed.

(** X3.  A limiter made by [new RateLimiter(limit, interval)] grants its
    first [limit] calls without waiting, whatever the clock reads at each
    of them: no timer is set and no call leaves the process. *)
Theorem new_limiter_grants_a_burst
  (limit interval : Z) (w0 w : World) (self : t) (times : list Z) :
  new limit interval w0 = Resolved self ->
  Z.of_nat (List.length times) <= limit ->
  timers (snd (acquire_at times self w)) = timers w /\
  calls (snd (acquire_at times self w)) = calls w /\
  requests (fst (acquire_at times self w)) <= Z.of_nat (List.length times).
Proof.
  intros N H. unfold new in N.
  destruct (limit <=? 0) eqn:A; [discriminate|].
  destruct (interval <=? 0) eqn:B; [discriminate|].
  injection N as N. subst self.
  destruct (acquire_at_grants times (mk 0 limit interval (Date_now w0)) w)
    as (T & Cs & _ & Rq).
  - cbn. lia.
  - cbn. lia.
  - cbn [requests] in Rq. repeat split; [exact T | exact Cs | lia].
Qed.

Lemma new_limiter_grants_a_burst_witness :
  timers (snd (acquire_at [5000; 5001; 9000]
                 (mk 0 3 1000 5000) (Scenario.http_world JSNull))) = [] /\
  calls (snd (acquire_at [5000; 5001; 9000]
                (mk 0 3 1000 5000) (Scenario.http_world JSNull))) = [] /\
  requests (fst (acquire_at [5000; 5001; 9000]
                   (mk 0 3 1000 5000) (Scenario.http_world JSNull))) <= 3.
Proof.
  apply (@new_limiter_grants_a_burst 3 1000 (Scenario.http_world JSNull)
           (Scenario.http_world JSNull) (mk 0 3 1000 5000)
           [5000; 5001; 9000]).
  - reflexivity.
  - cbn. lia.
Defined.

(** X4.  In sequential use the windows of a limiter never overlap.  Once
    the window holds a grant, a call either is counted in the same window,
    which it can be only while the window lasts and holds fewer grants than
    the limit, or it opens a new window, which starts when the call returns
    and no earlier than the end of the old one.  The interval is within the
    range of a timer (at most 2^31-1 ms). *)
Theorem acquire_never_overlaps_windows (self : t) (w : World) :
  0 < requests self <= limit self ->
  0 < interval self <= 2147483647 ->
  lastRequestTime self <= clock w ->
  let self' := fst (acquire self w) in
  let w' := snd (acquire self w) in
  (lastRequestTime self' = lastRequestTime self /\
   requests self' = requests self + 1 /\
   requests self' <= limit self /\
   w' = w /\
   clock w < lastRequestTime self + interval self) \/
  (requests self' = 1 /\
   lastRequestTime self' = clock w' /\
   lastRequestTime self + interval self <= clock w').
Proof.
  intros HR HI HT. unfold acquire, Date_now.
  destruct (interval self <=? clock w - lastRequestTime self) eqn:A;
    cbn [requests limit interval lastRequestTime set_requests
         set_lastRequestTime].
  - destruct (0 <? limit self) eqn:B; [|lia].
    right. cbn. repeat split; lia.
  - destruct (requests self <? limit self) eqn:B.
    + left. destruct (requests self + 1 =? 1) eqn:D; [lia|].
      cbn. repeat split; lia.
    + right. cbn.
      pose proof (next_late_nonneg w).
      rewrite timer_delay_ge by lia.
      repeat split; lia.
Qed.

Lemma acquire_never_overlaps_windows_witness :
  requests (fst (acquire (mk 1 1 2000 4000) (Scenario.http_world JSNull)))
    = 1 /\
  4000 + 2000 <=
    clock (snd (acquire (mk 1 1 2000 4000) (Scenario.http_world JSNull))).
Proof.
  destruct (@acquire_never_overlaps_windows (mk 1 1 2000 4000)
              (Scenario.http_world JSNull)) as [H | H].
  - cbn. lia.
  - cbn. lia.
  - cbn. lia.
  - destruct H as (_ & H & _). cbn in H. lia.
  - destruct H as (H1 & _ & H3). split; [exact H1 | exact H3].
Defined.

End RateLimiterMore.

(* ===================================================================== *)
(** * More of the scraper                                                 *)
(* ===================================================================== *)

Section TrimFacts.

Import Properties.
Import Trace.

Lemma trimStart_starts_with_text (s : jsstring) :
  starts_with_text (trimStart s).
Proof.
  induction s as [|c s IH]; simpl; [exact I|].
  destruct (isWhiteSpace c) eqn:E; [exact IH|exact E].
Qed.

Lemma trimStart_fixed (s : jsstring) :
  starts_with_text s -> trimStart s = s.
Proof.
  destruct s as [|c s]; simpl; [reflexivity|].
  intros ->. reflexivity.
Qed.

(** [trimStart] drops a prefix. *)
Lemma trimStart_suffix (s : jsstring) :
  exists pre, s = pre ++ trimStart s.
Proof.
  induction s as [|c s [pre IH]]; simpl.
  - exists []. reflexivity.
  - destruct (isWhiteSpace c).
    + exists (c :: pre). simpl. now rewrite <- IH.
    + exists []. reflexivity.
Qed.

Lemma starts_with_text_app (a b : jsstring) :
  a <> [] -> starts_with_text (a ++ b) -> starts_with_text a.
Proof. destruct a; [congruence|]. intros _ H. exact H. Qed.

(** The end of a string is the end of what [trimStart] leaves of it. *)
Lemma trimStart_keeps_end (s : jsstring) :
  starts_with_text (rev s) -> starts_with_text (rev (trimStart s)).
Proof.
  intros H. destruct (trimStart_suffix s) as [pre E].
  destruct (trimStart s) as [|c t] eqn:T; [exact I|].
  rewrite E in H. rewrite rev_app_distr in H.
  apply starts_with_text_app in H; [exact H|].
  simpl. destruct (rev t); discriminate.
Qed.

Lemma trim_trimmed (s : jsstring) : trimmed (trim s).
Proof.
  unfold trimmed, trim, trimEnd. rewrite rev_involutive. split.
  - pose proof (trimStart_keeps_end (rev (trimStart s))) as H.
    rewrite rev_involutive in H. apply H. apply trimStart_starts_with_text.
  - apply trimStart_starts_with_text.
Qed.

Lemma trimmed_fixed (s : jsstring) : trimmed s -> trim s = s.
Proof.
  intros [H1 H2]. unfold trim, trimEnd.
  rewrite (trimStart_fixed s H1). rewrite (trimStart_fixed (rev s) H2).
  apply rev_involutive.
Qed.

Lemma trim_idempotent (s : jsstring) : trim (trim s) = trim s.
Proof. apply trimmed_fixed, trim_trimmed. Qed.

End TrimFacts.

Section ScraperMore.

Import Properties.
Import Trace.
Import Scraper.

(** The lines the clean-up keeps. *)
Lemma kept_lines (markdown : jsstring) :
  Forall (fun l => l <> [] /\ ~ In LF l /\ trim l = l)
    (filter (fun line => (0 <? len line)%Z)
       (map trim (split_lines markdown))).
Proof.
  apply Forall_forall. intros l Hl.
  apply filter_In in Hl. destruct Hl as [Hin Hne].
  apply in_map_iff in Hin. destruct Hin as (x & <- & Hx).
  split; [|split].
  - rewrite nonempty_test in Hne. intros E. rewrite E in Hne. discriminate.
  - intros HLF. apply trim_incl in HLF.
    pose proof (split_lines_no_LF markdown) as F.
    rewrite Forall_forall in F. exact (F x Hx HLF).
  - apply trim_idempotent.
Qed.

Lemma split_lines_line (l : jsstring) : ~ In LF l -> split_lines l = [l].
Proof.
  induction l as [|c l IH]; intros H; simpl; [reflexivity|].
  destruct (N.eqb_spec c LF) as [->|Hc]; [exfalso; apply H; now left|].
  rewrite IH; [reflexivity|]. intros Hin; apply H; now right.
Qed.

Lemma split_lines_app (l s : jsstring) :
  ~ In LF l -> split_lines (l ++ LF :: s) = l :: split_lines s.
Proof.
  induction l as [|c l IH]; intros H; simpl.
  - reflexivity.
  - destruct (N.eqb_spec c LF) as [->|Hc]; [exfalso; apply H; now left|].
    rewrite IH; [reflexivity|]. intros Hin; apply H; now right.
Qed.

(** Splitting, trimming and filtering the joined lines gives the lines
    back. *)
Lemma kept_again (kept : list jsstring) :
  Forall (fun l => l <> [] /\ ~ In LF l /\ trim l = l) kept ->
  filter (fun line => (0 <? len line)%Z)
    (map trim (split_lines (join [LF; LF] kept))) = kept.
Proof.
  induction 1 as [|p ps (Hp & Hn & Ht) Hps IH]; [reflexivity|].
  assert (K : (0 <? len p)%Z = true).
  { rewrite nonempty_test. destruct p; [congruence|reflexivity]. }
  destruct ps as [|q ps].
  - simpl join. rewrite split_lines_line by assumption.
    simpl. rewrite Ht, K. reflexivity.
  - rewrite join_cons by discriminate.
    change ([LF; LF] ++ join [LF; LF] (q :: ps))
      with (LF :: LF :: join [LF; LF] (q :: ps)).
    rewrite split_lines_app by assumption.
    cbn [map filter]. rewrite Ht, K. f_equal.
    change (LF :: join [LF; LF] (q :: ps))
      with ([] ++ LF :: join [LF; LF] (q :: ps)).
    rewrite split_lines_app by (intros []).
    cbn [map filter]. exact IH.
Qed.

Lemma clean_whitespace_join (markdown : jsstring) :
  clean_whitespace markdown =
    join [LF; LF]
      (filter (fun line => (0 <? len line)%Z)
         (map trim (split_lines markdown))).
Proof.
  unfold clean_whitespace. apply collapse_join.
  eapply Forall_impl; [|apply kept_lines].
  intros l (A & B & _). split; assumption.
Qed.

Lemma starts_with_text_prefix (a b : jsstring) :
  a <> [] -> starts_with_text a -> starts_with_text (a ++ b).
Proof. destruct a; [congruence|]. intros _ H. exact H. Qed.

Lemma join_nonempty (sep p : jsstring) (ps : list jsstring) :
  p <> [] -> join sep (p :: ps) <> [].
Proof.
  intros Hp. destruct ps; simpl; [exact Hp|].
  destruct p; [congruence|discriminate].
Qed.

Lemma join_trimmed (sep : jsstring) (kept : list jsstring) :
  Forall (fun l => l <> [] /\ trimmed l) kept ->
  trimmed (join sep kept).
Proof.
  induction 1 as [|p ps (Hp & H1 & H2) Hps IH]; [split; exact I|].
  destruct ps as [|q ps]; [split; assumption|].
  rewrite join_cons by discriminate. split.
  - apply starts_with_text_prefix; assumption.
  - rewrite !rev_app_distr. rewrite <- app_assoc.
    apply starts_with_text_prefix; [|apply IH].
    inversion Hps as [|? ? (Hq & _) _]; subst.
    intros E. apply (f_equal (@rev N)) in E. rewrite rev_involutive in E.
    revert E. apply join_nonempty. exact Hq.
Qed.

(** A pattern that starts with a line feed has no match that starts in a
    line. *)
Lemma includes_past_line (l s p : jsstring) :
  ~ In LF l -> includes (l ++ s) (LF :: p) = includes s (LF :: p).
Proof.
  induction l as [|c l IH]; intros H; [reflexivity|].
  change ((c :: l) ++ s) with (c :: (l ++ s)).
  cbn [includes startsWith].
  destruct (N.eqb_spec LF c) as [E|E]; [exfalso; apply H; now left|].
  cbn [andb orb]. apply IH. intros Hin; apply H; now right.
Qed.

Lemma join_no_triple (kept : list jsstring) :
  Forall (fun l => l <> [] /\ ~ In LF l) kept ->
  includes (join [LF; LF] kept) [LF; LF; LF] = false.
Proof.
  induction 1 as [|p ps (Hp & Hn) Hps IH]; [reflexivity|].
  destruct ps as [|q ps].
  - simpl join. rewrite <- (app_nil_r p).
    rewrite includes_past_line by assumption. reflexivity.
  - rewrite join_cons by discriminate.
    rewrite includes_past_line by assumption.
    inversion Hps as [|? ? (Hq & Hqn) _]; subst.
    assert (Q : exists c t, join [LF; LF] (q :: ps) = c :: t /\ c <> LF).
    { destruct q as [|c q]; [congruence|].
      exists c. destruct ps as [|r ps].
      - exists q. split; [reflexivity|].
        intros ->. apply Hqn. now left.
      - eexists. rewrite join_cons by discriminate.
        split; [reflexivity|]. intros ->. apply Hqn. now left. }
    destruct Q as (c & t & E & Hc). rewrite E in IH |- *.
    change ([LF; LF] ++ c :: t) with (LF :: LF :: c :: t).
    cbn [includes startsWith] in IH |- *.
    rewrite N.eqb_refl. cbn [andb].
    destruct (N.eqb_spec LF c) as [F|F]; [congruence|].
    cbn [andb orb] in IH |- *. exact IH.
Qed.

Lemma split_lines_incl (s l : jsstring) (c : N) :
  In l (split_lines s) -> In c l -> In c s.
Proof.
  revert l. induction s as [|x s IH]; intros l; simpl.
  - intros [<-|[]] [].
  - destruct (x =? LF)%N.
    + intros [<-|Hl] Hc; [destruct Hc|]. right. now apply (IH l).
    + destruct (split_lines s) as [|l0 ls] eqn:E.
      * intros [<-|[]] [->|[]]. now left.
      * intros [<-|Hl] Hc.
        -- destruct Hc as [->|Hc]; [now left|].
           right. apply (IH l0); [now left|exact Hc].
        -- right. apply (IH l); [now right|exact Hc].
Qed.

Lemma blank_join (lines : list jsstring) :
  Forall (fun l => blank l = true) lines -> blank (join [LF] lines) = true.
Proof.
  induction 1 as [|p ps Hp Hps IH]; [reflexivity|].
  destruct ps as [|q ps]; [exact Hp|].
  rewrite join_cons by discriminate.
  unfold blank in *. rewrite !forallb_app. rewrite Hp, IH. reflexivity.
Qed.

(** X5.  The whitespace clean-up of the scraper gives a text that it would
    leave as it is: applying it twice is applying it once.  Its result has
    no white space at either end and no three line feeds in a row, and it
    is empty exactly when the Markdown holds nothing but white space. *)
Theorem clean_whitespace_is_idempotent (markdown : jsstring) :
  clean_whitespace (clean_whitespace markdown) = clean_whitespace markdown /\
  trimmed (clean_whitespace markdown) /\
  includes (clean_whitespace markdown) [LF; LF; LF] = false /\
  (clean_whitespace markdown = [] <-> blank markdown = true).
Proof.
  pose proof (kept_lines markdown) as K.
  split; [|split; [|split]].
  - rewrite (clean_whitespace_join (clean_whitespace markdown)).
    rewrite (clean_whitespace_join markdown).
    rewrite kept_again by exact K. reflexivity.
  - rewrite clean_whitespace_join. apply join_trimmed.
    eapply Forall_impl; [|exact K].
    intros l (A & _ & T). split; [exact A|].
    rewrite <- T. apply trim_trimmed.
  - rewrite clean_whitespace_join. apply join_no_triple.
    eapply Forall_impl; [|exact K].
    intros l (A & B & _). split; assumption.
  - rewrite clean_whitespace_join. split.
    + intros E.
      assert (B : Forall (fun l => blank l = true) (split_lines markdown)).
      { apply Forall_forall. intros l Hl.
        destruct (blank l) eqn:Bl; [reflexivity|exfalso].
        assert (Hin : In (trim l)
                        (filter (fun line => (0 <? len line)%Z)
                           (map trim (split_lines markdown)))).
        { apply filter_In. split; [now apply in_map|].
          rewrite nonempty_test.
          destruct (trim l) eqn:T; [|reflexivity].
          apply trim_nil in T. congruence. }
        destruct (filter (fun line => (0 <? len line)%Z)
                    (map trim (split_lines markdown))) as [|p ps];
          [destruct Hin|].
        inversion K as [|? ? (Hp & _) _]; subst.
        revert E. apply join_nonempty. exact Hp. }
      rewrite <- (split_lines_join markdown). apply blank_join. exact B.
    + intros B.
      assert (E : filter (fun line => (0 <? len line)%Z)
                    (map trim (split_lines markdown)) = []).
      { destruct (filter (fun line => (0 <? len line)%Z)
                    (map trim (split_lines markdown))) as [|p ps] eqn:F;
          [reflexivity|exfalso].
        assert (Hin : In p (p :: ps)) by now left.
        rewrite <- F in Hin. apply filter_In in Hin.
        destruct Hin as [Hin Hne].
        apply in_map_iff in Hin. destruct Hin as (x & <- & Hx).
        assert (Bx : blank x = true).
        { apply forallb_forall. intros c Hc.
          unfold blank in B. rewrite forallb_forall in B.
          apply B. exact (split_lines_incl markdown x c Hx Hc). }
        apply trim_nil in Bx. rewrite Bx in Hne. discriminate. }
      rewrite E. reflexivity.
Qed.

End ScraperMore.

Section ContentRootFacts.

Import Properties.
Import Scraper.

Variable C : Libs.Cheerio.
Variable turndown : jsstring -> jsstring.

Lemma find_main_first (sels : list jsstring) (d : Libs.Doc C)
  (current : list (Libs.Elem C)) :
  find_main C sels d current =
    match find (fun sel => (0 <? List.length (Libs.select C sel d))%nat) sels
    with
    | Some sel => Libs.select C sel d
    | None => current
    end.
Proof.
  induction sels as [|sel rest IH]; simpl; [reflexivity|].
  unfold Libs.sel_length.
  destruct (0 <? List.length (Libs.select C sel d))%nat; [reflexivity|].
  exact IH.
Qed.

(** The selection that becomes the content root. *)
Lemma content_root_selection (sels : Selectors) (d : Libs.Doc C) :
  content_root C sels d =
    match focus sels with
    | Some (c :: f) => Libs.select C (c :: f) d
    | _ =>
        match find (fun sel => (0 <? List.length (Libs.select C sel d))%nat)
                   mainSelectors
        with
        | Some sel => Libs.select C sel d
        | None => Libs.select C (lit "body") d
        end
    end.
Proof.
  unfold content_root.
  destruct (focus sels) as [[|c f]|]; cbn [present negb];
    [apply find_main_first|reflexivity|apply find_main_first].
Qed.

(** X6.  What [scrapeWebPage] converts to Markdown is the inner HTML of
    the first element of one selection, and the empty string when that
    selection is empty; further elements of the selection are not
    converted.  With a focus selector that is not empty the selection is
    what that selector matches (the main-content selectors are not
    consulted, and a focus that matches nothing gives an empty Markdown,
    not the body); without one it is what the first of main, article,
    [role="main"], #content, .content that matches an element matches, and
    what body matches when none does.  The inner HTML is read after the
    removal pass and, when [includeLinks] is false, after the links of the
    selection are unwrapped; the content returned is the header followed by
    that Markdown, cleaned unless [cleanWhitespace] is false. *)
Theorem scrape_converts_the_first_match (html : jsstring)
  (url : option jsstring) (options : ScraperOptions) :
  let d := pruned C html options in
  let chosen :=
    match focus (selectors_of options) with
    | Some (c :: f) => Libs.select C (c :: f) d
    | _ =>
        match find (fun sel => (0 <? List.length (Libs.select C sel d))%nat)
                   mainSelectors
        with
        | Some sel => Libs.select C sel d
        | None => Libs.select C (lit "body") d
        end
    end in
  let d' :=
    if default_true (includeLinks options) then d
    else Libs.unlink C chosen d in
  let markdown :=
    turndown (match chosen with
              | [] => []
              | first :: _ => Libs.elem_html C first d'
              end) in
  let scraped := scrapeWebPage C turndown html url options in
  content_root C (selectors_of options) d = chosen /\
  content scraped =
    front scraped
    ++ (if default_true (cleanWhitespace options)
        then clean_whitespace markdown else markdown).
Proof.
  intros d chosen d' markdown scraped.
  assert (R : content_root C (selectors_of options) d = chosen)
    by apply content_root_selection.
  split; [exact R|].
  assert (M : converted C turndown html options = markdown).
  { unfold converted. fold d. rewrite R. unfold markdown, d'.
    f_equal.
    destruct (default_true (includeLinks options)); cbn [negb];
      destruct chosen as [|first rest]; cbn [Libs.sel_html];
      try reflexivity;
      match goal with
      | |- context [Libs.elem_html C first ?doc] =>
          destruct (Libs.elem_html C first doc); reflexivity
      end. }
  unfold scraped. rewrite scrape_content, M. reflexivity.
Qed.

End ContentRootFacts.

Section FetchAndScrapeFacts.

Import Properties.
Import Scraper.
Import FetchAndScrape.

Variable C : Libs.Cheerio.
Variable turndown : jsstring -> jsstring.
Variable global_fetch : GlobalFetch.

(** X7.  [fetchAndScrape(url, options)]: an error of [fetch] and an error
    of reading the body are passed on as they are; an answer that is not
    ok is turned into the error "Failed to fetch <url>: <status>
    <statusText>" and nothing is scraped; the body of an ok answer is
    scraped with the requested URL, so that, unlike
    [WebContentFetcher.fetch], the metadata of the result holds the
    requested URL whatever og:url the page declares. *)
Theorem fetchAndScrape_outcomes (url : jsstring)
  (options : option ScraperOptions) :
  let opts :=
    match options with
    | Some o => o
    | None => mkScraperOptions None None None None
    end in
  (forall e, global_fetch url = Rejected e ->
     fetchAndScrape C turndown global_fetch url options = Rejected e) /\
  (forall r, global_fetch url = Resolved r -> ok r = false ->
     fetchAndScrape C turndown global_fetch url options =
       Rejected (ErrorObject
                   (lit "Failed to fetch " ++ url ++ lit ": "
                    ++ Num.of_nat (status r) ++ lit " " ++ statusText r))) /\
  (forall r e, global_fetch url = Resolved r -> ok r = true ->
     text r = Rejected e ->
     fetchAndScrape C turndown global_fetch url options = Rejected e) /\
  (forall r html, global_fetch url = Resolved r -> ok r = true ->
     text r = Resolved html ->
     fetchAndScrape C turndown global_fetch url options =
       Resolved (scrapeWebPage C turndown html (Some url) opts) /\
     (default_true (includeMetadata opts) = true -> url <> [] ->
      option_map Types.url
        (metadata (scrapeWebPage C turndown html (Some url) opts))
      = Some (Some url))).
Proof.
  intros opts. unfold fetchAndScrape. fold opts.
  split; [|split; [|split]].
  - intros e ->. reflexivity.
  - intros r -> ->. reflexivity.
  - intros r e -> -> ->. reflexivity.
  - intros r html -> -> ->. split; [reflexivity|].
    intros M U. rewrite (scrape_metadata C turndown html (Some url) opts M).
    cbn [option_map extract_metadata Types.url]. f_equal.
    destruct url; [congruence|]. reflexivity.
Qed.

End FetchAndScrapeFacts.

(* ===================================================================== *)
(** * More of the content fetcher and of the fetch tool                   *)
(* ===================================================================== *)

Section FetcherMore.

Import Properties.
Import WebContentFetcher.

Variable L : Libs.t.

Lemma acquire_log (rl : RateLimiter.t) (w : World) :
  calls (snd (RateLimiter.acquire rl w)) = calls w.
Proof.
  unfold RateLimiter.acquire.
  destruct (RateLimiter.interval rl <=? Date_now w
            - RateLimiter.lastRequestTime rl)%Z;
    match goal with
    | |- context [if ?c then _ else _] => destruct c
    end; reflexivity.
Qed.

(** X8.  Every answer of [fetch] is one of two shapes: a success with data
    and no error, or a failure with an error message that is not empty and
    no data. *)
Theorem fetch_result_is_discriminated
  (self : t) (url : jsstring) (w : World) :
  let result := fst (fst (fetch L self url w)) in
  (success result = true /\ (exists wc, data result = Some wc) /\
   error result = None) \/
  (success result = false /\ data result = None /\
   exists e, error result = Some e /\ e <> []).
Proof.
  cbv zeta. unfold fetch.
  destruct (negb (truthy (JSString url)) || (len (trim url) =? 0)%Z).
  - right. cbn. repeat split. eexists. split; [reflexivity|discriminate].
  - destruct (negb (Libs.URL_parses L url)).
    + right. cbn. repeat split. eexists. split; [reflexivity|discriminate].
    + destruct (RateLimiter.acquire (rateLimiter self) w) as [rl w1].
      destruct (HttpClient.get url w1) as [response w2].
      destruct (match response with
                | Resolved v => parseContent L v
                | Rejected e => Rejected e
                end) as [content|e].
      * left. cbn. repeat split. eexists. reflexivity.
      * right. cbn. repeat split. eexists. split; [reflexivity|discriminate].
Qed.

(** X9.  A URL that passes the two checks costs exactly one HTTP request,
    whatever comes of it: first the rate limiter is asked, then one GET
    goes out for the URL as it was given, with the 10 s timeout, and
    nothing else leaves the process; the fetcher keeps the limiter as
    [acquire()] left it, also when the request fails. *)
Theorem fetch_makes_one_request (self : t) (url : jsstring) (w : World) :
  blank url = false -> Libs.URL_parses L url = true ->
  let self' := snd (fst (fetch L self url w)) in
  let w' := snd (fetch L self url w) in
  calls w' = Called (AxiosGet url 10000) :: calls w /\
  rateLimiter self' = fst (RateLimiter.acquire (rateLimiter self) w) /\
  timers w' = timers (snd (RateLimiter.acquire (rateLimiter self) w)).
Proof.
  intros B P. cbv zeta. rewrite (fetch_valid L self url w B P).
  pose proof (acquire_log (rateLimiter self) w) as A.
  destruct (RateLimiter.acquire (rateLimiter self) w) as [rl w1].
  cbn [fst snd] in A |- *.
  unfold HttpClient.get, HttpClient.DEFAULT_TIMEOUT_MS, perform.
  destruct (match respond w1 (calls w1) (AxiosGet url 10000) with
            | Resolved v => parseContent L v
            | Rejected e => Rejected e
            end); cbn; rewrite A; repeat split; reflexivity.
Qed.

(** X10.  When the HTTP client throws, [fetch] answers with a failure that
    carries the message of the error behind "Failed to fetch content: ",
    and "Unknown error" for a thrown value that is no [Error]. *)
Theorem fetch_reports_the_client_error
  (self : t) (url : jsstring) (w : World) (e : Thrown) :
  blank url = false -> Libs.URL_parses L url = true ->
  fst (HttpClient.get url (snd (RateLimiter.acquire (rateLimiter self) w)))
    = Rejected e ->
  fst (fst (fetch L self url w)) =
    failure (lit "Failed to fetch content: "
             ++ match e with
                | ErrorObject message => message
                | ThrownValue _ => lit "Unknown error"
                end).
Proof.
  intros B P R. rewrite (fetch_valid L self url w B P).
  destruct (RateLimiter.acquire (rateLimiter self) w) as [rl w1].
  cbn [snd] in R.
  destruct (HttpClient.get url w1) as [response w2].
  cbn [fst] in R. subst response. cbv beta iota zeta.
  destruct e; reflexivity.
Qed.

End FetcherMore.

Section FetchToolMore.

Import Properties.
Import Mcp.

Variable L : Libs.t.

Lemma len_app (a b : jsstring) : len (a ++ b) = (len a + len b)%Z.
Proof. unfold len. rewrite length_app. lia. Qed.

Lemma trim_not_blank (u : jsstring) :
  blank u = false -> (len (trim u) =? 0)%Z = false /\ blank (trim u) = false.
Proof.
  intros B. split.
  - destruct (len (trim u) =? 0)%Z eqn:Z; [|reflexivity].
    apply len_zero in Z. apply trim_nil in Z. congruence.
  - destruct (blank (trim u)) eqn:T; [|reflexivity].
    apply trim_nil in T. rewrite trim_idempotent in T.
    apply trim_nil in T. congruence.
Qed.

(** X11.  The fetch tool checks its argument before anything else happens:
    a [url] that is missing, not a string or the empty string is answered
    "Missing or invalid URL parameter", one made of white space only "URL
    cannot be empty", and one that [new URL] refuses once trimmed "Invalid
    URL format"; in the three cases the fetcher with its rate limiter, the
    clock, the timers and the call log are as they were. *)
Theorem fetch_tool_checks_its_argument
  (fetcher : WebContentFetcher.t) (args_url : option JSValue) (w : World) :
  (args_url = None \/
   (exists v, args_url = Some v /\ (truthy v = false \/ is_string v = false))
   -> handleFetchTool L fetcher args_url w =
        (Rejected (ErrorObject (lit "Missing or invalid URL parameter")),
         fetcher, w)) /\
  (forall u, args_url = Some (JSString u) -> u <> [] -> blank u = true ->
     handleFetchTool L fetcher args_url w =
       (Rejected (ErrorObject (lit "URL cannot be empty")), fetcher, w)) /\
  (forall u, args_url = Some (JSString u) -> blank u = false ->
     Libs.URL_parses L (trim u) = false ->
     handleFetchTool L fetcher args_url w =
       (Rejected (ErrorObject (lit "Invalid URL format")), fetcher, w)).
Proof.
  split; [|split].
  - intros [->|(v & -> & [T|S])]; [reflexivity| |].
    + destruct v as [| | |x|s|]; try reflexivity.
      destruct s; [reflexivity|discriminate T].
    + destruct v as [| | |x|s|]; try reflexivity. discriminate S.
  - intros u -> Hu B. destruct u as [|c u]; [congruence|].
    unfold handleFetchTool.
    apply trim_nil in B. rewrite B. reflexivity.
  - intros u -> B P. destruct u as [|c u]; [discriminate B|].
    unfold handleFetchTool.
    destruct (trim_not_blank (c :: u) B) as [Z _]. rewrite Z, P.
    reflexivity.
Qed.

Lemma fetch_failure_inv (fetcher : WebContentFetcher.t) (url : jsstring)
  (w : World) :
  success (fst (fst (WebContentFetcher.fetch L fetcher url w))) = false ->
  exists c e,
    fst (fst (WebContentFetcher.fetch L fetcher url w)) =
      WebContentFetcher.failure (c :: e).
Proof.
  unfold WebContentFetcher.fetch.
  destruct (negb (truthy (JSString url)) || (len (trim url) =? 0)%Z).
  - intros _. cbn. do 2 eexists. reflexivity.
  - destruct (negb (Libs.URL_parses L url)).
    + intros _. cbn. do 2 eexists. reflexivity.
    + destruct (RateLimiter.acquire (WebContentFetcher.rateLimiter fetcher) w)
        as [rl w1].
      destruct (HttpClient.get url w1) as [response w2].
      destruct (match response with
                | Resolved v => WebContentFetcher.parseContent L v
                | Rejected e => Rejected e
                end) as [content|e].
      * cbn. discriminate.
      * intros _. cbn. do 2 eexists. reflexivity.
Qed.

(** X12.  A fetch that fails is thrown by the fetch tool as an [Error]
    whose message is "Web content fetch failed: " followed by the error of
    the fetch result; the tool has then passed the trimmed URL to [fetch],
    and the fetcher and the world are as [fetch] left them. *)
Theorem fetch_tool_wraps_a_failed_fetch
  (fetcher : WebContentFetcher.t) (u : jsstring) (w : World) :
  blank u = false -> Libs.URL_parses L (trim u) = true ->
  success (fst (fst (WebContentFetcher.fetch L fetcher (trim u) w))) = false ->
  exists e,
    error (fst (fst (WebContentFetcher.fetch L fetcher (trim u) w))) = Some e
    /\
    handleFetchTool L fetcher (Some (JSString u)) w =
      (Rejected (ErrorObject (lit "Web content fetch failed: " ++ e)),
       snd (fst (WebContentFetcher.fetch L fetcher (trim u) w)),
       snd (WebContentFetcher.fetch L fetcher (trim u) w)).
Proof.
  intros B P S.
  destruct (fetch_failure_inv fetcher (trim u) w S) as (c & e & E).
  exists (c :: e). split; [rewrite E; reflexivity|].
  destruct (trim_not_blank u B) as [Z _].
  destruct u as [|c0 u]; [discriminate B|].
  unfold handleFetchTool. rewrite Z, P. cbn [negb].
  unfold fetch_and_format.
  destruct (WebContentFetcher.fetch L fetcher (trim (c0 :: u)) w)
    as [[r f'] w'].
  cbn [fst snd] in *. subst r. reflexivity.
Qed.

Lemma truncate_bound (content : jsstring) :
  (len (truncate content) <= 10057)%Z.
Proof.
  rewrite truncate_truncated.
  destruct (truncated_cases content) as [A B].
  destruct (Z.ltb_spec 10000 (len content)) as [H|H].
  - destruct (A H) as [E F]. rewrite E, len_app, F.
    change (len truncation_notice) with 57%Z. lia.
  - rewrite (B H). lia.
Qed.

(** X13.  The text the fetch tool returns is bounded: whatever the page,
    it is never longer than the trimmed URL and 10,073 characters (the
    line "Content from <url>:", a blank line, at most 10,000 characters of
    content and the truncation notice). *)
Theorem fetch_tool_text_is_bounded
  (fetcher : WebContentFetcher.t) (args_url : option JSValue) (w : World)
  (r : ToolResponse) :
  fst (fst (handleFetchTool L fetcher args_url w)) = Resolved r ->
  exists u,
    args_url = Some (JSString u) /\
    (len (text r) <= len (trim u) + 10073)%Z.
Proof.
  unfold handleFetchTool.
  destruct args_url as [[| | |x|[|c u]|]|]; try discriminate.
  intros H. exists (c :: u). split; [reflexivity|].
  destruct (len (trim (c :: u)) =? 0)%Z; [discriminate|].
  destruct (negb (Libs.URL_parses L (trim (c :: u)))); [discriminate|].
  unfold fetch_and_format in H.
  destruct (WebContentFetcher.fetch L fetcher (trim (c :: u)) w)
    as [[res f'] w'].
  destruct (negb (success res)); [discriminate|].
  destruct (negb (present (content_of res))).
  - cbn [fst] in H.
    pose proof (f_equal (fun o : Outcome ToolResponse =>
                           match o with
                           | Resolved x => text x
                           | Rejected _ => []
                           end) H) as T.
    cbv beta iota in T. cbn [text] in T. rewrite <- T.
    rewrite !len_app.
    change (len (lit "Successfully fetched content from ")) with 34%Z.
    change (len (lit ", but no text content was extracted.")) with 36%Z.
    lia.
  - cbn [fst] in H.
    pose proof (f_equal (fun o : Outcome ToolResponse =>
                           match o with
                           | Resolved x => text x
                           | Rejected _ => []
                           end) H) as T.
    cbv beta iota in T. cbn [text] in T. rewrite <- T.
    rewrite !len_app.
    pose proof (truncate_bound (or_empty (content_of res))).
    change (len (lit "Content from ")) with 13%Z.
    change (len (lit ":")) with 1%Z.
    change (len [LF; LF]) with 2%Z.
    lia.
Qed.

End FetchToolMore.

(* ===================================================================== *)
(** * The search tool and the tool call handler                           *)
(* ===================================================================== *)

Section IncludesFacts.

Lemma includes_startsWith (s p : jsstring) :
  startsWith s p = true -> includes s p = true.
Proof. intros H. destruct s; simpl; rewrite H; reflexivity. Qed.

Lemma includes_app_l (a s p : jsstring) :
  includes s p = true -> includes (a ++ s) p = true.
Proof.
  intros H. induction a as [|c a IH]; [exact H|].
  change ((c :: a) ++ s) with (c :: (a ++ s)).
  cbn [includes]. rewrite IH. apply orb_true_r.
Qed.

Lemma startsWith_app_r (s b p : jsstring) :
  startsWith s p = true -> startsWith (s ++ b) p = true.
Proof.
  revert s. induction p as [|x p IH]; intros s; [reflexivity|].
  destruct s as [|y s]; [discriminate|].
  cbn [startsWith app]. intros H.
  apply andb_true_iff in H. destruct H as [H1 H2].
  rewrite H1, (IH s H2). reflexivity.
Qed.

Lemma includes_app_r (s b p : jsstring) :
  includes s p = true -> includes (s ++ b) p = true.
Proof.
  induction s as [|c s IH].
  - cbn [includes]. rewrite orb_false_r. intros H.
    apply includes_startsWith. apply (startsWith_app_r [] b p H).
  - cbn [includes]. intros H. apply orb_true_iff in H.
    change ((c :: s) ++ b) with (c :: (s ++ b)). cbn [includes].
    destruct H as [H|H].
    + pose proof (startsWith_app_r (c :: s) b p H) as K.
      change ((c :: s) ++ b) with (c :: (s ++ b)) in K.
      rewrite K. reflexivity.
    + rewrite (IH H). apply orb_true_r.
Qed.

Lemma includes_mid (a p b : jsstring) : includes (a ++ p ++ b) p = true.
Proof.
  apply includes_app_l. apply includes_startsWith. apply startsWith_app.
Qed.

Lemma includes_self (x : jsstring) : includes x x = true.
Proof.
  apply includes_startsWith.
  rewrite <- (app_nil_r x) at 1. apply startsWith_app.
Qed.

(** What a part holds, the joined string holds. *)
Lemma includes_join (sep x y : jsstring) (parts : list jsstring) :
  In y parts -> includes y x = true -> includes (join sep parts) x = true.
Proof.
  intros Hy Hx. induction parts as [|p ps IH]; [destruct Hy|].
  destruct Hy as [->|H].
  - destruct ps as [|q ps]; [exact Hx|].
    rewrite join_cons by discriminate.
    apply includes_app_r. exact Hx.
  - destruct ps as [|q ps]; [destruct H|].
    rewrite join_cons by discriminate.
    rewrite app_assoc. apply includes_app_l. apply IH. exact H.
Qed.

End IncludesFacts.

Section SearchToolFacts.

Import Properties.
Import Trace.
Import Mcp.
Import McpServer.

Lemma map_from_entry (results : list SearchResult) (k : nat)
  (r : SearchResult) :
  In r results -> exists i, In (format_result r i) (map_from k results).
Proof.
  revert k. induction results as [|x rs IH]; intros k; [intros []|].
  intros [->|H].
  - exists k. now left.
  - destruct (IH (S k) H) as [i Hi]. exists i. now right.
Qed.

(** X14.  The search tool checks its argument before anything else
    happens: a [query] that is missing, not a string or the empty string is
    answered "Missing or invalid query parameter", and one made of white
    space only "Query cannot be empty"; in both cases the searcher and the
    world are as they were: no rate-limit budget is used and no browser is
    touched. *)
Theorem search_tool_checks_its_argument
  (searcher : WebSearcher.t) (args_query : option JSValue) (w : World) :
  (args_query = None \/
   (exists v,
      args_query = Some v /\ (truthy v = false \/ is_string v = false))
   -> handleSearchTool searcher args_query w =
        (Rejected (ErrorObject (lit "Missing or invalid query parameter")),
         searcher, w)) /\
  (forall u, args_query = Some (JSString u) -> u <> [] -> blank u = true ->
     handleSearchTool searcher args_query w =
       (Rejected (ErrorObject (lit "Query cannot be empty")), searcher, w)).
Proof.
  split.
  - intros [->|(v & -> & [T|S])]; [reflexivity| |].
    + destruct v as [| | |x|s|]; try reflexivity.
      destruct s; [reflexivity|discriminate T].
    + destruct v as [| | |x|s|]; try reflexivity. discriminate S.
  - intros u -> Hu B. destruct u as [|c u]; [congruence|].
    unfold handleSearchTool.
    apply trim_nil in B. rewrite B. reflexivity.
Qed.

(** X15.  For a query that is not blank the search tool searches for the
    trimmed query and always answers with a text, never with an error.
    Without results the text names the query; with results it starts with
    their number and the query, and it shows every result: its title, its
    URL and its snippet, on three lines. *)
Theorem search_tool_lists_every_result
  (searcher : WebSearcher.t) (u : jsstring) (w : World) :
  blank u = false ->
  let out := WebSearcher.search searcher (trim u) w in
  let results := fst (fst out) in
  exists r,
    handleSearchTool searcher (Some (JSString u)) w
      = (Resolved r, snd (fst out), snd out) /\
    (results = [] ->
       text r = lit "No search results found for query: " ++ [Scraper.DQ]
                ++ trim u ++ [Scraper.DQ]) /\
    (results <> [] ->
       startsWith (text r)
         (lit "Found " ++ Num.of_nat (List.length results)
          ++ lit " search results for " ++ [Scraper.DQ] ++ trim u
          ++ [Scraper.DQ] ++ lit ":" ++ [LF; LF]) = true /\
       Forall (fun x => includes (text r) (entry_text x) = true) results).
Proof.
  intros B. cbv zeta.
  destruct (trim_not_blank u B) as [Z _].
  destruct u as [|c u]; [discriminate B|].
  unfold handleSearchTool. rewrite Z.
  unfold search_and_format.
  destruct (WebSearcher.search searcher (trim (c :: u)) w)
    as [[results s'] w'].
  cbn [fst snd].
  destruct results as [|x rs].
  - cbn [List.length Nat.eqb]. eexists. split; [reflexivity|].
    split; [intros _; reflexivity|]. intros N. congruence.
  - cbn [List.length Nat.eqb]. eexists. split; [reflexivity|].
    split; [discriminate|]. intros _. cbn [text]. split.
    + rewrite !app_assoc. apply startsWith_app.
    + apply Forall_forall. intros y Hy.
      do 8 apply includes_app_l.
      destruct (map_from_entry (x :: rs) 0 y Hy) as [i Hi].
      apply (includes_join [LF] (entry_text y) (format_result y i)
               (map_from 0 (x :: rs)) Hi).
      unfold format_result. apply includes_app_l. apply includes_self.
Qed.

End SearchToolFacts.

Section ToolCallFacts.

Import Properties.
Import Mcp.
Import McpServer.

Variable L : Libs.t.

(** What a tool returns does not start with "Error: ". *)
Lemma fetch_tool_text_start (fetcher : WebContentFetcher.t)
  (args_url : option JSValue) (w : World) (r : ToolResponse) :
  fst (fst (handleFetchTool L fetcher args_url w)) = Resolved r ->
  startsWith (text r) (lit "Error: ") = false.
Proof.
  unfold handleFetchTool.
  destruct args_url as [[| | |x|[|c u]|]|]; try discriminate.
  destruct (len (trim (c :: u)) =? 0)%Z; [discriminate|].
  destruct (negb (Libs.URL_parses L (trim (c :: u)))); [discriminate|].
  unfold fetch_and_format.
  destruct (WebContentFetcher.fetch L fetcher (trim (c :: u)) w)
    as [[res f'] w'].
  destruct (negb (success res)); [discriminate|].
  destruct (negb (present (content_of res)));
    cbn [fst]; intros H; injection H as <-; reflexivity.
Qed.

Lemma search_tool_text_start (searcher : WebSearcher.t)
  (args_query : option JSValue) (w : World) (r : ToolResponse) :
  fst (fst (handleSearchTool searcher args_query w)) = Resolved r ->
  startsWith (text r) (lit "Error: ") = false.
Proof.
  unfold handleSearchTool.
  destruct args_query as [[| | |x|[|c u]|]|]; try discriminate.
  destruct (len (trim (c :: u)) =? 0)%Z; [discriminate|].
  unfold search_and_format.
  destruct (WebSearcher.search searcher (trim (c :: u)) w)
    as [[results s'] w'].
  destruct (List.length results =? 0)%nat;
    cbn [fst]; intros H; injection H as <-; reflexivity.
Qed.

(** X16.  The handler of a tool call never throws, and [isError] marks
    exactly the answers whose text starts with "Error: ": what a tool
    throws, or an unknown tool name, is answered as "Error: " followed by
    the message, and the text of a tool that returned does not start so. *)
Theorem tool_call_marks_errors
  (self : t) (name : jsstring) (args : option ToolArgs) (w : World) :
  let result := fst (fst (callTool L self name args w)) in
  isError result = startsWith (result_text result) (lit "Error: ") /\
  match fst (fst (dispatch L self name args w)) with
  | Resolved response =>
      result = mkCallToolResult (text response) false
  | Rejected (ErrorObject message) =>
      result = mkCallToolResult (lit "Error: " ++ message) true
  | Rejected (ThrownValue _) =>
      result = mkCallToolResult (lit "Error: Unknown error occurred") true
  end.
Proof.
  cbv zeta. unfold callTool.
  destruct (dispatch L self name args w) as [[r self'] w'] eqn:D.
  cbn [fst snd].
  destruct r as [response|e].
  - split; [|reflexivity]. cbn [fst isError result_text].
    symmetry. unfold dispatch in D.
    destruct (JS.eqb name (lit "search")).
    + destruct (handleSearchTool (searcher self)
                  match args with
                  | Some a => arg_query a
                  | None => None
                  end w) as [[r0 s0] w0] eqn:Q.
      injection D as -> _ _.
      apply (search_tool_text_start (searcher self)
               match args with
               | Some a => arg_query a
               | None => None
               end w).
      rewrite Q. reflexivity.
    + destruct (JS.eqb name (lit "fetch_web_content")).
      * destruct (handleFetchTool L (fetcher self)
                    match args with
                    | Some a => arg_url a
                    | None => None
                    end w) as [[r0 f0] w0] eqn:Q.
        injection D as -> _ _.
        apply (fetch_tool_text_start (fetcher self)
                 match args with
                 | Some a => arg_url a
                 | None => None
                 end w).
        rewrite Q. reflexivity.
      * discriminate D.
  - destruct e as [message|v]; split; reflexivity.
Qed.

(** X17.  A tool name other than "search" and "fetch_web_content" is
    answered "Error: Unknown tool: <name>" with [isError] set, whatever
    the arguments, and the server and the world are as they were. *)
Theorem unknown_tool_is_answered_as_an_error
  (self : t) (name : jsstring) (args : option ToolArgs) (w : World) :
  name <> lit "search" -> name <> lit "fetch_web_content" ->
  callTool L self name args w =
    (mkCallToolResult (lit "Error: Unknown tool: " ++ name) true, self, w).
Proof.
  intros N1 N2. unfold callTool, dispatch.
  destruct (JS.eqb name (lit "search")) eqn:E1;
    [apply eqb_eq in E1; contradiction|].
  destruct (JS.eqb name (lit "fetch_web_content")) eqn:E2;
    [apply eqb_eq in E2; contradiction|].
  reflexivity.
Qed.

(** X18.  From the HTTP client to the answer of the tool call: when the
    GET of a fetch_web_content call fails with an [Error], the three
    layers each put their prefix before its message, and the call is
    answered, with [isError] set, "Error: Web content fetch failed: Failed
    to fetch content: <message>". *)
Theorem fetch_tool_call_reports_the_http_error
  (self : t) (u message : jsstring) (query : option JSValue) (w : World) :
  blank u = false -> Libs.URL_parses L (trim u) = true ->
  fst (HttpClient.get (trim u)
         (snd (RateLimiter.acquire
                 (WebContentFetcher.rateLimiter (fetcher self)) w)))
    = Rejected (ErrorObject message) ->
  fst (fst (callTool L self (lit "fetch_web_content")
              (Some (mkToolArgs query (Some (JSString u)))) w)) =
    mkCallToolResult
      (lit "Error: Web content fetch failed: Failed to fetch content: "
       ++ message) true.
Proof.
  intros B P R.
  destruct (trim_not_blank u B) as [Z T].
  unfold callTool, dispatch.
  change (JS.eqb (lit "fetch_web_content") (lit "search")) with false.
  change (JS.eqb (lit "fetch_web_content") (lit "fetch_web_content"))
    with true.
  cbv iota. cbn [arg_url].
  destruct u as [|c u]; [discriminate B|].
  unfold handleFetchTool. rewrite Z, P. cbn [negb].
  unfold fetch_and_format.
  rewrite (fetch_valid L (fetcher self) (trim (c :: u)) w T P).
  destruct (RateLimiter.acquire
              (WebContentFetcher.rateLimiter (fetcher self)) w) as [rl w1].
  cbn [snd] in R.
  destruct (HttpClient.get (trim (c :: u)) w1) as [response w2].
  cbn [fst] in R. subst response. cbv beta iota zeta.
  cbn [fst snd success negb error WebContentFetcher.failure
       WebContentFetcher.errorMessage].
  reflexivity.
Qed.

End ToolCallFacts.

(* ===================================================================== *)
(** * More of the searcher                                                *)
(* ===================================================================== *)

Section FrameInvariants.

Import Properties.
Import Trace.
Import WebSearcher.
Local Open Scope searcher_scope.

(** An invariant of the frame that every call of a class keeps. *)
Variable I : Frame -> Prop.
Variable class : AnyCall -> bool.

Hypothesis on_page_class : forall c, on_page c = true -> class c = true.
Hypothesis stable :
  forall (R : Type) (c : Call R) (fr : Frame),
    class (Called c) = true -> I fr -> I (snd (await c fr)).

Lemma preserves_ret (A : Type) (a : A) : preserves I (ret a).
Proof. intros fr H. exact H. Qed.

Lemma establishes_bind (P Q : Frame -> Prop) (A B : Type) (m : M A)
  (k : A -> M B) :
  establishes P Q m -> (forall a, preserves Q (k a)) ->
  establishes P Q (bind m k).
Proof.
  intros Hm Hk fr H. unfold bind.
  specialize (Hm fr H). destruct (m fr) as [[a|e] fr1]; cbn [snd] in *.
  - apply (Hk a fr1 Hm).
  - exact Hm.
Qed.

Lemma preserves_bind (A B : Type) (m : M A) (k : A -> M B) :
  preserves I m -> (forall a, preserves I (k a)) -> preserves I (bind m k).
Proof. apply establishes_bind. Qed.

Lemma preserves_await (R : Type) (c : Call R) :
  class (Called c) = true -> preserves I (await c).
Proof. intros Hc fr H. apply stable; assumption. Qed.

Lemma preserves_attempt (R : Type) (c : Call R) :
  class (Called c) = true -> preserves I (attempt c).
Proof.
  intros Hc fr H. unfold attempt.
  pose proof (@stable _ c fr Hc H) as S.
  destruct (await c fr) as [[r|e] fr1]; exact S.
Qed.

Lemma preserves_probe (p : Page) (sels : list jsstring) :
  preserves I (probe p sels).
Proof.
  induction sels as [|sel rest IH]; [apply preserves_ret|].
  cbn [probe]. apply preserves_bind.
  - apply preserves_attempt. apply on_page_class. reflexivity.
  - intros [|]; [apply preserves_ret|exact IH].
Qed.

Lemma preserves_submit_and_extract (p : Page) (query : jsstring) :
  preserves I (submit_and_extract p query).
Proof.
  unfold submit_and_extract.
  repeat (apply preserves_bind;
          [apply preserves_await; apply on_page_class; reflexivity
          |intros _]).
  apply preserves_bind; [apply preserves_probe|intros _].
  apply preserves_bind;
    [apply preserves_await; apply on_page_class; reflexivity|intros d].
  apply preserves_ret.
Qed.

Lemma preserves_on_captcha (p : Page) :
  preserves I (on_captcha p) /\ preserves I (WebSearcherRevised.on_captcha p).
Proof.
  split.
  - apply preserves_await. apply on_page_class. reflexivity.
  - unfold WebSearcherRevised.on_captcha. apply preserves_bind.
    + apply preserves_attempt. apply on_page_class. reflexivity.
    + intros _. apply preserves_ret.
Qed.

(** The [try] block, from an initialisation that keeps [P] and an
    [open_page] that takes [P] to [I]. *)
Lemma establishes_try_block (P : Frame -> Prop) (init : M unit)
  (on_captcha : Page -> M unit) (query : jsstring) :
  (forall fr, P fr -> I fr) ->
  preserves P init -> establishes P I open_page ->
  (forall p, preserves I (on_captcha p)) ->
  establishes P I (try_block init on_captcha query).
Proof.
  intros PI Hinit Hopen Hcap fr H. unfold try_block.
  unfold bind at 1.
  specialize (Hinit fr H). destruct (init fr) as [[u|e] fr1];
    cbn [snd] in *; [|apply PI; exact Hinit].
  revert fr1 Hinit.
  change (establishes P I
            (p <- open_page;;
             captchaElement <- await (PageQuery p captchaSelector);;
             fun fr =>
               if captchaElement && headless (this fr) then ret [] fr
               else ((if captchaElement then on_captcha p else ret tt);;;
                     submit_and_extract p query) fr)).
  apply establishes_bind; [exact Hopen|intros p].
  apply preserves_bind;
    [apply preserves_await; apply on_page_class; reflexivity|].
  intros captchaElement fr2 H2.
  destruct (captchaElement && headless (this fr2)); [exact H2|].
  revert fr2 H2.
  change (preserves I
            ((if captchaElement then on_captcha p else ret tt);;;
             submit_and_extract p query)).
  apply preserves_bind.
  - destruct captchaElement; [apply Hcap|apply preserves_ret].
  - intros _. apply preserves_submit_and_extract.
Qed.

(** [initBrowser] changes the instance only, and calls the launch only. *)
Lemma preserves_initBrowser :
  (forall h a, class (Called (PuppeteerLaunch h a)) = true) ->
  (forall fr b, I fr ->
     I (mkFrame (set_browser b (this fr)) (page fr) (world fr))) ->
  preserves I initBrowser.
Proof.
  intros Hc Hthis fr H. unfold initBrowser.
  destruct (browser (this fr)); [exact H|].
  pose proof (@stable _ (PuppeteerLaunch (headless (this fr)) launch_args)
                fr (Hc _ _) H) as S.
  destruct (await (PuppeteerLaunch (headless (this fr)) launch_args) fr)
    as [[b|e] fr1]; cbn [snd] in *; [|exact S].
  apply Hthis. exact S.
Qed.

(** [open_page] changes the local [page] only, and makes the calls that
    set a page up. *)
Lemma preserves_open_page :
  (forall c, setup_call c = true -> class c = true) ->
  (forall fr p, I fr -> I (mkFrame (this fr) (Some p) (world fr))) ->
  preserves I open_page.
Proof.
  intros Hc Hpage fr H. unfold open_page.
  destruct (browser (this fr)) as [b|]; [|exact H].
  revert fr H.
  change (preserves I
            (p <- await (NewPage b);;
             (fun fr => (Resolved tt, mkFrame (this fr) (Some p) (world fr)));;;
             await (SetUserAgent p userAgent);;;
             await (SetViewport p 1366 768);;;
             await (PageGoto p (lit "https://duckduckgo.com")
                      (lit "networkidle0") 30000);;;
             ret p)).
  apply preserves_bind;
    [apply preserves_await; apply Hc; reflexivity|intros p].
  apply preserves_bind; [intros fr H; apply Hpage; exact H|intros _].
  repeat (apply preserves_bind;
          [apply preserves_await; apply Hc; reflexivity|intros _]).
  apply preserves_ret.
Qed.

Lemma preserves_finally_block (fr : Frame) :
  (forall p, class (Called (PageClose p)) = true) ->
  I fr -> I (finally_block fr).
Proof.
  intros Hc H. unfold finally_block.
  destruct (page fr) as [p|]; [|exact H].
  apply (@preserves_attempt _ (PageClose p) (Hc p) fr H).
Qed.

End FrameInvariants.

Section SearcherMore.

Import Properties.
Import Trace.
Import WebSearcher.
Local Open Scope searcher_scope.

(** The instance and the world a search ends with are those of the frame
    its [finally] block leaves. *)
Lemma search_with_frame (body : jsstring -> M (list SearchResult))
  (self : t) (query : jsstring) (w : World) :
  blank query = false ->
  let a := RateLimiter.acquire (rateLimiter self) w in
  let fr :=
    finally_block
      (snd (body query (mkFrame (set_rateLimiter (fst a) self) None (snd a))))
  in
  snd (fst (search_with body self query w)) = this fr /\
  snd (search_with body self query w) = world fr.
Proof.
  intros B. cbv zeta. unfold search_with. rewrite empty_guard, B.
  destruct (RateLimiter.acquire (rateLimiter self) w) as [rl w1].
  cbn [fst snd].
  destruct (body query (mkFrame (set_rateLimiter rl self) None w1))
    as [r fr'].
  split; reflexivity.
Qed.

Lemma on_page_not_page_call (c : AnyCall) :
  on_page c = true -> negb (page_call c) = true.
Proof. destruct c as [R c]. destruct c; (reflexivity || discriminate). Qed.

Lemma tracks_pages_stable (o : Oracle) (opened closed : list Page)
  (R : Type) (c : Call R) (fr : Frame) :
  negb (page_call (Called c)) = true ->
  tracks_pages o opened closed fr ->
  tracks_pages o opened closed (snd (await c fr)).
Proof.
  intros Hc (Hr & Hcl & Hop). unfold await, perform. cbn [snd].
  unfold tracks_pages. cbn [world page calls respond].
  split; [exact Hr|].
  destruct c; try discriminate Hc; cbn [pages_closed pages_opened closes opens];
    (split; [exact Hcl|exact Hop]).
Qed.

Lemma unopened_stable (o : Oracle) (opened closed : list Page)
  (R : Type) (c : Call R) (fr : Frame) :
  negb (page_call (Called c)) = true ->
  tracks_pages o opened closed fr /\ page fr = None ->
  tracks_pages o opened closed (snd (await c fr)) /\
  page (snd (await c fr)) = None.
Proof.
  intros Hc [H Hp]. split; [apply tracks_pages_stable; assumption|].
  unfold await, perform. exact Hp.
Qed.

(** [open_page] records the page it opened in the local [page]. *)
Lemma open_page_tracks (o : Oracle) (opened closed : list Page) :
  establishes (fun fr => tracks_pages o opened closed fr /\ page fr = None)
              (tracks_pages o opened closed) open_page.
Proof.
  intros fr [(Hr & Hcl & Hop) Hp]. rewrite Hp in Hop.
  unfold open_page.
  destruct (browser (this fr)) as [b|].
  2:{ cbn [throw snd]. unfold tracks_pages. rewrite Hp.
      split; [exact Hr|]. split; assumption. }
  unfold bind at 1. unfold await at 1, perform.
  destruct (respond (world fr) (calls (world fr)) (NewPage b))
    as [p|e] eqn:E; cbv beta iota zeta.
  - match goal with
    | |- tracks_pages _ _ _ (snd (bind _ ?k ?fr1)) =>
        change (tracks_pages o opened closed
                  (snd (k tt (mkFrame (this fr1) (Some p) (world fr1)))));
        assert (P1 : preserves (tracks_pages o opened closed) (k tt));
        [|apply P1]
    end.
    + cbv beta.
      repeat (apply (@preserves_bind (tracks_pages o opened closed));
              [apply (@preserves_await (tracks_pages o opened closed)
                        (fun c => negb (page_call c))
                        (@tracks_pages_stable o opened closed));
               reflexivity
              |intros _]).
      apply preserves_ret.
    + unfold tracks_pages. cbn [world page calls respond this].
      split; [exact Hr|]. cbn [pages_closed pages_opened closes opens].
      rewrite <- Hr, E. split; [exact Hcl|].
      rewrite Hr. f_equal. exact Hop.
  - cbn [snd]. unfold tracks_pages. cbn [world page calls respond].
    split; [exact Hr|]. cbn [pages_closed pages_opened closes opens].
    rewrite <- Hr, E, Hp. split; [exact Hcl|].
    rewrite Hr. exact Hop.
Qed.

Lemma search_with_pages (on_captcha : Page -> M unit)
  (self : t) (query : jsstring) (w : World) :
  (forall o opened closed p,
     preserves (tracks_pages o opened closed) (on_captcha p)) ->
  let w' :=
    snd (search_with (try_block initBrowser on_captcha) self query w) in
  respond w' = respond w /\
  exists new,
    (List.length new <= 1)%nat /\
    pages_opened (respond w) (calls w') =
      new ++ pages_opened (respond w) (calls w) /\
    pages_closed (calls w') = new ++ pages_closed (calls w).
Proof.
  intros Hcap. cbv zeta.
  destruct (blank query) eqn:B.
  - unfold search_with. rewrite empty_guard, B. cbn [snd].
    split; [reflexivity|]. exists []. repeat split. cbn. lia.
  - destruct (search_with_frame (try_block initBrowser on_captcha) self
                query w B) as [_ ->].
    pose proof (acquire_respond (rateLimiter self) w) as Ar.
    pose proof (acquire_log (rateLimiter self) w) as Al.
    destruct (RateLimiter.acquire (rateLimiter self) w) as [rl w1].
    cbn [fst snd] in *.
    set (o := respond w).
    set (opened := pages_opened o (calls w)).
    set (closed := pages_closed (calls w)).
    assert (T : tracks_pages o opened closed
                  (snd (try_block initBrowser on_captcha query
                          (mkFrame (set_rateLimiter rl self) None w1)))).
    { apply (@establishes_try_block (tracks_pages o opened closed)
               (fun c => negb (page_call c)) on_page_not_page_call
               (@tracks_pages_stable o opened closed)
               (fun fr => tracks_pages o opened closed fr /\ page fr = None)).
      - intros fr [H _]. exact H.
      - apply (@preserves_initBrowser
                 (fun fr => tracks_pages o opened closed fr /\ page fr = None)
                 (fun c => negb (page_call c))
                 (@unopened_stable o opened closed)).
        + reflexivity.
        + intros fr b H. exact H.
      - apply open_page_tracks.
      - intros p. apply Hcap.
      - split; [|reflexivity]. unfold tracks_pages.
        cbn [world page]. rewrite Ar, Al. repeat split. }
    destruct (snd (try_block initBrowser on_captcha query
                     (mkFrame (set_rateLimiter rl self) None w1)))
      as [this' page' world'].
    destruct T as (Hr & Hcl & Hop). cbn [world page] in *.
    unfold finally_block. cbn [page].
    destruct page' as [p|].
    + unfold attempt, await, perform. cbn [page this world].
      destruct (respond world' (calls world') (PageClose p));
        cbn [snd world respond calls];
        (split; [exact Hr|]); exists [p];
        cbn [pages_closed pages_opened closes opens];
        rewrite Hcl, Hop; repeat split; cbn; lia.
    + cbn [world]. split; [exact Hr|]. exists [].
      rewrite Hcl, Hop. repeat split. cbn. lia.
Qed.

(** X19.  Every page a search opens it asks to close, before it returns
    and whatever went wrong in between: a search opens at most one page,
    and the pages it opened are the pages it closed.  The second copy of
    the file does the same. *)
Theorem search_closes_the_page_it_opens
  (self : t) (query : jsstring) (w : World) :
  (exists new,
     (List.length new <= 1)%nat /\
     pages_opened (respond w) (calls (snd (search self query w))) =
       new ++ pages_opened (respond w) (calls w) /\
     pages_closed (calls (snd (search self query w))) =
       new ++ pages_closed (calls w)) /\
  (exists new,
     (List.length new <= 1)%nat /\
     pages_opened (respond w)
       (calls (snd (WebSearcherRevised.search self query w))) =
       new ++ pages_opened (respond w) (calls w) /\
     pages_closed (calls (snd (WebSearcherRevised.search self query w))) =
       new ++ pages_closed (calls w)).
Proof.
  split.
  - apply (search_with_pages on_captcha self query w).
    intros o opened closed p.
    apply (@preserves_on_captcha (tracks_pages o opened closed)
             (fun c => negb (page_call c)) on_page_not_page_call
             (@tracks_pages_stable o opened closed) p).
  - apply (search_with_pages WebSearcherRevised.on_captcha self query w).
    intros o opened closed p.
    apply (@preserves_on_captcha (tracks_pages o opened closed)
             (fun c => negb (page_call c)) on_page_not_page_call
             (@tracks_pages_stable o opened closed) p).
Qed.

Lemma selects_stable (f : AnyCall -> bool) (selected : list AnyCall)
  (R : Type) (c : Call R) (fr : Frame) :
  negb (f (Called c)) = true ->
  selects f selected fr -> selects f selected (snd (await c fr)).
Proof.
  intros Hc H. unfold selects, await, perform in *. cbn [snd world calls].
  cbn [filter]. apply negb_true_iff in Hc. rewrite Hc. exact H.
Qed.

(** A search leaves alone the calls it never makes. *)
Lemma search_with_selected (f : AnyCall -> bool)
  (on_captcha : Page -> M unit) (self : t) (query : jsstring) (w : World) :
  (forall c, on_page c = true -> negb (f c) = true) ->
  (forall c, page_call c = true -> negb (f c) = true) ->
  (forall c, launch_call c = true -> negb (f c) = true) ->
  (forall selected p, preserves (selects f selected) (on_captcha p)) ->
  filter f (calls (snd (search_with (try_block initBrowser on_captcha)
                          self query w)))
  = filter f (calls w).
Proof.
  intros F1 F2 F3 Hcap.
  destruct (blank query) eqn:B.
  - unfold search_with. rewrite empty_guard, B. reflexivity.
  - destruct (search_with_frame (try_block initBrowser on_captcha) self
                query w B) as [_ ->].
    pose proof (acquire_log (rateLimiter self) w) as Al.
    destruct (RateLimiter.acquire (rateLimiter self) w) as [rl w1].
    cbn [fst snd] in *.
    set (I := selects f (filter f (calls w))).
    change (I (finally_block
                 (snd (try_block initBrowser on_captcha query
                         (mkFrame (set_rateLimiter rl self) None w1))))).
    apply (@preserves_finally_block I (fun c => negb (f c))
             (@selects_stable f (filter f (calls w)))).
    + intros p. apply F2. reflexivity.
    + apply (@establishes_try_block I (fun c => negb (f c)) F1
               (@selects_stable f (filter f (calls w))) I).
      * intros fr H. exact H.
      * apply (@preserves_initBrowser I (fun c => negb (f c))
                 (@selects_stable f (filter f (calls w)))).
        -- intros h a. apply F3. reflexivity.
        -- intros fr b H. exact H.
      * apply (@preserves_open_page I (fun c => negb (f c))
                 (@selects_stable f (filter f (calls w)))).
        -- intros [R c] Hc. destruct c; try discriminate Hc;
             first [apply F1; reflexivity|apply F2; reflexivity].
        -- intros fr p H. exact H.
      * intros p. apply Hcap.
      * unfold I, selects. cbn [world]. rewrite Al. reflexivity.
Qed.

Lemma held_stable (b : Browser) (selected : list AnyCall)
  (R : Type) (c : Call R) (fr : Frame) :
  negb (launch_call (Called c)) = true ->
  browser (this fr) = Some b /\ selects launch_call selected fr ->
  browser (this (snd (await c fr))) = Some b /\
  selects launch_call selected (snd (await c fr)).
Proof.
  intros Hc [Hb H]. split; [exact Hb|].
  apply selects_stable; assumption.
Qed.

Lemma on_page_not_launch (c : AnyCall) :
  on_page c = true -> negb (launch_call c) = true.
Proof. destruct c as [R c]. destruct c; (reflexivity || discriminate). Qed.

(** A search on an instance that holds a browser launches none and keeps
    the one it holds. *)
Lemma search_with_held (on_captcha : Page -> M unit) (self : t)
  (query : jsstring) (w : World) (b : Browser) :
  (forall selected p,
     preserves (fun fr => browser (this fr) = Some b /\
                          selects launch_call selected fr) (on_captcha p)) ->
  browser self = Some b ->
  let out := search_with (try_block initBrowser on_captcha) self query w in
  browser (snd (fst out)) = Some b /\
  filter launch_call (calls (snd out)) = filter launch_call (calls w).
Proof.
  intros Hcap Hb. cbv zeta.
  destruct (blank query) eqn:B.
  - unfold search_with. rewrite empty_guard, B. split; [exact Hb|reflexivity].
  - destruct (search_with_frame (try_block initBrowser on_captcha) self
                query w B) as [-> ->].
    pose proof (acquire_log (rateLimiter self) w) as Al.
    destruct (RateLimiter.acquire (rateLimiter self) w) as [rl w1].
    cbn [fst snd] in *.
    set (I := fun fr => browser (this fr) = Some b /\
                        selects launch_call (filter launch_call (calls w)) fr).
    change (I (finally_block
                 (snd (try_block initBrowser on_captcha query
                         (mkFrame (set_rateLimiter rl self) None w1))))).
    apply (@preserves_finally_block I (fun c => negb (launch_call c))
             (@held_stable b (filter launch_call (calls w)))).
    + reflexivity.
    + apply (@establishes_try_block I (fun c => negb (launch_call c))
               on_page_not_launch
               (@held_stable b (filter launch_call (calls w))) I).
      * intros fr H. exact H.
      * intros fr [H1 H2]. unfold initBrowser. rewrite H1.
        split; assumption.
      * apply (@preserves_open_page I (fun c => negb (launch_call c))
                 (@held_stable b (filter launch_call (calls w)))).
        -- intros [R c] Hc. destruct c; try discriminate Hc; reflexivity.
        -- intros fr p H. exact H.
      * intros p. apply Hcap.
      * unfold I, selects. cbn [this world browser set_rateLimiter].
        rewrite Al. split; [exact Hb|reflexivity].
Qed.

(** X20.  A search on an instance that holds a browser reuses it: it calls
    [puppeteer.launch] not at all and the instance holds the same browser
    afterwards.  And no search, on any instance, closes the browser or
    makes an HTTP request of its own: the browser stays open until
    [close()] is called. *)
Theorem search_reuses_the_browser (self : t) (query : jsstring) (w : World) :
  (forall b, browser self = Some b ->
     browser (snd (fst (search self query w))) = Some b /\
     filter launch_call (calls (snd (search self query w)))
       = filter launch_call (calls w)) /\
  filter (fun c => browser_close_call c || http_call c)
    (calls (snd (search self query w)))
  = filter (fun c => browser_close_call c || http_call c) (calls w).
Proof.
  split.
  - intros b Hb.
    apply (@search_with_held on_captcha self query w b); [|exact Hb].
    intros selected p.
    apply (@preserves_on_captcha
             (fun fr => browser (this fr) = Some b /\
                        selects launch_call selected fr)
             (fun c => negb (launch_call c)) on_page_not_launch
             (@held_stable b selected) p).
  - apply (@search_with_selected
             (fun c => browser_close_call c || http_call c) on_captcha
             self query w).
    + intros [R c]. destruct c; (reflexivity || discriminate).
    + intros [R c]. destruct c; (reflexivity || discriminate).
    + intros [R c]. destruct c; (reflexivity || discriminate).
    + intros selected p.
      apply (@preserves_on_captcha
               (selects (fun c => browser_close_call c || http_call c)
                        selected)
               (fun c => negb (browser_close_call c || http_call c))).
      * intros [R c]. destruct c; (reflexivity || discriminate).
      * apply (@selects_stable
                 (fun c => browser_close_call c || http_call c) selected).
Qed.

(** X21.  [close()] lets go of the browser whatever [browser.close()]
    answers: with a browser held it makes that one call and the instance
    holds none afterwards, an error of the call being dropped; without one
    it does nothing; so calling it twice is calling it once.  The rate
    limiter and the mode of the instance are not touched. *)
Theorem close_releases_the_browser (self : t) (w : World) :
  browser (fst (close self w)) = None /\
  rateLimiter (fst (close self w)) = rateLimiter self /\
  headless (fst (close self w)) = headless self /\
  (browser self = None -> close self w = (self, w)) /\
  (forall b, browser self = Some b ->
     calls (snd (close self w)) = Called (BrowserClose b) :: calls w) /\
  close (fst (close self w)) (snd (close self w)) = close self w.
Proof.
  unfold close. destruct (browser self) as [b|] eqn:E.
  - cbn [perform fst snd set_browser browser rateLimiter headless calls].
    repeat split; try reflexivity; try discriminate.
    intros b' Hb. injection Hb as <-. reflexivity.
  - cbn [fst snd]. rewrite E.
    repeat split; try reflexivity. intros b Hb. discriminate.
Qed.

End SearcherMore.

Section ExtractionMore.

Import Properties.
Import Trace.
Import WebSearcher.
Local Open Scope searcher_scope.

Lemma extract_from_first (sels : list jsstring) (document : Dom.Document) :
  extract_from sels document [] =
    match find (fun selector =>
                  (0 <? List.length
                          (flat_map extract_element
                             (Dom.querySelectorAll document selector)))%nat)
               sels
    with
    | Some selector =>
        flat_map extract_element (Dom.querySelectorAll document selector)
    | None => []
    end.
Proof.
  induction sels as [|selector rest IH]; [reflexivity|].
  cbn [extract_from find].
  destruct (Dom.querySelectorAll document selector) as [|e es] eqn:Q.
  - cbn [List.length Nat.ltb Nat.leb flat_map]. exact IH.
  - cbn [List.length]. change (0 <? S (List.length es))%nat with true.
    cbv iota. cbn [app].
    destruct (flat_map extract_element (e :: es)) as [|r rs] eqn:F.
    + cbn [List.length Nat.ltb Nat.leb]. exact IH.
    + cbn [List.length Nat.ltb Nat.leb]. rewrite Q, F. reflexivity.
Qed.

(** X22.  The in-page extraction never mixes the results of two container
    selectors: what it returns is what the first selector of the list
    (.result, .web-result, [data-result], ...) whose elements give at least
    one result gives, in document order, and nothing when no selector
    does. *)
Theorem extract_takes_the_first_selector_with_results
  (document : Dom.Document) :
  extract document =
    match find (fun selector =>
                  (0 <? List.length
                          (flat_map extract_element
                             (Dom.querySelectorAll document selector)))%nat)
               resultSelectors
    with
    | Some selector =>
        flat_map extract_element (Dom.querySelectorAll document selector)
    | None => []
    end.
Proof. apply extract_from_first. Qed.







(** X24.  A query that is empty or made of white space only is answered
    with no results at once: the instance, with its rate limiter and its
    browser, and the world, with its clock, timers and call log, are as
    they were, in both copies of the file. *)
Theorem search_ignores_a_blank_query
  (self : t) (query : jsstring) (w : World) :
  blank query = true ->
  search self query w = ([], self, w) /\
  WebSearcherRevised.search self query w = ([], self, w).
Proof.
  intros B. split.
  - apply search_blank_query. exact B.
  - unfold WebSearcherRevised.search, search_with.
    rewrite empty_guard, B. reflexivity.
Qed.

End ExtractionMore.

(* ===================================================================== *)
(** * More of the concurrent calls                                        *)
(* ===================================================================== *)

Section EventLoopMore.

Import EventLoop.
Local Open Scope Z_scope.

Lemma nth_error_set_task_same (i : nat) (pc old : Pc) (ts : list Pc) :
  nth_error ts i = Some old -> nth_error (set_task i pc ts) i = Some pc.
Proof.
  revert i. induction ts as [|t0 ts IH]; intros [|i]; cbn;
    try discriminate; [reflexivity|apply IH].
Qed.

Lemma nth_error_set_task_other (i j : nat) (pc : Pc) (ts : list Pc) :
  i <> j -> nth_error (set_task i pc ts) j = nth_error ts j.
Proof.
  revert i j. induction ts as [|t0 ts IH]; intros [|i] [|j] H; cbn;
    try reflexivity; try congruence.
  apply IH. congruence.
Qed.

(** A call that finds the window full leaves the limiter as it is and
    asks for the rest of the window. *)
Lemma acquire_enter_full (rl : RateLimiter.t) (now : Z) :
  RateLimiter.limit rl <= RateLimiter.requests rl ->
  now - RateLimiter.lastRequestTime rl < RateLimiter.interval rl ->
  acquire_enter rl now =
    (rl, Some (RateLimiter.interval rl
               - (now - RateLimiter.lastRequestTime rl))).
Proof.
  intros H1 H2. unfold acquire_enter.
  destruct (RateLimiter.interval rl <=? now - RateLimiter.lastRequestTime rl)
    eqn:A; [lia|].
  destruct (RateLimiter.requests rl <? RateLimiter.limit rl) eqn:B; [lia|].
  reflexivity.
Qed.

(** X25.  Calls that find the window full are not put in a queue.  Of two
    [search] calls on one instance that reach [acquire()] while the window
    is full, each is given the rest of the same window to wait and the
    limiter counts neither; when the window ends both are granted at the
    same instant, the limiter then counting one request, whatever the
    limit is. *)
Theorem waiting_calls_are_released_together
  (text : Text) (st : State) (i j : nat) :
  i <> j ->
  nth_error (tasks st) i = Some AtSearch ->
  nth_error (tasks st) j = Some AtSearch ->
  RateLimiter.limit (limiter st) <= RateLimiter.requests (limiter st) ->
  now st - RateLimiter.lastRequestTime (limiter st)
    < RateLimiter.interval (limiter st) ->
  let wait :=
    timer_delay (RateLimiter.interval (limiter st)
                 - (now st - RateLimiter.lastRequestTime (limiter st))) in
  exists st',
    run text [Step i; Step j; Tick wait; Step i; Step j] st = Some st' /\
    nth_error (tasks st') i = Some AtInit /\
    nth_error (tasks st') j = Some AtInit /\
    now st' = now st + wait /\
    limiter st' =
      RateLimiter.mk 1 (RateLimiter.limit (limiter st))
                     (RateLimiter.interval (limiter st)) (now st + wait).
Proof.
  intros Hij Hi Hj HL HE wait.
  pose proof (timer_delay_pos
                (RateLimiter.interval (limiter st)
                 - (now st - RateLimiter.lastRequestTime (limiter st))))
    as Hw. fold wait in Hw.
  pose proof (acquire_enter_full (limiter st) (now st) HL HE) as En.
  cbn [run]. unfold step at 1. rewrite Hi, En. fold wait.
  cbn [run]. unfold step at 1. cbn [tasks limiter now].
  rewrite (nth_error_set_task_other _ _ Hij), Hj, En. fold wait.
  cbn [run]. unfold step at 1. cbn [tasks limiter now].
  destruct (0 <=? wait) eqn:W; [|lia].
  cbn [run]. unfold step at 1. cbn [tasks limiter now].
  rewrite (nth_error_set_task_other _ _ (not_eq_sym Hij)).
  rewrite (nth_error_set_task_same _ _ _ Hi).
  rewrite Z.leb_refl.
  cbn [run]. unfold step at 1. cbn [tasks limiter now].
  rewrite (nth_error_set_task_other _ _ Hij).
  erewrite nth_error_set_task_same
    by (rewrite (nth_error_set_task_other _ _ Hij); exact Hj).
  rewrite Z.leb_refl.
  eexists. split; [reflexivity|].
  cbn [tasks limiter now].
  split.
  - rewrite (nth_error_set_task_other _ _ (not_eq_sym Hij)).
    eapply nth_error_set_task_same.
    rewrite (nth_error_set_task_other _ _ (not_eq_sym Hij)).
    eapply nth_error_set_task_same. exact Hi.
  - split.
    + eapply nth_error_set_task_same.
      rewrite (nth_error_set_task_other _ _ Hij).
      eapply nth_error_set_task_same.
      rewrite (nth_error_set_task_other _ _ Hij). exact Hj.
    + split; reflexivity.
Qed.

(** X26.  In the second copy of WebSearcher.ts, which keeps the promise of
    the initialisation in flight, any number of concurrent [search] calls
    on a new instance launch one browser at most, in every interleaving of
    their steps in which the launches succeed, and a call is past
    [initBrowser()] only when a browser was launched. *)
Theorem second_copy_launches_at_most_once
  (n : nat) (t0 : Z) (evs : list Event) (st : State) :
  forallb launches_succeed evs = true ->
  run Revised evs (fresh n t0) = Some st ->
  (launched st <= 1)%nat /\
  (existsb past_init (tasks st) = true -> launched st = 1%nat).
Proof. apply revised_launches_once. Qed.

End EventLoopMore.

(* ===================================================================== *)
(** * The captcha in headless mode, the spacing of requests, the title    *)
(* ===================================================================== *)

Section SessionFacts.

Import Properties.
Import Trace.
Import WebSearcher.
Local Open Scope searcher_scope.
Local Open Scope Z_scope.

Lemma headless_frame_stable (o : Oracle) (submitted : list AnyCall)
  (R : Type) (c : Call R) (fr : Frame) :
  negb (submit_call (Called c)) = true ->
  headless_frame o submitted fr ->
  headless_frame o submitted (snd (await c fr)).
Proof.
  intros Hc (Hh & Hr & Hs). unfold headless_frame, await, perform.
  cbn [snd this world respond calls filter].
  apply negb_true_iff in Hc. rewrite Hc.
  split; [exact Hh|]. split; assumption.
Qed.

(** In headless mode, on a home page that shows a captcha, the [try] block
    ends before the query is submitted. *)
Lemma try_block_gives_up (o : Oracle) (submitted : list AnyCall)
  (on_captcha : Page -> M unit) (query : jsstring) (fr : Frame) :
  captcha_shown o ->
  headless_frame o submitted fr ->
  headless_frame o submitted
    (snd (try_block initBrowser on_captcha query fr)) /\
  match fst (try_block initBrowser on_captcha query fr) with
  | Resolved results => results = []
  | Rejected _ => True
  end.
Proof.
  intros Hcap H. unfold try_block, bind.
  assert (H1 : headless_frame o submitted (snd (initBrowser fr))).
  { apply (@preserves_initBrowser (headless_frame o submitted)
             (fun c => negb (submit_call c))
             (@headless_frame_stable o submitted)); [reflexivity| |exact H].
    intros fr0 b (A & B & D). split; [exact A|]. split; assumption. }
  destruct (initBrowser fr) as [[u|e] fr1]; cbn [fst snd] in *;
    [|split; [exact H1|exact I]].
  assert (H2 : headless_frame o submitted (snd (open_page fr1))).
  { apply (@preserves_open_page (headless_frame o submitted)
             (fun c => negb (submit_call c))
             (@headless_frame_stable o submitted)); [| |exact H1].
    - intros [R c] Hc. destruct c; try discriminate Hc; reflexivity.
    - intros fr0 p (A & B & D). split; [exact A|]. split; assumption. }
  destruct (open_page fr1) as [[p|e] fr2]; cbn [fst snd] in *;
    [|split; [exact H2|exact I]].
  pose proof (@headless_frame_stable o submitted _
                (PageQuery p captchaSelector) fr2 eq_refl H2) as H3.
  unfold await, perform in H3 |- *.
  destruct H2 as (Hh & Hr & Hs).
  rewrite Hr, (Hcap (calls (world fr2)) p captchaSelector) in *.
  cbn [fst snd this] in *. rewrite Hh. cbn [andb ret fst snd].
  split; [exact H3|reflexivity].
Qed.

(** X27.  In headless mode a captcha on the home page ends the search
    before the query is submitted: the result is the empty list, and the
    search has typed nothing, clicked nothing, awaited no navigation and
    evaluated nothing in the page.  This holds for both copies of the
    file, whatever they do about a captcha when not headless. *)
Theorem headless_search_gives_up_on_a_captcha
  (self : t) (query : jsstring) (w : World) :
  headless self = true -> captcha_shown (respond w) ->
  (fst (fst (search self query w)) = [] /\
   filter submit_call (calls (snd (search self query w)))
     = filter submit_call (calls w)) /\
  (fst (fst (WebSearcherRevised.search self query w)) = [] /\
   filter submit_call (calls (snd (WebSearcherRevised.search self query w)))
     = filter submit_call (calls w)).
Proof.
  intros Hh Hcap.
  assert (G : forall on_captcha,
             fst (fst (search_with (try_block initBrowser on_captcha)
                         self query w)) = [] /\
             filter submit_call
               (calls (snd (search_with (try_block initBrowser on_captcha)
                              self query w)))
             = filter submit_call (calls w)).
  { intros on_captcha. unfold search_with.
    destruct (negb (truthy (JSString query)) || (len (trim query) =? 0))
      ; [split; reflexivity|].
    pose proof (acquire_respond (rateLimiter self) w) as Ar.
    pose proof (acquire_log (rateLimiter self) w) as Al.
    destruct (RateLimiter.acquire (rateLimiter self) w) as [rl w1].
    cbn [fst snd] in Ar, Al.
    destruct (@try_block_gives_up (respond w)
                (filter submit_call (calls w)) on_captcha query
                (mkFrame (set_rateLimiter rl self) None w1) Hcap)
      as [T R].
    { split; [exact Hh|]. cbn [world]. rewrite Ar, Al.
      split; reflexivity. }
    destruct (try_block initBrowser on_captcha query
                (mkFrame (set_rateLimiter rl self) None w1)) as [r fr'].
    cbn [fst snd] in *. split.
    - destruct r; [exact R|reflexivity].
    - assert (F : headless_frame (respond w)
                    (filter submit_call (calls w)) (finally_block fr')).
      { apply (@preserves_finally_block
                 (headless_frame (respond w) (filter submit_call (calls w)))
                 (fun c => negb (submit_call c))
                 (@headless_frame_stable (respond w)
                    (filter submit_call (calls w)))); [reflexivity|exact T]. }
      destruct F as (_ & _ & F). exact F. }
  split; apply G.
Qed.

Lemma limiter_frame_stable (rl : RateLimiter.t) (set : list Z) (since : Z)
  (R : Type) (c : Call R) (fr : Frame) :
  (fun _ : AnyCall => true) (Called c) = true ->
  limiter_frame rl set since fr ->
  limiter_frame rl set since (snd (await c fr)).
Proof.
  intros _ (A & B & D). unfold limiter_frame, await, perform.
  cbn [snd this world timers clock].
  pose proof (next_late_nonneg (world fr)).
  split; [exact A|]. split; [exact B|lia].
Qed.

(** After the rate limiter a search neither touches it nor sets a timer,
    and the clock does not go back. *)
Lemma search_with_limiter (on_captcha : Page -> M unit) (self : t)
  (query : jsstring) (w : World) :
  (forall rl set since p,
     preserves (limiter_frame rl set since) (on_captcha p)) ->
  blank query = false ->
  let a := RateLimiter.acquire (rateLimiter self) w in
  let out := search_with (try_block initBrowser on_captcha) self query w in
  rateLimiter (snd (fst out)) = fst a /\
  timers (snd out) = timers (snd a) /\
  clock (snd a) <= clock (snd out).
Proof.
  intros Hcap B. cbv zeta.
  destruct (search_with_frame (try_block initBrowser on_captcha) self
              query w B) as [-> ->].
  destruct (RateLimiter.acquire (rateLimiter self) w) as [rl w1].
  cbn [fst snd].
  change (limiter_frame rl (timers w1) (clock w1)
            (finally_block
               (snd (try_block initBrowser on_captcha query
                       (mkFrame (set_rateLimiter rl self) None w1))))).
  apply (@preserves_finally_block
           (limiter_frame rl (timers w1) (clock w1)) (fun _ => true)
           (@limiter_frame_stable rl (timers w1) (clock w1)));
    [reflexivity|].
  apply (@establishes_try_block
           (limiter_frame rl (timers w1) (clock w1)) (fun _ => true)
           (fun _ _ => eq_refl)
           (@limiter_frame_stable rl (timers w1) (clock w1))
           (limiter_frame rl (timers w1) (clock w1))).
  - intros fr H. exact H.
  - apply (@preserves_initBrowser
             (limiter_frame rl (timers w1) (clock w1)) (fun _ => true)
             (@limiter_frame_stable rl (timers w1) (clock w1)));
      [reflexivity|].
    intros fr b H. exact H.
  - apply (@preserves_open_page
             (limiter_frame rl (timers w1) (clock w1)) (fun _ => true)
             (@limiter_frame_stable rl (timers w1) (clock w1)));
      [reflexivity|].
    intros fr p H. exact H.
  - intros p. apply Hcap.
  - unfold limiter_frame. cbn [this world rateLimiter set_rateLimiter].
    repeat split. lia.
Qed.

(** With one request per window, a call that follows a grant is granted
    in a new window, an interval or more after the old one began. *)
Lemma acquire_spaced (rl : RateLimiter.t) (w : World) :
  RateLimiter.limit rl = 1 -> RateLimiter.requests rl = 1 ->
  0 < RateLimiter.interval rl <= 2147483647 ->
  RateLimiter.lastRequestTime rl <= clock w ->
  let rl' := fst (RateLimiter.acquire rl w) in
  let w' := snd (RateLimiter.acquire rl w) in
  RateLimiter.limit rl' = 1 /\ RateLimiter.requests rl' = 1 /\
  RateLimiter.interval rl' = RateLimiter.interval rl /\
  RateLimiter.lastRequestTime rl + RateLimiter.interval rl
    <= RateLimiter.lastRequestTime rl' /\
  RateLimiter.lastRequestTime rl' = clock w'.
Proof.
  intros HL HR HI HT. unfold RateLimiter.acquire, Date_now.
  destruct (RateLimiter.interval rl <=? clock w
            - RateLimiter.lastRequestTime rl) eqn:A;
    cbn [RateLimiter.requests RateLimiter.limit RateLimiter.interval
         RateLimiter.lastRequestTime RateLimiter.set_requests
         RateLimiter.set_lastRequestTime].
  - rewrite HL. cbn. repeat split; lia.
  - rewrite HL, HR. cbn.
    pose proof (next_late_nonneg w).
    rewrite timer_delay_ge by lia.
    repeat split; lia.
Qed.

End SessionFacts.

Section SpacingFacts.

Import Properties.
Import Trace.
Local Open Scope Z_scope.

Variable L : Libs.t.

(** X28.  With the limit of one request per window that both classes have
    by default, requests made one after the other are spaced: a search or
    a fetch on an instance whose limiter has granted a request opens a new
    window an interval or more after the old one began, before any call
    leaves the process for it, and leaves the limiter in the same state,
    so the spacing holds for the next request as well.  The search does
    not touch the limiter or set a timer after that.  (Queries and URLs
    that pass the validation; an interval within the range of a timer.) *)
Theorem requests_are_spaced (rl : RateLimiter.t) (w : World) :
  RateLimiter.limit rl = 1 -> RateLimiter.requests rl = 1 ->
  0 < RateLimiter.interval rl <= 2147483647 ->
  RateLimiter.lastRequestTime rl <= clock w ->
  (forall self query,
     WebSearcher.rateLimiter self = rl -> blank query = false ->
     let rl' :=
       WebSearcher.rateLimiter (snd (fst (WebSearcher.search self query w)))
     in
     let w' := snd (WebSearcher.search self query w) in
     RateLimiter.limit rl' = 1 /\ RateLimiter.requests rl' = 1 /\
     RateLimiter.interval rl' = RateLimiter.interval rl /\
     RateLimiter.lastRequestTime rl + RateLimiter.interval rl
       <= RateLimiter.lastRequestTime rl' /\
     RateLimiter.lastRequestTime rl' <= clock w' /\
     timers w' = timers (snd (RateLimiter.acquire rl w))) /\
  (forall self url,
     WebContentFetcher.rateLimiter self = rl ->
     blank url = false -> Libs.URL_parses L url = true ->
     let rl' :=
       WebContentFetcher.rateLimiter
         (snd (fst (WebContentFetcher.fetch L self url w))) in
     let w' := snd (WebContentFetcher.fetch L self url w) in
     RateLimiter.limit rl' = 1 /\ RateLimiter.requests rl' = 1 /\
     RateLimiter.interval rl' = RateLimiter.interval rl /\
     RateLimiter.lastRequestTime rl + RateLimiter.interval rl
       <= RateLimiter.lastRequestTime rl' /\
     RateLimiter.lastRequestTime rl' <= clock w').
Proof.
  intros HL HR HI HT.
  destruct (acquire_spaced rl w HL HR HI HT) as (A1 & A2 & A3 & A4 & A5).
  split.
  - intros self query E B. cbv zeta.
    destruct (@search_with_limiter WebSearcher.on_captcha self query w)
      as (S1 & S2 & S3); [|exact B|].
    { intros rl0 set since p.
      apply (@preserves_on_captcha (limiter_frame rl0 set since)
               (fun _ => true) (fun _ _ => eq_refl)
               (@limiter_frame_stable rl0 set since) p). }
    rewrite E in S1, S2, S3.
    change (WebSearcher.search_with
              (WebSearcher.try_block WebSearcher.initBrowser
                 WebSearcher.on_captcha) self query w)
      with (WebSearcher.search self query w) in S1, S2, S3.
    rewrite S1, S2. repeat split; try assumption. lia.
  - intros self url E B P. cbv zeta.
    rewrite (fetch_valid L self url w B P). rewrite E.
    destruct (RateLimiter.acquire rl w) as [rl1 w1].
    cbn [fst snd] in *.
    unfold HttpClient.get, perform.
    pose proof (next_late_nonneg w1).
    destruct (match respond w1 (calls w1)
                      (AxiosGet url HttpClient.DEFAULT_TIMEOUT_MS) with
              | Resolved v => WebContentFetcher.parseContent L v
              | Rejected e => Rejected e
              end); cbn [fst snd WebContentFetcher.rateLimiter clock];
      repeat split; try assumption; lia.
Qed.

End SpacingFacts.

Section TitleFacts.

Import Properties.
Import Trace.
Import WebSearcher.

(** The selector loop stops at the first selector that finds an element
    with text; when none does it is left with what the last selector
    found. *)
Lemma find_element_first (sels : list jsstring) (element : Dom.Element)
  (current : option Dom.Node) :
  find_element sels element current =
    match find (has_text element) sels with
    | Some selector => Dom.querySelector element selector
    | None =>
        match sels with
        | [] => current
        | _ :: _ => Dom.querySelector element (last sels [])
        end
    end.
Proof.
  revert current. induction sels as [|sel rest IH]; intros current;
    [reflexivity|].
  cbn [find_element find]. unfold has_text at 1.
  destruct (Dom.querySelector element sel) as [n|] eqn:Q.
  - destruct (present (trimmed_text n)) eqn:T; [exact (eq_sym Q)|].
    rewrite IH. destruct (find (has_text element) rest); [reflexivity|].
    destruct rest as [|sel' rest']; [exact (eq_sym Q)|reflexivity].
  - rewrite IH. destruct (find (has_text element) rest); [reflexivity|].
    destruct rest as [|sel' rest']; [exact (eq_sym Q)|reflexivity].
Qed.

(** X29.  A result container gives a result only when one of the title
    selectors finds in it an element with text, and then the title and the
    link of the result are those of the first such selector in the list
    (.result__title a, .result__a, h2 a, ...): the title is the trimmed
    text of that element, the URL its [href] property or, when that is
    missing or empty, its [href] attribute, normalised; the result is
    dropped when the filter refuses that URL. *)
Theorem result_title_comes_from_the_first_selector_with_text
  (element : Dom.Element) :
  match find (has_text element) titleSelectors with
  | None => extract_element element = []
  | Some selector =>
      exists te text,
        Dom.querySelector element selector = Some te /\
        Dom.textContent te = Some text /\ trim text <> [] /\
        let url :=
          normalize_url
            (or_empty (or_else (Dom.href te) (Dom.getAttribute_href te))) in
        (keeps (trim text) url = false -> extract_element element = []) /\
        (keeps (trim text) url = true ->
           exists snippet,
             extract_element element =
               [mkSearchResult (trim text) url snippet (Some [])])
  end.
Proof.
  unfold extract_element. rewrite (find_element_first titleSelectors).
  destruct (find (has_text element) titleSelectors) as [selector|] eqn:F.
  - apply find_some in F. destruct F as [_ F]. unfold has_text in F.
    destruct (Dom.querySelector element selector) as [te|];
      [|discriminate F].
    unfold trimmed_text in *.
    destruct (Dom.textContent te) as [text|] eqn:T; [|discriminate F].
    exists te, text. split; [reflexivity|]. split; [exact T|].
    split.
    + intros E. rewrite E in F. discriminate F.
    + cbv zeta. cbn [or_empty]. split.
      * intros K. rewrite K. reflexivity.
      * intros K. rewrite K. eexists. reflexivity.
  - cbn [titleSelectors last].
    match goal with
    | |- context [Dom.querySelector element ?s] =>
        assert (H : has_text element s = false)
    end.
    { apply (find_none _ _ F). cbn. tauto. }
    unfold has_text in H.
    destruct (Dom.querySelector element (lit ".result-header a")) as [te|];
      [|reflexivity].
    unfold trimmed_text in *.
    destruct (Dom.textContent te) as [text|]; cbn [or_empty].
    + cbn [present] in H. destruct (trim text); [|discriminate H].
      reflexivity.
    + reflexivity.
Qed.

End TitleFacts.

(* ===================================================================== *)
(** * More runs on the concrete environments                              *)
(* ===================================================================== *)

Section MoreRuns.

Import Properties.
Import Trace.
Import Scenario.
Import Cases.

Local Open Scope Z_scope.

Lemma fetch_makes_one_request_witness :
  calls (snd (WebContentFetcher.fetch libs fetcher example_url
                (http_world JSNull)))
    = [Called (AxiosGet example_url 10000)] /\
  WebContentFetcher.rateLimiter
    (snd (fst (WebContentFetcher.fetch libs fetcher example_url
                 (http_world JSNull))))
    = RateLimiter.mk 1 1 1000 5000.
Proof.
  destruct (@fetch_makes_one_request libs fetcher example_url
              (http_world JSNull)) as (A & B & _);
    [reflexivity|reflexivity|].
  split; [exact A|exact B].
Defined.

Lemma fetch_reports_the_client_error_witness :
  fst (fst (WebContentFetcher.fetch libs fetcher example_url
              (failing_http_world axios_timeout)))
  = WebContentFetcher.failure
      (lit "Failed to fetch content: timeout of 10000ms exceeded").
Proof.
  apply (@fetch_reports_the_client_error libs fetcher example_url
           (failing_http_world axios_timeout) axios_timeout); reflexivity.
Defined.

(** A thrown value that is no [Error]. *)
Example fetch_reports_an_unknown_error :
  fst (fst (WebContentFetcher.fetch libs fetcher example_url
              (failing_http_world (ThrownValue (JSString (lit "boom"))))))
  = WebContentFetcher.failure (lit "Failed to fetch content: Unknown error").
Proof. reflexivity. Qed.

Lemma fetch_tool_wraps_a_failed_fetch_witness :
  exists e,
    error (fst (fst (WebContentFetcher.fetch libs fetcher
                       (trim (lit " https://example.com/ "))
                       (failing_http_world axios_timeout)))) = Some e /\
    Mcp.handleFetchTool libs fetcher
      (Some (JSString (lit " https://example.com/ ")))
      (failing_http_world axios_timeout) =
      (Rejected (ErrorObject (lit "Web content fetch failed: " ++ e)),
       snd (fst (WebContentFetcher.fetch libs fetcher
                   (trim (lit " https://example.com/ "))
                   (failing_http_world axios_timeout))),
       snd (WebContentFetcher.fetch libs fetcher
              (trim (lit " https://example.com/ "))
              (failing_http_world axios_timeout))).
Proof.
  apply (@fetch_tool_wraps_a_failed_fetch libs fetcher
           (lit " https://example.com/ ")
           (failing_http_world axios_timeout)); reflexivity.
Defined.

Lemma fetch_tool_text_is_bounded_witness :
  exists u,
    Some (JSString (lit " https://example.com/ ")) = Some (JSString u) /\
    len (Mcp.text
           (Mcp.mkToolResponse
              (content_text example_url
                 (lit "Source: https://example.com/" ++ [LF; LF]
                  ++ lit "Hello"))))
    <= len (trim u) + 10073.
Proof.
  apply (@fetch_tool_text_is_bounded libs fetcher
           (Some (JSString (lit " https://example.com/ ")))
           (http_world (JSString og_html))).
  reflexivity.
Defined.

Lemma search_tool_lists_every_result_witness :
  exists r,
    McpServer.handleSearchTool (searcher true)
      (Some (JSString (lit " cats "))) cats_world
    = (Resolved r,
       snd (fst (WebSearcher.search (searcher true) (trim (lit " cats "))
                   cats_world)),
       snd (WebSearcher.search (searcher true) (trim (lit " cats "))
              cats_world)) /\
    Mcp.text r =
      lit "Found 1 search results for " ++ [Scraper.DQ] ++ lit "cats"
      ++ [Scraper.DQ] ++ lit ":" ++ [LF; LF]
      ++ lit "1. **Cats**" ++ [LF]
      ++ lit "   URL: https://cats.example/" ++ [LF]
      ++ lit "   " ++ [LF].
Proof.
  destruct (@search_tool_lists_every_result (searcher true) (lit " cats ")
              cats_world eq_refl) as (r & E & _ & _).
  exists r. split; [exact E|].
  vm_compute in E. injection E as E. rewrite <- E. reflexivity.
Defined.

Example search_tool_without_results :
  fst (fst (McpServer.handleSearchTool (searcher true)
              (Some (JSString (lit "cats")))
              (browser_world false (Resolved tt) no_document)))
  = Resolved
      (Mcp.mkToolResponse
         (lit "No search results found for query: " ++ [Scraper.DQ]
          ++ lit "cats" ++ [Scraper.DQ])).
Proof. reflexivity. Qed.

Lemma unknown_tool_is_answered_as_an_error_witness :
  McpServer.callTool libs server (lit "fetch") None (http_world JSNull) =
    (McpServer.mkCallToolResult (lit "Error: Unknown tool: fetch") true,
     server, http_world JSNull).
Proof.
  apply (@unknown_tool_is_answered_as_an_error libs server (lit "fetch") None
           (http_world JSNull)); discriminate.
Defined.

Lemma fetch_tool_call_reports_the_http_error_witness :
  fst (fst (McpServer.callTool libs server (lit "fetch_web_content")
              (Some (McpServer.mkToolArgs None
                       (Some (JSString example_url))))
              (failing_http_world axios_timeout)))
  = McpServer.mkCallToolResult
      (lit "Error: Web content fetch failed: Failed to fetch content: timeout of 10000ms exceeded")
      true.
Proof.
  apply (@fetch_tool_call_reports_the_http_error libs server example_url
           (lit "timeout of 10000ms exceeded") None
           (failing_http_world axios_timeout)); reflexivity.
Defined.

(** The answers of the two validations, through the handler. *)
Example tool_call_with_bad_arguments :
  fst (fst (McpServer.callTool libs server (lit "fetch_web_content")
              (Some (McpServer.mkToolArgs None
                       (Some (JSString (lit "not-a-url")))))
              (http_world JSNull)))
  = McpServer.mkCallToolResult (lit "Error: Invalid URL format") true /\
  fst (fst (McpServer.callTool libs server (lit "search") None
              (http_world JSNull)))
  = McpServer.mkCallToolResult
      (lit "Error: Missing or invalid query parameter") true.
Proof. split; reflexivity. Qed.

Lemma search_ignores_a_blank_query_witness :
  WebSearcher.search (searcher true) (lit "   ") cats_world
    = ([], searcher true, cats_world) /\
  WebSearcherRevised.search (searcher true) (lit "   ") cats_world
    = ([], searcher true, cats_world).
Proof.
  apply (@search_ignores_a_blank_query (searcher true) (lit "   ")
           cats_world).
  reflexivity.
Defined.

(** A search that finds a result: the title is trimmed, the link is
    upgraded to https, one page was opened and closed, and the instance
    holds the browser it launched; a second search on it launches none. *)
Example search_finds_cats :
  fst (fst (WebSearcher.search (searcher true) (lit "cats") cats_world))
  = [mkSearchResult (lit "Cats") (lit "https://cats.example/") []
                    (Some [])] /\
  pages_opened (respond cats_world)
    (calls (snd (WebSearcher.search (searcher true) (lit "cats") cats_world)))
  = [1%nat] /\
  pages_closed
    (calls (snd (WebSearcher.search (searcher true) (lit "cats") cats_world)))
  = [1%nat] /\
  WebSearcher.browser
    (snd (fst (WebSearcher.search (searcher true) (lit "cats") cats_world)))
  = Some 1%nat /\
  List.length
    (filter launch_call
       (calls (snd (WebSearcher.search
                      (snd (fst (WebSearcher.search (searcher true)
                                   (lit "cats") cats_world)))
                      (lit "dogs")
                      (snd (WebSearcher.search (searcher true) (lit "cats")
                              cats_world))))))
  = 1%nat.
Proof. repeat split. Qed.

(** [close()] on an instance that holds a browser, twice. *)
Example close_twice :
  WebSearcher.close (WebSearcher.set_browser (Some 1%nat) (searcher true))
    (http_world JSNull)
  = (searcher true,
     snd (perform (BrowserClose 1%nat) (http_world JSNull))) /\
  WebSearcher.close (searcher true)
    (snd (perform (BrowserClose 1%nat) (http_world JSNull)))
  = (searcher true,
     snd (perform (BrowserClose 1%nat) (http_world JSNull))).
Proof. split; reflexivity. Qed.

Example fetchAndScrape_not_found :
  FetchAndScrape.fetchAndScrape (table_cheerio parse) strip_p not_found
    example_url None
  = Rejected
      (ErrorObject (lit "Failed to fetch https://example.com/: 404 Not Found")).
Proof. reflexivity. Qed.

Example fetchAndScrape_keeps_the_requested_url :
  match FetchAndScrape.fetchAndScrape (table_cheerio parse) strip_p found
          (lit "https://other.example/") None with
  | Resolved wc => option_map Types.url (metadata wc)
  | Rejected _ => None
  end = Some (Some (lit "https://other.example/")).
Proof. reflexivity. Qed.

(** The content root: a focus, a focus that matches nothing, no focus. *)
Example content_root_cases :
  map elt_id
    (Scraper.content_root (table_cheerio parse)
       (mkSelectors None (Some (lit ".post"))) main_page) = [1%nat] /\
  Scraper.content_root (table_cheerio parse)
    (mkSelectors None (Some (lit ".missing"))) main_page = [] /\
  map elt_id
    (Scraper.content_root (table_cheerio parse)
       (mkSelectors None None) main_page) = [1%nat] /\
  map elt_id
    (Scraper.content_root (table_cheerio parse)
       (mkSelectors None (Some [])) og_page) = [1%nat].
Proof. repeat split. Qed.

Example clean_whitespace_twice :
  Scraper.clean_whitespace (lit "  a  ") = lit "a" /\
  Scraper.clean_whitespace ([LF; LF] ++ lit " a " ++ [LF; LF; LF; LF]
                            ++ lit "b" ++ [LF])
    = lit "a" ++ [LF; LF] ++ lit "b" /\
  Scraper.clean_whitespace (lit "a" ++ [LF; LF] ++ lit "b")
    = lit "a" ++ [LF; LF] ++ lit "b" /\
  Scraper.clean_whitespace ([32; LF; 9]%N) = [].
Proof. repeat split. Qed.

Lemma waiting_calls_are_released_together_witness :
  exists st',
    EventLoop.run EventLoop.Named
      [EventLoop.Step 1; EventLoop.Step 2; EventLoop.Tick 2000;
       EventLoop.Step 1; EventLoop.Step 2] two_waiting = Some st' /\
    EventLoop.tasks st'
      = [EventLoop.AtInit; EventLoop.AtInit; EventLoop.AtInit] /\
    EventLoop.now st' = 2000 /\
    EventLoop.limiter st' = RateLimiter.mk 1 1 2000 2000.
Proof.
  destruct (@waiting_calls_are_released_together EventLoop.Named two_waiting
              1 2) as (st' & R & _ & _ & N & L).
  - discriminate.
  - reflexivity.
  - reflexivity.
  - cbn. lia.
  - cbn. lia.
  - exists st'. split; [exact R|].
    vm_compute in R. injection R as R. subst st'. repeat split.
Defined.

Lemma second_copy_launches_at_most_once_witness :
  exists st,
    EventLoop.run EventLoop.Revised slow_launch (EventLoop.fresh 2 0)
      = Some st /\
    (EventLoop.launched st <= 1)%nat.
Proof.
  destruct (EventLoop.run EventLoop.Revised slow_launch (EventLoop.fresh 2 0))
    as [st|] eqn:E; [|vm_compute in E; discriminate E].
  exists st. split; [reflexivity|].
  apply (@second_copy_launches_at_most_once 2 0 slow_launch st eq_refl E).
Defined.

Lemma headless_search_gives_up_on_a_captcha_witness :
  fst (fst (WebSearcher.search (searcher true) (lit "cats")
              (browser_world true (Resolved tt)
                 (one_result (lit "Title") (lit "https://example.com/")))))
  = [] /\
  filter submit_call
    (calls (snd (WebSearcher.search (searcher true) (lit "cats")
                   (browser_world true (Resolved tt)
                      (one_result (lit "Title")
                         (lit "https://example.com/"))))))
  = [].
Proof.
  destruct (@headless_search_gives_up_on_a_captcha (searcher true)
              (lit "cats")
              (browser_world true (Resolved tt)
                 (one_result (lit "Title") (lit "https://example.com/"))))
    as [[A B] _].
  - reflexivity.
  - intros hist p selector. reflexivity.
  - split; [exact A|exact B].
Defined.

Lemma requests_are_spaced_witness :
  4000 + 2000 <=
    RateLimiter.lastRequestTime
      (WebSearcher.rateLimiter
         (snd (fst (WebSearcher.search
                      (WebSearcher.set_rateLimiter
                         (RateLimiter.mk 1 1 2000 4000) (searcher true))
                      (lit "cats") cats_world)))) /\
  4000 + 2000 <=
    RateLimiter.lastRequestTime
      (WebContentFetcher.rateLimiter
         (snd (fst (WebContentFetcher.fetch libs
                      (WebContentFetcher.mk (RateLimiter.mk 1 1 2000 4000))
                      example_url (http_world JSNull))))).
Proof.
  split.
  - destruct (@requests_are_spaced libs (RateLimiter.mk 1 1 2000 4000)
                cats_world) as [S _];
      [reflexivity|reflexivity|cbn; lia|cbn; lia|].
    destruct (S (WebSearcher.set_rateLimiter (RateLimiter.mk 1 1 2000 4000)
                   (searcher true))
                (lit "cats") eq_refl eq_refl) as (_ & _ & _ & A & _).
    exact A.
  - destruct (@requests_are_spaced libs (RateLimiter.mk 1 1 2000 4000)
                (http_world JSNull)) as [_ F];
      [reflexivity|reflexivity|cbn; lia|cbn; lia|].
    destruct (F (WebContentFetcher.mk (RateLimiter.mk 1 1 2000 4000))
                example_url eq_refl eq_refl eq_refl) as (_ & _ & _ & A & _).
    exact A.
Defined.

(** A container whose first title selector finds an element without text:
    the title comes from the next selector that finds one with text. *)
Example title_from_the_second_selector :
  WebSearcher.extract_element
    (Dom.mkElement
       (fun sel =>
          if JS.eqb sel (lit ".result__title a")
          then Some (Dom.mkNode (Some (lit "  ")) (Some (lit "/first")) None)
          else if JS.eqb sel (lit "h2 a")
          then Some (Dom.mkNode (Some (lit " Second ")) None
                       (Some (lit "//second.example/")))
          else None))
  = [mkSearchResult (lit "Second") (lit "https://second.example/") []
                    (Some [])].
Proof. reflexivity. Qed.

(** C8 on a page whose conversion gives lines with white space around
    them and runs of line feeds: with the clean-up enabled (here left out
    of the options) the content is the header and the two lines joined by
    two line feeds. *)
Lemma clean_whitespace_steps_witness :
  content (Scraper.scrapeWebPage (table_cheerio parse) messy_turndown
             og_html None (scrape_options None None))
  = lit "Source: https://example.com/" ++ [LF; LF]
    ++ lit "a" ++ [LF; LF] ++ lit "b".
Proof.
  destruct (@clean_whitespace_steps (table_cheerio parse) messy_turndown
              og_html None (scrape_options None None) messy_markdown
              eq_refl) as (On & _).
  destruct (On eq_refl) as [_ E]. rewrite E. reflexivity.
Defined.

(** The same page with the clean-up disabled: the Markdown as turndown
    gave it; and without metadata: no header. *)
Example scrape_without_clean_up :
  content (Scraper.scrapeWebPage (table_cheerio parse) messy_turndown
             og_html None (scrape_options None (Some false)))
  = lit "Source: https://example.com/" ++ [LF; LF] ++ messy_markdown /\
  content (Scraper.scrapeWebPage (table_cheerio parse) messy_turndown
             og_html None (scrape_options (Some false) (Some true)))
  = lit "a" ++ [LF; LF] ++ lit "b".
Proof. split; reflexivity. Qed.

(** Two elements match the first main-content selector that matches: the
    selection holds both, the content is the first one's. *)
Example scrape_two_articles :
  map elt_id
    (Scraper.content_root (table_cheerio (fun _ => two_articles))
       (mkSelectors None None) two_articles) = [1%nat; 2%nat] /\
  content (Scraper.scrapeWebPage (table_cheerio (fun _ => two_articles))
             strip_p [] None (scrape_options (Some false) None))
  = lit "One" /\
  content (Scraper.scrapeWebPage (table_cheerio (fun _ => two_articles))
             strip_p [] None
             (mkScraperOptions (Some false) None None
                (Some (mkSelectors None (Some (lit ".missing"))))))
  = [].
Proof. repeat split. Qed.

End MoreRuns.
